(** * garmin-connect-cli: output projection and context aggregation

    A shallow embedding of the command layer of garmin-connect-cli:
    the Python values the commands manipulate, the [GarminClient]
    wrapper, the [context] aggregation command, the delete commands
    and the output layer they hand their results to. *)

From Stdlib Require Import List String Ascii ZArith Bool Lia Arith.
From Stdlib Require Import DecimalString DecimalZ DecimalN.
Import ListNotations.

Local Open Scope string_scope.
Local Open Scope list_scope.

Set Warnings "-register-all".

(** ** Characters and text *)

Definition text : Type := list ascii.

Definition chars (s : string) : text := list_ascii_of_string s.

Definition LF : ascii := ascii_of_nat 10.
Definition CR : ascii := ascii_of_nat 13.
Definition TAB : ascii := ascii_of_nat 9.
Definition BS : ascii := ascii_of_nat 8.
Definition FF : ascii := ascii_of_nat 12.
Definition DQUOTE : ascii := ascii_of_nat 34.
Definition BACKSLASH : ascii := ascii_of_nat 92.

(** Decimal rendering of an integer, as [str(n)] gives it. *)
Definition str_of_Z (z : Z) : string := NilZero.string_of_int (Z.to_int z).

(** [s.split(sep)] for a one-character separator: every occurrence
    of the separator cuts, empty pieces are kept. *)
Fixpoint split (sep : ascii) (s : string) : list string :=
  match s with
  | EmptyString => [EmptyString]
  | String c r =>
      if Ascii.eqb c sep then EmptyString :: split sep r
      else match split sep r with
           | h :: t => String c h :: t
           | [] => [String c EmptyString]
           end
  end.

(** ** Python values

    The values that cross the client boundary are decoded JSON:
    [None], booleans, numbers, strings, lists and dicts.  A dict keeps
    insertion order, so it is an association list with unique keys.
    A number is a decimal literal [m * 10^(-e)]; an [int] has
    [e = 0], a [float] has [e > 0] (see Floats below for the float a
    literal stands for). *)

Inductive json : Type :=
| JNull
| JBool (b : bool)
| JNum (m : Z) (e : nat)
| JStr (s : string)
| JList (xs : list json)
| JDict (kvs : list (string * json)).

Definition dict : Type := list (string * json).

Definition JInt (n : Z) : json := JNum n 0.

Fixpoint dict_lookup (k : string) (d : dict) : option json :=
  match d with
  | [] => None
  | (k', v) :: d' => if String.eqb k k' then Some v else dict_lookup k d'
  end.

(** [d[k] = v]: an existing key keeps its position, a new key goes last. *)
Fixpoint dict_set (k : string) (v : json) (d : dict) : dict :=
  match d with
  | [] => [(k, v)]
  | (k', v') :: d' =>
      if String.eqb k k' then (k', v) :: d' else (k', v') :: dict_set k v d'
  end.

Definition dict_keys (d : dict) : list string := map fst d.

Definition mem (k : string) (ks : list string) : bool :=
  existsb (String.eqb k) ks.

(** ** Exceptions

    The subclasses of [Exception] these commands can meet.  [Exit] and
    [Abort] are typer's (click's) exceptions; both derive from
    [RuntimeError], so an [except Exception] clause catches them.
    [OSError] stands for the errors of the file system, by the name
    of their class. *)

Inductive exn : Type :=
| AttributeError (msg : string)
| TypeError (msg : string)
| KeyError (key : string)
| OverflowError (msg : string)
| UpstreamError (cls msg : string)
| OSError (cls msg : string)
| Exit (code : Z)
| Abort.

Definition str_exn (e : exn) : string :=
  match e with
  | AttributeError m => m
  | TypeError m => m
  | KeyError k => "'" ++ k ++ "'"
  | OverflowError m => m
  | UpstreamError _ m => m
  | OSError _ m => m
  | Exit c => str_of_Z c
  | Abort => EmptyString
  end.

Definition res (A : Type) : Type := (exn + A)%type.

Definition type_name (v : json) : string :=
  match v with
  | JNull => "NoneType"
  | JBool _ => "bool"
  | JNum _ 0 => "int"
  | JNum _ (S _) => "float"
  | JStr _ => "str"
  | JList _ => "list"
  | JDict _ => "dict"
  end.

(** *** Floats

    A Python [float] is a binary64 number.  [JNum m e] with [e > 0]
    is a float, written by a decimal literal: it stands for the
    float Python reads from that literal, the binary64 number nearest
    to [m * 10^(-e)].  A float that the code computes is written as
    [repr] writes it, by the shortest literal that reads back as it
    (without an exponent: [1e+16] is [10000000000000000.0]).  The
    infinities and the sign of a zero have no literal of their own:
    a literal too large for a float stands for an infinity, and a
    zero is [0.0]. *)

(** The integer nearest to [n / d], the even one when two are as
    near ([n >= 0], [d > 0]). *)
Definition round_half_even (n d : Z) : Z :=
  let q := (n / d)%Z in
  match (2 * (n mod d) ?= d)%Z with
  | Lt => q
  | Gt => (q + 1)%Z
  | Eq => if Z.even q then q else (q + 1)%Z
  end.

(** [k] with [2^k <= n / d < 2^(k+1)] ([n, d > 0]). *)
Definition binade (n d : Z) : Z :=
  let k := (Z.log2 n - Z.log2 d)%Z in
  if (0 <=? k)%Z
  then (if (n <? d * 2 ^ k)%Z then k - 1 else k)%Z
  else (if (n * 2 ^ (- k) <? d)%Z then k - 1 else k)%Z.

(** The binary64 number nearest to [n / d >= 0], ties to even:
    [Some (M, q)] is [M * 2^q] with [M < 2^53], and [2^52 <= M]
    unless [q = -1074]; [None] is an overflow. *)
Definition nearest_float (n d : Z) : option (Z * Z) :=
  if (n =? 0)%Z then Some (0, -1074)%Z
  else
    let q := Z.max (binade n d - 52) (-1074) in
    let M := if (0 <=? q)%Z then round_half_even n (d * 2 ^ q)
             else round_half_even (n * 2 ^ (- q)) d in
    let (M, q) := if (M =? 2 ^ 53)%Z then (2 ^ 52, q + 1)%Z else (M, q) in
    if (971 <? q)%Z then None else Some (M, q).

(** The float [M * 2^q] as a fraction. *)
Definition float_num (x : Z * Z) : Z := (fst x * 2 ^ Z.max (snd x) 0)%Z.
Definition float_den (x : Z * Z) : Z := (2 ^ Z.max (- snd x) 0)%Z.

Definition float_eqb (x y : option (Z * Z)) : bool :=
  match x, y with
  | Some (M, q), Some (M', q') => (M =? M')%Z && (q =? q')%Z
  | _, _ => false
  end.

(** [k] with [10^k <= n / d < 10^(k+1)] ([n, d > 0]); no float needs
    more than 400 steps. *)
Fixpoint log10_up (fuel : nat) (n d : Z) : Z :=
  match fuel with
  | O => 0%Z
  | S f => if (10 * d <=? n)%Z then (1 + log10_up f n (10 * d))%Z else 0%Z
  end.

Fixpoint log10_down (fuel : nat) (n d : Z) : Z :=
  match fuel with
  | O => 0%Z
  | S f => if (d <=? 10 * n)%Z then (-1)%Z else (-1 + log10_down f (10 * n) d)%Z
  end.

Definition log10_floor (n d : Z) : Z :=
  if (d <=? n)%Z then log10_up 400 n d else log10_down 400 n d.

(** The decimal [D * 10^k] as a fraction. *)
Definition decimal_num (D k : Z) : Z := (D * 10 ^ Z.max k 0)%Z.
Definition decimal_den (k : Z) : Z := (10 ^ Z.max (- k) 0)%Z.

(** The decimal of [p] digits that reads back as the float [x > 0],
    if there is one: of the two decimals of [p] digits around [x],
    the nearer one that does. *)
Definition decimal_of_float (x : Z * Z) (p : Z) : option (Z * Z) :=
  let k := (log10_floor (float_num x) (float_den x) - (p - 1))%Z in
  let tn := (float_num x * decimal_den k)%Z in
  let td := (float_den x * decimal_num 1 k)%Z in
  let lo := (tn / td)%Z in
  let hi := (lo + 1)%Z in
  let reads D := float_eqb (nearest_float (decimal_num D k) (decimal_den k)) (Some x) in
  match reads lo, reads hi with
  | true, true =>
      match (2 * (tn mod td) ?= td)%Z with
      | Lt => Some (lo, k)
      | Gt => Some (hi, k)
      | Eq => Some (if Z.even lo then lo else hi, k)
      end
  | true, false => Some (lo, k)
  | false, true => Some (hi, k)
  | false, false => None
  end.

(** The shortest decimal that reads back as [x]; seventeen digits
    always do. *)
Fixpoint shortest_decimal (x : Z * Z) (tries : nat) (p : Z) : Z * Z :=
  match tries with
  | O => (fst x, 0%Z)
  | S t =>
      match decimal_of_float x p with
      | Some (D, k) => if (D =? 10 ^ p)%Z then (1, k + p)%Z else (D, k)
      | None => shortest_decimal x t (p + 1)
      end
  end.

(** Whether the float of the literal [m * 10^(-e)] is zero: the
    literal is zero, or too small to be read as anything else. *)
Definition float_is_zero (m : Z) (e : nat) : bool :=
  match nearest_float (Z.abs m) (10 ^ Z.of_nat e) with
  | Some (M, _) => (M =? 0)%Z
  | None => false
  end.

Arguments float_is_zero : simpl never.

(** Truth value of an object in a condition. *)
Definition truthy (v : json) : bool :=
  match v with
  | JNull => false
  | JBool b => b
  | JNum m 0 => negb (m =? 0)%Z
  | JNum m e => negb (float_is_zero m e)
  | JStr s => negb (String.eqb s EmptyString)
  | JList xs => match xs with [] => false | _ => true end
  | JDict kvs => match kvs with [] => false | _ => true end
  end.

Definition no_attribute (v : json) (a : string) : exn :=
  AttributeError ("'" ++ type_name v ++ "' object has no attribute '" ++ a ++ "'").

Definition value_or (d : dict) (k : string) (default : json) : json :=
  match dict_lookup k d with Some x => x | None => default end.

Arguments value_or : simpl never.

(** [v.get(k, default)]: only a dict has the method. *)
Definition get_default (v : json) (k : string) (default : json) : res json :=
  match v with
  | JDict kvs => inr (value_or kvs k default)
  | _ => inl (no_attribute v "get")
  end.

(** [v.get(k)] *)
Definition get (v : json) (k : string) : res json := get_default v k JNull.

Definition is_substring (k s : string) : bool :=
  match String.index 0 k s with Some _ => true | None => false end.

Definition is_str (k : string) (v : json) : bool :=
  match v with JStr s => String.eqb k s | _ => false end.

(** [k in v] for a string [k]. *)
Definition contains (k : string) (v : json) : res bool :=
  match v with
  | JDict kvs => inr (mem k (dict_keys kvs))
  | JList xs => inr (existsb (is_str k) xs)
  | JStr s => inr (is_substring k s)
  | _ => inl (TypeError ("argument of type '" ++ type_name v ++ "' is not iterable"))
  end.

(** [v[k]] for a string [k]. *)
Definition getitem (v : json) (k : string) : res json :=
  match v with
  | JDict kvs =>
      match dict_lookup k kvs with Some x => inr x | None => inl (KeyError k) end
  | JList _ => inl (TypeError "list indices must be integers or slices, not str")
  | JStr _ => inl (TypeError "string indices must be integers, not 'str'")
  | _ => inl (TypeError ("'" ++ type_name v ++ "' object is not subscriptable"))
  end.

Definition isinstance_list (v : json) : bool :=
  match v with JList _ => true | _ => false end.

Definition isinstance_dict (v : json) : bool :=
  match v with JDict _ => true | _ => false end.

(** The literal of the float [x >= 0], with the sign [negative]. *)
Definition float_literal (negative : bool) (x : Z * Z) : json :=
  if (fst x =? 0)%Z then JNum 0 1
  else
    let (D, k) := shortest_decimal x 17 1 in
    let D := if negative then (- D)%Z else D in
    if (0 <=? k)%Z then JNum (D * 10 ^ (k + 1)) 1
    else JNum D (Z.to_nat (- k)).

(** The quotient of an [int] by 1000 is the nearest float; there is
    none when the quotient reaches the midpoint between the largest
    float and [2^1024]. *)
Definition too_large_for_float (m : Z) : bool :=
  (1000 * (2 ^ 1024 - 2 ^ 970) <=? Z.abs m)%Z.

(** [m / 1000] for the [int] [m]: the float nearest to the exact
    quotient.  There is none when [m] is too large, and [div1000]
    raises before it asks. *)
Definition int_div1000 (m : Z) : json :=
  match nearest_float (Z.abs m) 1000 with
  | Some x => float_literal (m <? 0)%Z x
  | None => JNum m 0
  end.

(** [x / 1000] for the float of the literal [m * 10^(-e)]: the
    literal is read, the float divided and the quotient rounded.  A
    literal that stands for an infinity is its own quotient. *)
Definition float_div1000 (m : Z) (e : nat) : json :=
  match nearest_float (Z.abs m) (10 ^ Z.of_nat e) with
  | Some x =>
      match nearest_float (float_num x) (1000 * float_den x) with
      | Some y => float_literal (m <? 0)%Z y
      | None => JNum m e
      end
  | None => JNum m e
  end.

Arguments int_div1000 : simpl never.
Arguments float_div1000 : simpl never.

(** [x / 1000]: true division, defined on numbers (and on [bool],
    which is an [int]). *)
Definition div1000 (v : json) : res json :=
  match v with
  | JNum m 0 =>
      if too_large_for_float m
      then inl (OverflowError "integer division result too large for a float")
      else inr (int_div1000 m)
  | JNum m e => inr (float_div1000 m e)
  | JBool b => inr (int_div1000 (if b then 1 else 0))
  | _ => inl (TypeError ("unsupported operand type(s) for /: '" ++ type_name v ++ "' and 'int'"))
  end.

(** The items a [for] loop sees: the elements of a list, the keys of
    a dict, the characters of a string. *)
Definition iter (v : json) : res (list json) :=
  match v with
  | JList xs => inr xs
  | JDict kvs => inr (map (fun kv => JStr (fst kv)) kvs)
  | JStr s => inr (map (fun c => JStr (String c EmptyString)) (chars s))
  | _ => inl (TypeError ("'" ++ type_name v ++ "' object is not iterable"))
  end.

(** ** Output layer

    [garmin_connect_cli/output.py] is not among the sources; the
    commands import [OutputFormat], [output] and [emit_result] from
    it.  The definitions of this part follow the specification of the
    Output Projector. *)

(** Modelled from the spec: the [OutputFormat] enumeration of
    [output.py] (its members [json] and the others are used by
    [cli.py] and [core.py]). *)
Module OutputFormat.
Inductive t : Type := json | jsonl | csv | tsv | human.
End OutputFormat.

(** Modelled from the spec: a Record is a mapping from string keys to
    values; a RecordSet is a single Record or an ordered sequence of
    Records. *)
Definition Record : Type := dict.

Inductive RecordSet : Type :=
| One (r : Record)
| Many (rs : list Record).

Definition records (data : RecordSet) : list Record :=
  match data with One r => [r] | Many rs => rs end.

Definition to_json (data : RecordSet) : json :=
  match data with
  | One r => JDict r
  | Many rs => JList (map JDict rs)
  end.

(** Modelled from the spec: field selection of [output.py]; it keeps
    the selected top-level keys of a Record and looks no deeper.  An
    absent selector keeps every key. *)
Definition filter_record (fields : option (list string)) (r : Record) : Record :=
  match fields with
  | None => r
  | Some fs => filter (fun kv => mem (fst kv) fs) r
  end.

Definition filter_fields (fields : option (list string)) (data : RecordSet)
  : RecordSet :=
  match data with
  | One r => One (filter_record fields r)
  | Many rs => Many (map (filter_record fields) rs)
  end.

(** *** JSON text *)

Fixpoint text_of_uint (d : Decimal.uint) : text :=
  match d with
  | Decimal.Nil => []
  | Decimal.D0 d => "0"%char :: text_of_uint d
  | Decimal.D1 d => "1"%char :: text_of_uint d
  | Decimal.D2 d => "2"%char :: text_of_uint d
  | Decimal.D3 d => "3"%char :: text_of_uint d
  | Decimal.D4 d => "4"%char :: text_of_uint d
  | Decimal.D5 d => "5"%char :: text_of_uint d
  | Decimal.D6 d => "6"%char :: text_of_uint d
  | Decimal.D7 d => "7"%char :: text_of_uint d
  | Decimal.D8 d => "8"%char :: text_of_uint d
  | Decimal.D9 d => "9"%char :: text_of_uint d
  end.

Definition digits_of_N (n : N) : text := text_of_uint (N.to_uint n).

(** Modelled from the spec: the JSON text of a number of [output.py].
    A number [m * 10^(-e)] is written as a literal: the digits of
    [|m|], padded to at least [e + 1] digits, with the point before
    the last [e]. *)
Definition render_num (m : Z) (e : nat) : text :=
  let ds := digits_of_N (Z.abs_N m) in
  let padded := repeat "0"%char (S e - List.length ds) ++ ds in
  let k := List.length padded - e in
  let sign := if (m <? 0)%Z then ["-"%char] else [] in
  match e with
  | 0 => sign ++ ds
  | S _ => sign ++ firstn k padded ++ "."%char :: skipn k padded
  end.

Definition hex_digit (n : nat) : ascii :=
  nth n (chars "0123456789abcdef") "0"%char.

(** Modelled from the spec: the JSON text of a string of [output.py].
    One character inside a string is written as its short escape, as
    [\u00XY] when it is another character outside printable ASCII, as
    itself otherwise. *)
Definition escape_char (c : ascii) : text :=
  let n := nat_of_ascii c in
  if Ascii.eqb c DQUOTE then [BACKSLASH; DQUOTE]
  else if Ascii.eqb c BACKSLASH then [BACKSLASH; BACKSLASH]
  else if Ascii.eqb c LF then [BACKSLASH; "n"%char]
  else if Ascii.eqb c CR then [BACKSLASH; "r"%char]
  else if Ascii.eqb c TAB then [BACKSLASH; "t"%char]
  else if Ascii.eqb c BS then [BACKSLASH; "b"%char]
  else if Ascii.eqb c FF then [BACKSLASH; "f"%char]
  else if Nat.ltb n 32 || Nat.ltb 126 n then
    [BACKSLASH; "u"%char; "0"%char; "0"%char; hex_digit (n / 16); hex_digit (n mod 16)]
  else [c].

Definition render_string (s : string) : text :=
  DQUOTE :: flat_map escape_char (chars s) ++ [DQUOTE].

(** The white space of a rendering: what follows an opening bracket
    or a comma at a nesting level, and what follows a colon. *)
Record layout : Type := {
  nl : nat -> text;
  sp : text
}.

Definition compact : layout :=
  {| nl := fun _ => []; sp := [] |}.

Definition pretty : layout :=
  {| nl := fun lvl => LF :: repeat " "%char (2 * lvl);
     sp := [" "%char] |}.

Definition render_items (item : json -> text) (sep close : text)
  : list json -> text :=
  fix go (l : list json) : text :=
    match l with
    | [] => close
    | y :: l' => ","%char :: sep ++ item y ++ go l'
    end.

Definition render_members (item : json -> text) (sep col close : text)
  : list (string * json) -> text :=
  fix go (l : list (string * json)) : text :=
    match l with
    | [] => close
    | (k, y) :: l' =>
        ","%char :: sep ++ render_string k ++ ":"%char :: col ++ item y ++ go l'
    end.

(** Modelled from the spec: the JSON serialisation [output.py] uses,
    pretty-printed for [json] and compact for [jsonl]. *)
Fixpoint render (L : layout) (lvl : nat) (v : json) {struct v} : text :=
  match v with
  | JNull => chars "null"
  | JBool true => chars "true"
  | JBool false => chars "false"
  | JNum m e => render_num m e
  | JStr s => render_string s
  | JList [] => chars "[]"
  | JList (x :: xs) =>
      "["%char :: nl L (S lvl) ++ render L (S lvl) x ++
      render_items (render L (S lvl)) (nl L (S lvl)) (nl L lvl ++ ["]"%char]) xs
  | JDict [] => chars "{}"
  | JDict ((k, x) :: kvs) =>
      "{"%char :: nl L (S lvl) ++ render_string k ++ ":"%char :: sp L ++
      render L (S lvl) x ++
      render_members (render L (S lvl)) (nl L (S lvl)) (sp L)
        (nl L lvl ++ ["}"%char]) kvs
  end.

Definition json_dumps (v : json) : text := render compact 0 v.
Definition json_dumps_indent (v : json) : text := render pretty 0 v.

(** *** Reading JSON text back

    The reader the round-trip properties use on the output, as the
    tests use [json.loads]: white space between tokens, the literals,
    decimal numbers, strings with their escapes, arrays and objects.
    An object is read as its members in order. *)

Definition is_ws (c : ascii) : bool :=
  Ascii.eqb c " "%char || Ascii.eqb c LF || Ascii.eqb c CR || Ascii.eqb c TAB.

Fixpoint skip_ws (t : text) : text :=
  match t with
  | [] => []
  | c :: t' => if is_ws c then skip_ws t' else t
  end.

Definition is_digit (c : ascii) : bool :=
  existsb (Ascii.eqb c) (chars "0123456789").

(** The longest prefix of digits, and what follows it. *)
Fixpoint take_digits (t : text) : text * text :=
  match t with
  | [] => ([], [])
  | c :: t' =>
      if is_digit c then let (ds, r) := take_digits t' in (c :: ds, r)
      else ([], t)
  end.

Definition digit_of (c : ascii) : option (Decimal.uint -> Decimal.uint) :=
  if Ascii.eqb c "0"%char then Some Decimal.D0
  else if Ascii.eqb c "1"%char then Some Decimal.D1
  else if Ascii.eqb c "2"%char then Some Decimal.D2
  else if Ascii.eqb c "3"%char then Some Decimal.D3
  else if Ascii.eqb c "4"%char then Some Decimal.D4
  else if Ascii.eqb c "5"%char then Some Decimal.D5
  else if Ascii.eqb c "6"%char then Some Decimal.D6
  else if Ascii.eqb c "7"%char then Some Decimal.D7
  else if Ascii.eqb c "8"%char then Some Decimal.D8
  else if Ascii.eqb c "9"%char then Some Decimal.D9
  else None.

Fixpoint uint_of_text (t : text) : Decimal.uint :=
  match t with
  | [] => Decimal.Nil
  | c :: t' =>
      match digit_of c with
      | Some d => d (uint_of_text t')
      | None => Decimal.Nil
      end
  end.

Definition N_of_digits (t : text) : N := N.of_uint (uint_of_text t).

Definition signed (negative : bool) (n : N) : Z :=
  if negative then (- Z.of_N n)%Z else Z.of_N n.

(** Digits, then possibly a point and more digits. *)
Definition parse_unsigned (negative : bool) (t1 : text) : option (json * text) :=
  let (ip, t2) := take_digits t1 in
  match ip with
  | [] => None
  | _ :: _ =>
      match t2 with
      | c :: t3 =>
          if Ascii.eqb c "."%char then
            let (fp, t4) := take_digits t3 in
            match fp with
            | [] => None
            | _ :: _ =>
                Some (JNum (signed negative (N_of_digits (ip ++ fp))) (List.length fp), t4)
            end
          else Some (JNum (signed negative (N_of_digits ip)) 0, t2)
      | [] => Some (JNum (signed negative (N_of_digits ip)) 0, t2)
      end
  end.

Definition parse_number (t : text) : option (json * text) :=
  match t with
  | c :: t' =>
      if Ascii.eqb c "-"%char then parse_unsigned true t'
      else parse_unsigned false t
  | [] => None
  end.

Definition hex_value (c : ascii) : option nat :=
  let n := nat_of_ascii c in
  if Nat.leb 48 n && Nat.leb n 57 then Some (n - 48)
  else if Nat.leb 97 n && Nat.leb n 102 then Some (n - 87)
  else if Nat.leb 65 n && Nat.leb n 70 then Some (n - 55)
  else None.

(** The character a short escape stands for. *)
Definition unescape (c : ascii) : option ascii :=
  if Ascii.eqb c DQUOTE then Some DQUOTE
  else if Ascii.eqb c BACKSLASH then Some BACKSLASH
  else if Ascii.eqb c "/"%char then Some "/"%char
  else if Ascii.eqb c "n"%char then Some LF
  else if Ascii.eqb c "r"%char then Some CR
  else if Ascii.eqb c "t"%char then Some TAB
  else if Ascii.eqb c "b"%char then Some BS
  else if Ascii.eqb c "f"%char then Some FF
  else None.

Definition code_point (h1 h2 h3 h4 : ascii) : option ascii :=
  match hex_value h1, hex_value h2, hex_value h3, hex_value h4 with
  | Some a, Some b, Some c, Some d =>
      let n := ((a * 16 + b) * 16 + c) * 16 + d in
      if Nat.ltb n 256 then Some (ascii_of_nat n) else None
  | _, _, _, _ => None
  end.

Definition cons_char (c : ascii) (r : option (text * text)) : option (text * text) :=
  match r with
  | Some (l, t) => Some (c :: l, t)
  | None => None
  end.

(** The characters of a string up to its closing quote. *)
Fixpoint parse_string_body (t : text) : option (text * text) :=
  match t with
  | [] => None
  | c :: t' =>
      if Ascii.eqb c DQUOTE then Some ([], t')
      else if Ascii.eqb c BACKSLASH then
        match t' with
        | [] => None
        | e :: t'' =>
            if Ascii.eqb e "u"%char then
              match t'' with
              | h1 :: h2 :: h3 :: h4 :: t3 =>
                  match code_point h1 h2 h3 h4 with
                  | Some ch => cons_char ch (parse_string_body t3)
                  | None => None
                  end
              | _ => None
              end
            else
              match unescape e with
              | Some ch => cons_char ch (parse_string_body t'')
              | None => None
              end
        end
      else cons_char c (parse_string_body t')
  end.

Fixpoint strip_prefix (pre t : text) : option text :=
  match pre with
  | [] => Some t
  | c :: pre' =>
      match t with
      | [] => None
      | c' :: t' => if Ascii.eqb c c' then strip_prefix pre' t' else None
      end
  end.

Section Elements.

Variable parse_value : text -> option (json * text).

(** The elements of an array after the first, up to the bracket. *)
Fixpoint parse_items (n : nat) (t : text) : option (list json * text) :=
  match n with
  | 0 => None
  | S n' =>
      match skip_ws t with
      | [] => None
      | c :: r =>
          if Ascii.eqb c "]"%char then Some ([], r)
          else if Ascii.eqb c ","%char then
            match parse_value r with
            | Some (x, r1) =>
                match parse_items n' r1 with
                | Some (xs, r2) => Some (x :: xs, r2)
                | None => None
                end
            | None => None
            end
          else None
      end
  end.

(** A member of an object: a string, a colon, a value. *)
Definition parse_member (t : text) : option (string * json * text) :=
  match skip_ws t with
  | [] => None
  | c :: r =>
      if Ascii.eqb c DQUOTE then
        match parse_string_body r with
        | Some (k, r1) =>
            match skip_ws r1 with
            | [] => None
            | c' :: r2 =>
                if Ascii.eqb c' ":"%char then
                  match parse_value r2 with
                  | Some (x, r3) => Some (string_of_list_ascii k, x, r3)
                  | None => None
                  end
                else None
            end
        | None => None
        end
      else None
  end.

(** The members of an object after the first, up to the brace. *)
Fixpoint parse_members (n : nat) (t : text) : option (list (string * json) * text) :=
  match n with
  | 0 => None
  | S n' =>
      match skip_ws t with
      | [] => None
      | c :: r =>
          if Ascii.eqb c "}"%char then Some ([], r)
          else if Ascii.eqb c ","%char then
            match parse_member r with
            | Some (k, x, r1) =>
                match parse_members n' r1 with
                | Some (kvs, r2) => Some ((k, x) :: kvs, r2)
                | None => None
                end
            | None => None
            end
          else None
      end
  end.

End Elements.

Definition literal (word : string) (v : json) (t : text) : option (json * text) :=
  match strip_prefix (chars word) t with
  | Some r => Some (v, r)
  | None => None
  end.

(** A value, with [fuel] bounding the nesting. *)
Fixpoint parse_value (fuel : nat) (t : text) : option (json * text) :=
  match fuel with
  | 0 => None
  | S f =>
      match skip_ws t with
      | [] => None
      | c :: r =>
          if is_digit c || Ascii.eqb c "-"%char then parse_number (c :: r)
          else if Ascii.eqb c DQUOTE then
            match parse_string_body r with
            | Some (s, r') => Some (JStr (string_of_list_ascii s), r')
            | None => None
            end
          else if Ascii.eqb c "["%char then
            match skip_ws r with
            | [] => None
            | c' :: r' =>
                if Ascii.eqb c' "]"%char then Some (JList [], r')
                else
                  match parse_value f r with
                  | Some (x, r1) =>
                      match parse_items (parse_value f) (S (List.length r1)) r1 with
                      | Some (xs, r2) => Some (JList (x :: xs), r2)
                      | None => None
                      end
                  | None => None
                  end
            end
          else if Ascii.eqb c "{"%char then
            match skip_ws r with
            | [] => None
            | c' :: r' =>
                if Ascii.eqb c' "}"%char then Some (JDict [], r')
                else
                  match parse_member (parse_value f) r with
                  | Some (k, x, r1) =>
                      match parse_members (parse_value f) (S (List.length r1)) r1 with
                      | Some (kvs, r2) => Some (JDict ((k, x) :: kvs), r2)
                      | None => None
                      end
                  | None => None
                  end
            end
          else if Ascii.eqb c "n"%char then literal "null" JNull (c :: r)
          else if Ascii.eqb c "t"%char then literal "true" (JBool true) (c :: r)
          else if Ascii.eqb c "f"%char then literal "false" (JBool false) (c :: r)
          else None
      end
  end.

(** A whole text as one value; the length of the text is fuel
    enough. *)
Definition json_loads (t : text) : option json :=
  match parse_value (S (List.length t)) t with
  | Some (v, r) => match skip_ws r with [] => Some v | _ :: _ => None end
  | None => None
  end.

(** The nesting depth of a value. *)
Fixpoint depth (v : json) : nat :=
  match v with
  | JList xs => S (fold_right (fun x n => Nat.max (depth x) n) 0 xs)
  | JDict kvs => S (fold_right (fun kv n => Nat.max (depth (snd kv)) n) 0 kvs)
  | _ => 0
  end.

(** *** Delimited text *)

(** Modelled from the spec: the text of a cell of [csv] and [tsv]
    output; a missing key and [None] give an empty cell, a string
    gives itself, every other value is coerced to its JSON text. *)
Definition cell_text (v : option json) : text :=
  match v with
  | None => []
  | Some JNull => []
  | Some (JStr s) => chars s
  | Some x => json_dumps x
  end.

Definition is_line_break (c : ascii) : bool :=
  Ascii.eqb c LF || Ascii.eqb c CR.

(** Modelled from the spec: standard [csv] quoting; a cell that holds
    the separator, a quote or a line break is written between quotes,
    its quotes doubled, its line breaks kept. *)
Definition csv_cell (cell : text) : text :=
  if existsb (fun c => Ascii.eqb c ","%char || Ascii.eqb c DQUOTE || is_line_break c) cell
  then DQUOTE :: flat_map (fun c => if Ascii.eqb c DQUOTE then [DQUOTE; DQUOTE] else [c]) cell
              ++ [DQUOTE]
  else cell.

(** Modelled from the spec: [tsv] cells have their tabs and line
    breaks escaped. *)
Definition tsv_cell (cell : text) : text :=
  flat_map (fun c =>
              if Ascii.eqb c TAB then [BACKSLASH; "t"%char]
              else if Ascii.eqb c LF then [BACKSLASH; "n"%char]
              else if Ascii.eqb c CR then [BACKSLASH; "r"%char]
              else [c]) cell.

Fixpoint join (sep : ascii) (cells : list text) : text :=
  match cells with
  | [] => []
  | [c] => c
  | c :: cs => c ++ sep :: join sep cs
  end.

Definition add_columns (seen : list string) (r : Record) : list string :=
  fold_left (fun acc k => if mem k acc then acc else acc ++ [k]) (dict_keys r) seen.

(** Modelled from the spec: the columns are the union of the keys of
    all records, in first-seen order. *)
Definition columns (rs : list Record) : list string :=
  fold_left add_columns rs [].

Definition delimited_row (sep : ascii) (cell : text -> text)
  (cols : list string) (r : Record) : text :=
  join sep (map (fun c => cell (cell_text (dict_lookup c r))) cols).

(** Modelled from the spec: the rows of [csv] and [tsv] output, the
    header row of column names first unless it is suppressed. *)
Definition delimited (sep : ascii) (cell : text -> text) (no_header : bool)
  (rs : list Record) : list text :=
  let cols := columns rs in
  let header := join sep (map (fun c => cell (chars c)) cols) in
  let rows := map (delimited_row sep cell cols) rs in
  if no_header then rows else header :: rows.

(** *** The projector *)

Section Projector.

(** The [human] rendering is implementation-defined; it is a
    parameter of the projector. *)
Variable render_human : RecordSet -> list text.

(** Modelled from the spec: [output] of [output.py].  The result is
    the sequence of chunks written to standard output, each followed
    by a line feed. *)
Definition output (data : RecordSet) (format : OutputFormat.t)
  (fields : option (list string)) (no_header : bool) : list text :=
  let selected := filter_fields fields data in
  match format with
  | OutputFormat.json => [json_dumps_indent (to_json selected)]
  | OutputFormat.jsonl => map (fun r => json_dumps (JDict r)) (records selected)
  | OutputFormat.csv => delimited ","%char csv_cell no_header (records selected)
  | OutputFormat.tsv => delimited TAB tsv_cell no_header (records selected)
  | OutputFormat.human => render_human selected
  end.

(** Modelled from the spec: [emit_result] of [output.py]; the [human]
    format prints the message only, every other format the data. *)
Definition output_emit_result (data : RecordSet) (human_msg : string)
  (format : OutputFormat.t) (fields : option (list string)) (no_header : bool)
  : list text :=
  match format with
  | OutputFormat.human => [chars human_msg]
  | _ => output data format fields no_header
  end.

End Projector.

(** The bytes on standard output after the chunks were written. *)
Definition written (chunks : list text) : text :=
  flat_map (fun c => c ++ [LF]) chunks.

(** The lines of a text: the pieces its line feeds end. *)
Fixpoint lines_from (cur : text) (t : text) : list text :=
  match t with
  | [] => match cur with [] => [] | _ => [rev cur] end
  | c :: t' =>
      if Ascii.eqb c LF then rev cur :: lines_from [] t'
      else lines_from (c :: cur) t'
  end.

Definition lines (t : text) : list text := lines_from [] t.

(** ** Processes

    A command runs against the process-wide CLI options ([state] of
    [core.py]), its own local variables and the outside world; what
    it does to the outside world is kept as a log of events. *)

(** The methods of [GarminClient] the commands call, with their
    arguments. *)
Inductive api : Type :=
| Api_get_full_name
| Api_get_user_profile
| Api_get_user_summary (date_str : string)
| Api_get_heart_rates (date_str : string)
| Api_get_sleep_data (date_str : string)
| Api_get_body_battery (date_str : string)
| Api_get_stress_data (date_str : string)
| Api_get_training_status (date_str : string)
| Api_get_training_readiness (date_str : string)
| Api_get_max_metrics (date_str : string)
| Api_get_body_composition (date_str : string)
| Api_get_activities (start limit : Z)
| Api_delete_activity (activity_id : Z)
| Api_delete_weigh_in (pk : Z)
| Api_delete_weigh_ins (date_str : string).

Inductive event : Type :=
| Called (c : api)
| Login
| Upstream (c : api)
| Stdout (chunk : text)
| Stderr (line : string)
| Prompt (question : string).

(** [State] of [core.py], the global CLI options. *)
Record State : Type := {
  format : OutputFormat.t;
  fields : option (list string);
  no_header : bool;
  verbose : bool;
  quiet : bool;
  config_path : option string;
  profile : option string
}.

Record proc (L : Type) : Type := {
  globals : State;
  locals : L;
  log : list event
}.

Arguments globals {L} _.
Arguments locals {L} _.
Arguments log {L} _.

(** A computation either returns or raises; in both cases the
    process keeps what was done before. *)
Definition M (L A : Type) : Type := proc L -> res A * proc L.

Definition ret {L A} (a : A) : M L A := fun p => (inr a, p).

Definition bind {L A B} (m : M L A) (k : A -> M L B) : M L B :=
  fun p =>
    match m p with
    | (inr a, p') => k a p'
    | (inl e, p') => (inl e, p')
    end.

Definition raise {L A} (e : exn) : M L A := fun p => (inl e, p).

(** [try: body except Exception as e: handler] *)
Definition try_except {L A} (body : M L A) (handler : exn -> M L A) : M L A :=
  fun p =>
    match body p with
    | (inr a, p') => (inr a, p')
    | (inl e, p') => handler e p'
    end.

Definition lift {L A} (r : res A) : M L A := fun p => (r, p).

Definition tell {L} (ev : event) : M L unit :=
  fun p => (inr tt, {| globals := globals p; locals := locals p;
                       log := log p ++ [ev] |}).

Definition get_state {L} : M L State := fun p => (inr (globals p), p).

Definition get_locals {L} : M L L := fun p => (inr (locals p), p).

Definition modify {L} (f : L -> L) : M L unit :=
  fun p => (inr tt, {| globals := globals p; locals := f (locals p);
                       log := log p |}).

Declare Scope proc_scope.
Delimit Scope proc_scope with proc.
Notation "x <- m ;; k" := (bind m (fun x => k))
  (at level 61, m at next level, right associativity) : proc_scope.
Notation "m ;; k" := (bind m (fun _ => k))
  (at level 61, right associativity) : proc_scope.
Local Open Scope proc_scope.

Fixpoint for_each {L A} (f : A -> M L unit) (xs : list A) : M L unit :=
  match xs with
  | [] => ret tt
  | x :: xs' => f x ;; for_each f xs'
  end.

(** A comprehension whose element expression may raise. *)
Fixpoint map_res {A B} (f : A -> res B) (xs : list A) : res (list B) :=
  match xs with
  | [] => inr []
  | x :: xs' =>
      match f x with
      | inl e => inl e
      | inr y =>
          match map_res f xs' with
          | inl e => inl e
          | inr ys => inr (y :: ys)
          end
      end
  end.

(** ** client.py *)

(** What the wrapper meets when one of its methods runs: whether the
    token file is there, whether the tokens load, and what the wrapped
    [garminconnect] call does. *)
Record GarminClient : Type := {
  token_file_exists : api -> bool;
  login_failure : api -> option exn;
  upstream : api -> res json
}.

Section Client.

Context {L : Type}.
Variable client : GarminClient.

Definition ensure_authenticated (c : api) : M L unit :=
  if negb (token_file_exists client c) then
    tell (Stderr "error: Not authenticated. Run 'garmin-connect auth login' first.") ;;
    raise (Exit 2)
  else
    try_except
      (tell Login ;;
       match login_failure client c with
       | Some e => raise e
       | None => ret tt
       end)
      (fun e =>
         tell (Stderr ("error: Authentication failed: " ++ str_exn e)) ;;
         tell (Stderr "Try running 'garmin-connect auth login' to re-authenticate.") ;;
         raise (Exit 2)).

(** Every method of the wrapper has this shape:
    [self.ensure_authenticated(); return self.client.method(args)]. *)
Definition method (c : api) : M L json :=
  tell (Called c) ;;
  ensure_authenticated c ;;
  tell (Upstream c) ;;
  lift (upstream client c).

Definition get_full_name : M L json := method Api_get_full_name.
Definition get_user_profile : M L json := method Api_get_user_profile.
Definition get_user_summary (date_str : string) : M L json :=
  method (Api_get_user_summary date_str).
Definition get_heart_rates (date_str : string) : M L json :=
  method (Api_get_heart_rates date_str).
Definition get_sleep_data (date_str : string) : M L json :=
  method (Api_get_sleep_data date_str).
Definition get_body_battery (date_str : string) : M L json :=
  method (Api_get_body_battery date_str).
Definition get_stress_data (date_str : string) : M L json :=
  method (Api_get_stress_data date_str).
Definition get_training_status (date_str : string) : M L json :=
  method (Api_get_training_status date_str).
Definition get_training_readiness (date_str : string) : M L json :=
  method (Api_get_training_readiness date_str).
Definition get_max_metrics (date_str : string) : M L json :=
  method (Api_get_max_metrics date_str).
Definition get_body_composition (date_str : string) : M L json :=
  method (Api_get_body_composition date_str).
Definition get_activities (start limit : Z) : M L json :=
  method (Api_get_activities start limit).

(** The delete methods return [None]. *)
Definition client_delete_activity (activity_id : Z) : M L unit :=
  method (Api_delete_activity activity_id) ;; ret tt.
Definition client_delete_weigh_in (pk : Z) : M L unit :=
  method (Api_delete_weigh_in pk) ;; ret tt.
Definition client_delete_weigh_ins (date_str : string) : M L unit :=
  method (Api_delete_weigh_ins date_str) ;; ret tt.

End Client.

Section Commands.

(** The [human] rendering of the output layer. *)
Variable render_human : RecordSet -> list text.

(** ** core.py *)

Definition print_chunks {L} (chunks : list text) : M L unit :=
  for_each (fun c => tell (Stdout c)) chunks.

(** [emit]: output data using the current global format settings. *)
Definition emit {L} (data : RecordSet) : M L unit :=
  state <- get_state ;;
  print_chunks (output render_human data (format state) (fields state) (no_header state)).

(** [emit_result]: emit a mutation result using the global output
    settings. *)
Definition emit_result {L} (data : RecordSet) (human_msg : string) : M L unit :=
  state <- get_state ;;
  print_chunks (output_emit_result render_human data human_msg
                  (format state) (fields state) (no_header state)).

(** ** cli.py *)

Definition nonempty (s : string) : bool := negb (String.eqb s EmptyString).

Definition EXIT_ERROR : Z := 1.

(** [main]: the global options callback; it fills [state]. *)
Definition main {L} (format_ : OutputFormat.t) (fields_ : option string)
  (no_header_ verbose_ quiet_ : bool) (config profile_ : option string) : M L unit :=
  if verbose_ && quiet_ then
    tell (Stderr "error: --verbose and --quiet are mutually exclusive") ;;
    raise (Exit EXIT_ERROR)
  else
    fun p =>
      (inr tt,
       {| globals :=
            {| format := format_;
               fields := match fields_ with
                         | Some f => if nonempty f then Some (split ","%char f) else None
                         | None => None
                         end;
               no_header := no_header_;
               verbose := verbose_;
               quiet := quiet_;
               config_path := config;
               profile := profile_ |};
          locals := locals p;
          log := log p |}).

(** ** commands/context.py *)

(** The dicts the command builds. *)
Record frame : Type := {
  result : dict;
  health : dict;
  training : dict;
  weight_data : dict
}.

Definition empty_frame : frame :=
  {| result := []; health := []; training := []; weight_data := [] |}.

Definition set_result (k : string) (v : json) : M frame unit :=
  modify (fun f => {| result := dict_set k v (result f); health := health f;
                      training := training f; weight_data := weight_data f |}).

Definition set_health (k : string) (v : json) : M frame unit :=
  modify (fun f => {| result := result f; health := dict_set k v (health f);
                      training := training f; weight_data := weight_data f |}).

Definition set_training (k : string) (v : json) : M frame unit :=
  modify (fun f => {| result := result f; health := health f;
                      training := dict_set k v (training f);
                      weight_data := weight_data f |}).

Definition set_weight_data (k : string) (v : json) : M frame unit :=
  modify (fun f => {| result := result f; health := health f;
                      training := training f;
                      weight_data := dict_set k v (weight_data f) |}).

Definition new_health : M frame unit :=
  modify (fun f => {| result := result f; health := [];
                      training := training f; weight_data := weight_data f |}).

Definition new_training : M frame unit :=
  modify (fun f => {| result := result f; health := health f;
                      training := []; weight_data := weight_data f |}).

Definition new_weight_data : M frame unit :=
  modify (fun f => {| result := result f; health := health f;
                      training := training f; weight_data := [] |}).

(** [_log_error]: log the error to stderr if verbose mode is on. *)
Definition _log_error {L} (message : string) (exc : exn) : M L unit :=
  state <- get_state ;;
  if verbose state then
    tell (Stderr ("warning: " ++ message ++ ": " ++ str_exn exc))
  else ret tt.

(** [set(focus.split(",")) if focus else None] *)
Definition focus_areas_of (focus : option string) : option (list string) :=
  match focus with
  | Some f => if nonempty f then Some (split ","%char f) else None
  | None => None
  end.

(** [focus_areas is None or name in focus_areas] *)
Definition in_focus (focus_areas : option (list string)) (name : string) : bool :=
  match focus_areas with
  | None => true
  | Some areas => mem name areas
  end.

(** ** config.py *)

Record DefaultsConfig : Type := {
  defaults_format : string;
  defaults_limit : Z
}.

Record ProfileConfig : Type := {
  profile_email : option string
}.

Record Config : Type := {
  defaults : DefaultsConfig;
  profiles : list (string * ProfileConfig)
}.

(** [Config()], the configuration when there is no file. *)
Definition default_config : Config :=
  {| defaults := {| defaults_format := "json"; defaults_limit := 30 |};
     profiles := [] |}.

Section ContextCommand.

Variable client : GarminClient.
Variable today : string.

(** Lines 98-108: the profile is always included. *)
Definition context_profile : M frame unit :=
  try_except
    (profile <- get_user_profile client ;;
     displayName <- lift (get profile "displayName") ;;
     fullName <- get_full_name client ;;
     profileImageUrl <- lift (get profile "profileImageUrlLarge") ;;
     set_result "profile"
       (JDict [("displayName", displayName);
               ("fullName", fullName);
               ("profileImageUrl", profileImageUrl)]))
    (fun e =>
       _log_error "Failed to fetch profile" e ;;
       set_result "profile" JNull).

(** Lines 112-126. *)
Definition context_stats : M frame unit :=
  try_except
    (summary <- get_user_summary client today ;;
     totalSteps <- lift (get summary "totalSteps") ;;
     totalDistanceMeters <- lift (get summary "totalDistanceMeters") ;;
     totalKilocalories <- lift (get summary "totalKilocalories") ;;
     floorsClimbed <- lift (get summary "floorsClimbed") ;;
     activeTimeInSeconds <- lift (get summary "activeTimeInSeconds") ;;
     minHeartRate <- lift (get summary "minHeartRate") ;;
     maxHeartRate <- lift (get summary "maxHeartRate") ;;
     restingHeartRate <- lift (get summary "restingHeartRate") ;;
     set_result "today_stats"
       (JDict [("totalSteps", totalSteps);
               ("totalDistanceMeters", totalDistanceMeters);
               ("totalKilocalories", totalKilocalories);
               ("floorsClimbed", floorsClimbed);
               ("activeTimeInSeconds", activeTimeInSeconds);
               ("minHeartRate", minHeartRate);
               ("maxHeartRate", maxHeartRate);
               ("restingHeartRate", restingHeartRate)]))
    (fun e =>
       _log_error "Failed to fetch stats" e ;;
       set_result "today_stats" JNull).

(** Lines 132-141. *)
Definition context_heart_rate : M frame unit :=
  try_except
    (hr <- get_heart_rates client today ;;
     resting <- lift (get hr "restingHeartRate") ;;
     min <- lift (get hr "minHeartRate") ;;
     max <- lift (get hr "maxHeartRate") ;;
     set_health "heart_rate"
       (JDict [("resting", resting); ("min", min); ("max", max)]))
    (fun e =>
       _log_error "Failed to fetch heart rate" e ;;
       set_health "heart_rate" JNull).

(** Lines 143-158. *)
Definition context_sleep : M frame unit :=
  try_except
    (sleep <- get_sleep_data client today ;;
     has_dto <- (if truthy sleep then lift (contains "dailySleepDTO" sleep)
                 else ret false) ;;
     if has_dto : bool then
       dto <- lift (getitem sleep "dailySleepDTO") ;;
       sleepTimeSeconds <- lift (get dto "sleepTimeSeconds") ;;
       deepSleepSeconds <- lift (get dto "deepSleepSeconds") ;;
       lightSleepSeconds <- lift (get dto "lightSleepSeconds") ;;
       remSleepSeconds <- lift (get dto "remSleepSeconds") ;;
       awakeSleepSeconds <- lift (get dto "awakeSleepSeconds") ;;
       set_health "sleep"
         (JDict [("sleepTimeSeconds", sleepTimeSeconds);
                 ("deepSleepSeconds", deepSleepSeconds);
                 ("lightSleepSeconds", lightSleepSeconds);
                 ("remSleepSeconds", remSleepSeconds);
                 ("awakeSleepSeconds", awakeSleepSeconds)])
     else set_health "sleep" JNull)
    (fun e =>
       _log_error "Failed to fetch sleep data" e ;;
       set_health "sleep" JNull).

(** [bb[-1]] of a list. *)
Definition last_item (v : json) : json :=
  match v with
  | JList xs => last xs JNull
  | _ => JNull
  end.

Definition len (v : json) : nat :=
  match v with
  | JList xs => List.length xs
  | _ => 0
  end.

(** Lines 160-169. *)
Definition context_body_battery : M frame unit :=
  try_except
    (bb <- get_body_battery client today ;;
     if truthy bb && isinstance_list bb && Nat.ltb 0 (len bb) then
       set_health "body_battery" (if truthy bb then last_item bb else JNull)
     else set_health "body_battery" JNull)
    (fun e =>
       _log_error "Failed to fetch body battery" e ;;
       set_health "body_battery" JNull).

(** Lines 171-183. *)
Definition context_stress : M frame unit :=
  try_except
    (stress <- get_stress_data client today ;;
     if truthy stress then
       overallStressLevel <- lift (get stress "overallStressLevel") ;;
       restStressLevel <- lift (get stress "restStressLevel") ;;
       activityStressLevel <- lift (get stress "activityStressLevel") ;;
       set_health "stress"
         (JDict [("overallStressLevel", overallStressLevel);
                 ("restStressLevel", restStressLevel);
                 ("activityStressLevel", activityStressLevel)])
     else set_health "stress" JNull)
    (fun e =>
       _log_error "Failed to fetch stress data" e ;;
       set_health "stress" JNull).

(** Lines 130-185. *)
Definition context_health : M frame unit :=
  new_health ;;
  context_heart_rate ;;
  context_sleep ;;
  context_body_battery ;;
  context_stress ;;
  f <- get_locals ;;
  set_result "health" (JDict (health f)).

(** Lines 191-196. *)
Definition context_training_status : M frame unit :=
  try_except
    (status <- get_training_status client today ;;
     phrase <- lift (get status "trainingStatusPhrase") ;;
     set_training "status" phrase)
    (fun e =>
       _log_error "Failed to fetch training status" e ;;
       set_training "status" JNull).

(** Lines 198-203. *)
Definition context_training_readiness : M frame unit :=
  try_except
    (readiness <- get_training_readiness client today ;;
     score <- lift (get readiness "readinessScore") ;;
     set_training "readiness" score)
    (fun e =>
       _log_error "Failed to fetch training readiness" e ;;
       set_training "readiness" JNull).

(** Lines 205-215. *)
Definition context_vo2max : M frame unit :=
  try_except
    (metrics <- get_max_metrics client today ;;
     if truthy metrics then
       generic <- lift (get_default metrics "generic" (JDict [])) ;;
       cycling <- lift (get_default metrics "cycling" (JDict [])) ;;
       running_value <- lift (get generic "vo2MaxValue") ;;
       set_training "vo2max_running" running_value ;;
       cycling_value <- lift (get cycling "vo2MaxValue") ;;
       set_training "vo2max_cycling" cycling_value
     else ret tt)
    (fun e =>
       _log_error "Failed to fetch VO2max metrics" e ;;
       set_training "vo2max_running" JNull ;;
       set_training "vo2max_cycling" JNull).

(** Lines 189-217. *)
Definition context_training : M frame unit :=
  new_training ;;
  context_training_status ;;
  context_training_readiness ;;
  context_vo2max ;;
  f <- get_locals ;;
  set_result "training" (JDict (training f)).

(** [x / 1000 if x else None] *)
Definition to_kg (x : json) : res json :=
  if truthy x then div1000 x else inr JNull.

(** Lines 223-237. *)
Definition context_body_composition : M frame unit :=
  try_except
    (body_comp <- get_body_composition client today ;;
     if truthy body_comp then
       weight_g <- lift (get body_comp "weight") ;;
       current_kg <- lift (to_kg weight_g) ;;
       set_weight_data "current_kg" current_kg ;;
       body_fat <- lift (get body_comp "bodyFat") ;;
       set_weight_data "body_fat_pct" body_fat ;;
       muscle_g <- lift (get body_comp "muscleMass") ;;
       muscle_mass_kg <- lift (to_kg muscle_g) ;;
       set_weight_data "muscle_mass_kg" muscle_mass_kg
     else ret tt)
    (fun e =>
       _log_error "Failed to fetch body composition" e ;;
       set_weight_data "current_kg" JNull ;;
       set_weight_data "body_fat_pct" JNull ;;
       set_weight_data "muscle_mass_kg" JNull).

(** Lines 221-239. *)
Definition context_weight : M frame unit :=
  new_weight_data ;;
  context_body_composition ;;
  f <- get_locals ;;
  set_result "weight" (JDict (weight_data f)).

Definition bind_res {A B} (r : res A) (k : A -> res B) : res B :=
  match r with
  | inl e => inl e
  | inr a => k a
  end.

(** Lines 246-258: the record kept of one activity. *)
Definition activity_summary (a : json) : res json :=
  bind_res (get a "activityId") (fun activityId =>
  bind_res (get a "activityName") (fun activityName =>
  bind_res (get a "activityType") (fun ty =>
  bind_res (if isinstance_dict ty
            then bind_res (get_default a "activityType" (JDict []))
                   (fun t => get t "typeKey")
            else get a "activityType") (fun activityType =>
  bind_res (get a "distance") (fun distance =>
  bind_res (get a "duration") (fun duration =>
  bind_res (get a "startTimeLocal") (fun startTimeLocal =>
  bind_res (get a "averageHR") (fun averageHR =>
  bind_res (get a "calories") (fun calories =>
  bind_res (get a "elevationGain") (fun elevationGain =>
  inr (JDict [("activityId", activityId);
              ("activityName", activityName);
              ("activityType", activityType);
              ("distance", distance);
              ("duration", duration);
              ("startTimeLocal", startTimeLocal);
              ("averageHR", averageHR);
              ("calories", calories);
              ("elevationGain", elevationGain)]))))))))))).

(** Lines 243-263. *)
Definition context_activities (activities_limit : Z) : M frame unit :=
  try_except
    (activities <- get_activities client 0 activities_limit ;;
     items <- lift (iter activities) ;;
     summaries <- lift (map_res activity_summary items) ;;
     set_result "recent_activities" (JList summaries))
    (fun e =>
       _log_error "Failed to fetch activities" e ;;
       set_result "recent_activities" (JList [])).

Definition when {L} (b : bool) (m : M L unit) : M L unit :=
  if b then m else ret tt.

(** Lines 87 and 95-265 of [context]: the aggregation, once the
    client is there. *)
Definition context_body (activities_limit : Z)
  (include_health include_stats include_training include_weight : bool)
  (focus : option string) : M frame unit :=
  let focus_areas := focus_areas_of focus in
  modify (fun _ => empty_frame) ;;
  context_profile ;;
  when (include_stats && in_focus focus_areas "stats") context_stats ;;
  when (include_health && in_focus focus_areas "health") context_health ;;
  when (include_training && in_focus focus_areas "training") context_training ;;
  when (include_weight && in_focus focus_areas "weight") context_weight ;;
  when (in_focus focus_areas "activities") (context_activities activities_limit) ;;
  f <- get_locals ;;
  emit (One (result f)).

End ContextCommand.

Section ContextCallback.

(** What [Config.load] meets at a path: the configuration it
    returns, or the exception that reading the file there raises. *)
Variable Config_load : option string -> res Config.

(** What the wrapper made for a profile meets: the token directory
    is that of the profile. *)
Variable client_for : option string -> GarminClient.

Variable today : string.

(** [get_client] of [client.py], called with a configuration:
    [GarminClient(config, profile)] keeps the configuration and
    looks at nothing yet. *)
Definition get_client (config : Config) (profile_ : option string) : GarminClient :=
  client_for profile_.

(** [context]: aggregated context for LLM prompts.  The
    configuration is loaded and the client made outside every [try]:
    an exception of [Config.load] ends the command before the first
    fetch. *)
Definition context (invoked_subcommand : option string) (activities_limit : Z)
  (include_health include_stats include_training include_weight : bool)
  (focus : option string) : M frame unit :=
  match invoked_subcommand with
  | Some _ => ret tt
  | None =>
      state <- get_state ;;
      config <- lift (Config_load (config_path state)) ;;
      let client := get_client config (profile state) in
      context_body client today activities_limit include_health include_stats
        include_training include_weight focus
  end.

End ContextCallback.

(** ** commands/activities.py and commands/weight.py: delete *)

Section Delete.

Variable client : GarminClient.

(** What the user answers to [typer.confirm]: yes, no, or no answer
    at all, on which the prompt raises [Abort]. *)
Variable answer : string -> res bool.

Definition confirm (question : string) : M unit bool :=
  tell (Prompt question) ;;
  lift (answer question).

(** [activities delete] *)
Definition delete_activity (activity_id : Z) (force : bool) : M unit unit :=
  (if negb force then
     confirmed <- confirm ("Delete activity " ++ str_of_Z activity_id ++ "?") ;;
     if negb confirmed then raise Abort else ret tt
   else ret tt) ;;
  client_delete_activity client activity_id ;;
  emit_result (One [("activity_id", JInt activity_id)])
    ("Activity " ++ str_of_Z activity_id ++ " deleted").

(** [weight delete] *)
Definition delete_weight (pk : Z) (force : bool) : M unit unit :=
  (if negb force then
     confirmed <- confirm ("Delete weight entry " ++ str_of_Z pk ++ "?") ;;
     if negb confirmed then raise Abort else ret tt
   else ret tt) ;;
  client_delete_weigh_in client pk ;;
  emit_result (One [("pk", JInt pk)])
    ("Weight entry " ++ str_of_Z pk ++ " deleted").

(** [weight delete-date] *)
Definition delete_weights_for_date (date_str : string) (force : bool) : M unit unit :=
  (if negb force then
     confirmed <- confirm ("Delete all weight entries for " ++ date_str ++ "?") ;;
     if negb confirmed then raise Abort else ret tt
   else ret tt) ;;
  client_delete_weigh_ins client date_str ;;
  emit_result (One [("date", JStr date_str)])
    ("Weight entries for " ++ date_str ++ " deleted").

End Delete.

End Commands.

(** Running a command from a fresh process. *)
Definition start {L} (state : State) (l : L) : proc L :=
  {| globals := state; locals := l; log := [] |}.

(** ** Observations

    What the statements below say about a run. *)

(** What a method call yields. *)
Definition fetch_outcome (client : GarminClient) (c : api) : res json :=
  if negb (token_file_exists client c) then inl (Exit 2)
  else match login_failure client c with
       | Some _ => inl (Exit 2)
       | None => upstream client c
       end.

(** What a method call does to the outside world. *)
Definition fetch_events (client : GarminClient) (c : api) : list event :=
  if negb (token_file_exists client c) then
    [Called c;
     Stderr "error: Not authenticated. Run 'garmin-connect auth login' first."]
  else match login_failure client c with
       | Some e =>
           [Called c; Login;
            Stderr ("error: Authentication failed: " ++ str_exn e);
            Stderr "Try running 'garmin-connect auth login' to re-authenticate."]
       | None => [Called c; Login; Upstream c]
       end.

Definition logged {L} (p : proc L) (evs : list event) : proc L :=
  {| globals := globals p; locals := locals p; log := log p ++ evs |}.

(** The client methods called, in order, among the events of a log. *)
Definition calls (evs : list event) : list api :=
  flat_map (fun ev => match ev with Called c => [c] | _ => [] end) evs.

(** The dicts of a frame. *)
Inductive slot : Type := InResult | InHealth | InTraining | InWeightData.

Definition component (s : slot) (f : frame) : dict :=
  match s with
  | InResult => result f
  | InHealth => health f
  | InTraining => training f
  | InWeightData => weight_data f
  end.

Definition update (s : slot) (u : dict -> dict) (f : frame) : frame :=
  match s with
  | InResult => {| result := u (result f); health := health f;
                   training := training f; weight_data := weight_data f |}
  | InHealth => {| result := result f; health := u (health f);
                   training := training f; weight_data := weight_data f |}
  | InTraining => {| result := result f; health := health f;
                     training := u (training f); weight_data := weight_data f |}
  | InWeightData => {| result := result f; health := health f;
                       training := training f; weight_data := u (weight_data f) |}
  end.

(** A process in the state [g] of the options with nothing done yet. *)
Definition fresh (g : State) : proc frame :=
  {| globals := g; locals := empty_frame; log := [] |}.

(** A block of [context] that ends normally whatever it meets and
    changes one dict only, in a way and with events that do not depend
    on what was done before it. *)
Definition uniform (s : slot) (m : M frame unit) (u : dict -> dict)
  (evs : list event) (g : State) : Prop :=
  forall p : proc frame, globals p = g ->
    m p = (inr tt, {| globals := g;
                      locals := update s u (locals p);
                      log := log p ++ evs |}).

(** The reference run of a block: on a frame whose dict [s] is [d]
    and with an empty log. *)
Definition probe (s : slot) (g : State) (d : dict) : proc frame :=
  {| globals := g; locals := update s (fun _ => d) empty_frame; log := [] |}.

Definition probe_update (s : slot) (m : M frame unit) (g : State) : dict -> dict :=
  fun d => component s (locals (snd (m (probe s g d)))).

Definition probe_value (s : slot) (key : string) (m : M frame unit) (g : State) : json :=
  value_or (probe_update s m g []) key JNull.

Definition probe_events (s : slot) (m : M frame unit) (g : State) : list event :=
  log (snd (m (probe s g []))).

(** A block that writes [key] of one dict, with the value and the
    events of its reference run. *)
Definition writes (s : slot) (key : string) (m : M frame unit) (g : State) : Prop :=
  uniform s m (dict_set key (probe_value s key m g)) (probe_events s m g) g.

(** Whether the profile fetch gave a dict, so that [context] goes on
    to ask for the full name. *)
Definition profile_fetched (client : GarminClient) : bool :=
  match fetch_outcome client Api_get_user_profile with
  | inr (JDict _) => true
  | _ => false
  end.

(** What the failure handlers of the two-key and three-key blocks
    leave. *)
Definition vo2max_nulls (d : dict) : dict :=
  dict_set "vo2max_cycling" JNull (dict_set "vo2max_running" JNull d).

Definition weight_nulls (d : dict) : dict :=
  dict_set "muscle_mass_kg" JNull
    (dict_set "body_fat_pct" JNull (dict_set "current_kg" JNull d)).

(** The sections of the aggregation, in the order [context] runs
    them, with the key each one fills in the result. *)
Inductive section : Type :=
| Profile | Stats | Health | Training | Weight | Activities.

Definition sections : list section :=
  [Profile; Stats; Health; Training; Weight; Activities].

Definition section_key (s : section) : string :=
  match s with
  | Profile => "profile"
  | Stats => "today_stats"
  | Health => "health"
  | Training => "training"
  | Weight => "weight"
  | Activities => "recent_activities"
  end.

(** The section a client method is fetched for. *)
Definition section_of (a : api) : option section :=
  match a with
  | Api_get_full_name | Api_get_user_profile => Some Profile
  | Api_get_user_summary _ => Some Stats
  | Api_get_heart_rates _ | Api_get_sleep_data _
  | Api_get_body_battery _ | Api_get_stress_data _ => Some Health
  | Api_get_training_status _ | Api_get_training_readiness _
  | Api_get_max_metrics _ => Some Training
  | Api_get_body_composition _ => Some Weight
  | Api_get_activities _ _ => Some Activities
  | Api_delete_activity _ | Api_delete_weigh_in _ | Api_delete_weigh_ins _ => None
  end.

(** Two clients meet the same thing when they run the method [a]. *)
Definition agree (c1 c2 : GarminClient) (a : api) : Prop :=
  token_file_exists c1 a = token_file_exists c2 a /\
  login_failure c1 a = login_failure c2 a /\
  upstream c1 a = upstream c2 a.

(** The enable condition of each section, as [context] tests it. *)
Definition enabled (include_health include_stats include_training include_weight : bool)
  (focus : option string) (s : section) : bool :=
  let focus_areas := focus_areas_of focus in
  match s with
  | Profile => true
  | Stats => include_stats && in_focus focus_areas "stats"
  | Health => include_health && in_focus focus_areas "health"
  | Training => include_training && in_focus focus_areas "training"
  | Weight => include_weight && in_focus focus_areas "weight"
  | Activities => in_focus focus_areas "activities"
  end.

(** A block that ends normally and sets [key] of the result to [v],
    whatever else it does to the other dicts. *)
Definition lands (key : string) (m : M frame unit) (v : json)
  (evs : list event) (g : State) : Prop :=
  forall p : proc frame, globals p = g ->
    exists f' : frame,
      m p = (inr tt, {| globals := g; locals := f'; log := log p ++ evs |}) /\
      result f' = dict_set key v (result (locals p)).

Section Sections.

Variable client : GarminClient.
Variable today : string.
Variable activities_limit : Z.
Variable g : State.

Definition health_dict : dict :=
  dict_set "stress"
    (probe_value InHealth "stress" (context_stress client today) g)
    (dict_set "body_battery"
       (probe_value InHealth "body_battery" (context_body_battery client today) g)
       (dict_set "sleep"
          (probe_value InHealth "sleep" (context_sleep client today) g)
          (dict_set "heart_rate"
             (probe_value InHealth "heart_rate" (context_heart_rate client today) g)
             []))).

Definition training_dict : dict :=
  probe_update InTraining (context_vo2max client today) g
    (dict_set "readiness"
       (probe_value InTraining "readiness"
          (context_training_readiness client today) g)
       (dict_set "status"
          (probe_value InTraining "status" (context_training_status client today) g)
          [])).

Definition weight_dict : dict :=
  probe_update InWeightData (context_body_composition client today) g [].

(** The value a section leaves under its key. *)
Definition section_value (s : section) : json :=
  match s with
  | Profile => probe_value InResult "profile" (context_profile client) g
  | Stats => probe_value InResult "today_stats" (context_stats client today) g
  | Health => JDict health_dict
  | Training => JDict training_dict
  | Weight => JDict weight_dict
  | Activities =>
      probe_value InResult "recent_activities"
        (context_activities client activities_limit) g
  end.

(** The events of a section. *)
Definition section_events (s : section) : list event :=
  match s with
  | Profile => probe_events InResult (context_profile client) g
  | Stats => probe_events InResult (context_stats client today) g
  | Health =>
      probe_events InHealth (context_heart_rate client today) g ++
      probe_events InHealth (context_sleep client today) g ++
      probe_events InHealth (context_body_battery client today) g ++
      probe_events InHealth (context_stress client today) g
  | Training =>
      probe_events InTraining (context_training_status client today) g ++
      probe_events InTraining (context_training_readiness client today) g ++
      probe_events InTraining (context_vo2max client today) g
  | Weight => probe_events InWeightData (context_body_composition client today) g
  | Activities =>
      probe_events InResult (context_activities client activities_limit) g
  end.

Definition section_block (s : section) : M frame unit :=
  match s with
  | Profile => context_profile client
  | Stats => context_stats client today
  | Health => context_health client today
  | Training => context_training client today
  | Weight => context_weight client today
  | Activities => context_activities client activities_limit
  end.

Variables include_health include_stats include_training include_weight : bool.
Variable focus : option string.

(** The CompositeResult: the enabled sections, written in order. *)
Definition composite : dict :=
  fold_left
    (fun d s =>
       if enabled include_health include_stats include_training include_weight focus s
       then dict_set (section_key s) (section_value s) d
       else d)
    sections [].

(** The sections of [context], one after the other, before [k]. *)
Definition chain (ss : list section) (k : M frame unit) : M frame unit :=
  fold_right
    (fun s rest =>
       when (enabled include_health include_stats include_training include_weight
               focus s)
         (section_block s) ;; rest)%proc
    k ss.

Definition composite_events : list event :=
  flat_map
    (fun s =>
       if enabled include_health include_stats include_training include_weight focus s
       then section_events s
       else [])
    sections.

End Sections.

(** ** Sample clients

    The answers [tests/conftest.py] gives its mocked client, and the
    same client with the fetches of chosen sections made to raise. *)

Definition mock_activity : json :=
  JDict [("activityId", JInt 123456789);
         ("activityName", JStr "Morning Run");
         ("activityType", JDict [("typeKey", JStr "running")]);
         ("distance", JNum 50000 1);
         ("duration", JNum 18000 1);
         ("startTimeLocal", JStr "2025-01-15 08:00:00");
         ("averageHR", JInt 145);
         ("calories", JInt 350);
         ("elevationGain", JNum 500 1)].

Definition mock_upstream (a : api) : res json :=
  match a with
  | Api_get_full_name => inr (JStr "Test User")
  | Api_get_user_profile =>
      inr (JDict [("displayName", JStr "testuser");
                  ("fullName", JStr "Test User");
                  ("userName", JStr "testuser");
                  ("profileImageUrlLarge", JStr "https://example.com/image.jpg")])
  | Api_get_user_summary _ =>
      inr (JDict [("totalSteps", JInt 10000);
                  ("totalDistanceMeters", JInt 8000);
                  ("totalKilocalories", JInt 2500);
                  ("floorsClimbed", JInt 10);
                  ("activeTimeInSeconds", JInt 3600);
                  ("minHeartRate", JInt 50);
                  ("maxHeartRate", JInt 165);
                  ("restingHeartRate", JInt 55)])
  | Api_get_heart_rates _ =>
      inr (JDict [("restingHeartRate", JInt 55);
                  ("minHeartRate", JInt 45);
                  ("maxHeartRate", JInt 165);
                  ("heartRateValues", JList [])])
  | Api_get_sleep_data _ =>
      inr (JDict [("dailySleepDTO",
                   JDict [("sleepTimeSeconds", JInt 28800);
                          ("deepSleepSeconds", JInt 7200);
                          ("lightSleepSeconds", JInt 14400);
                          ("remSleepSeconds", JInt 7200);
                          ("awakeSleepSeconds", JInt 600)])])
  | Api_get_body_battery _ =>
      inr (JList [JDict [("bodyBatteryLevel", JInt 75);
                         ("timestamp", JStr "2025-01-15T08:00:00")];
                  JDict [("bodyBatteryLevel", JInt 80);
                         ("timestamp", JStr "2025-01-15T12:00:00")]])
  | Api_get_stress_data _ =>
      inr (JDict [("overallStressLevel", JInt 35);
                  ("restStressLevel", JInt 25);
                  ("activityStressLevel", JInt 45)])
  | Api_get_training_status _ =>
      inr (JDict [("trainingStatusPhrase", JStr "PRODUCTIVE");
                  ("trainingStatusPhraseDescription", JStr "Your training is productive");
                  ("primaryLoadType", JStr "ANAEROBIC")])
  | Api_get_training_readiness _ =>
      inr (JDict [("readinessScore", JInt 72);
                  ("readinessLevel", JStr "MODERATE");
                  ("sleepScore", JInt 78);
                  ("recoveryScore", JInt 68)])
  | Api_get_max_metrics _ =>
      inr (JDict [("generic", JDict [("vo2MaxValue", JNum 520 1);
                                     ("vo2MaxPreciseValue", JNum 523 1)]);
                  ("cycling", JDict [("vo2MaxValue", JNum 480 1)])])
  | Api_get_body_composition _ =>
      inr (JDict [("weight", JNum 705000 1);
                  ("bodyFat", JNum 152 1);
                  ("muscleMass", JNum 321000 1);
                  ("boneMass", JNum 32000 1);
                  ("bodyWater", JNum 555 1);
                  ("date", JStr "2025-01-15")])
  | Api_get_activities _ _ => inr (JList [mock_activity])
  | Api_delete_activity _ => inr JNull
  | Api_delete_weigh_in _ => inr JNull
  | Api_delete_weigh_ins _ => inr JNull
  end.

Definition mock_garminconnect : GarminClient :=
  {| token_file_exists := fun _ => true;
     login_failure := fun _ => None;
     upstream := mock_upstream |}.

Definition section_eqb (s s' : section) : bool :=
  String.eqb (section_key s) (section_key s').

(** The client [c], with every fetch of the sections [down] raising. *)
Definition failing (down : list section) (e : exn) (c : GarminClient) : GarminClient :=
  {| token_file_exists := token_file_exists c;
     login_failure := login_failure c;
     upstream := fun a =>
                   match section_of a with
                   | Some s => if existsb (section_eqb s) down then inl e
                               else upstream c a
                   | None => upstream c a
                   end |}.

Definition connection_error : exn :=
  UpstreamError "GarminConnectConnectionError" "HTTP 503".

Definition default_state : State :=
  {| format := OutputFormat.json; fields := None; no_header := false;
     verbose := false; quiet := false; config_path := None; profile := None |}.

Definition no_human : RecordSet -> list text := fun _ => [].

(** The result dict the aggregation of [context] builds with the
    client [client], run from a fresh process: the result of a run of
    the command that has loaded its configuration and got this
    client. *)
Definition context_result (render_human : RecordSet -> list text)
  (client : GarminClient) (today : string) (activities_limit : Z)
  (include_health include_stats include_training include_weight : bool)
  (focus : option string) (state : State) : dict :=
  result (locals (snd (context_body render_human client today activities_limit
                         include_health include_stats include_training
                         include_weight focus (start state empty_frame)))).

(** The value found by following the keys of [path] from [v]. *)
Fixpoint at_path (path : list string) (v : json) : option json :=
  match path with
  | [] => Some v
  | k :: rest =>
      match v with
      | JDict d =>
          match dict_lookup k d with
          | Some x => at_path rest x
          | None => None
          end
      | _ => None
      end
  end.

(** The client methods [context] may call. *)
Definition context_fetches (today : string) (activities_limit : Z) : list api :=
  [Api_get_user_profile; Api_get_full_name;
   Api_get_user_summary today;
   Api_get_heart_rates today; Api_get_sleep_data today;
   Api_get_body_battery today; Api_get_stress_data today;
   Api_get_training_status today; Api_get_training_readiness today;
   Api_get_max_metrics today;
   Api_get_body_composition today;
   Api_get_activities 0 activities_limit].

(** What the handler of each fetch records: the places in the result
    and the value put there. *)
Definition failure_record (a : api) : list (list string * json) :=
  match a with
  | Api_get_user_profile | Api_get_full_name => [(["profile"], JNull)]
  | Api_get_user_summary _ => [(["today_stats"], JNull)]
  | Api_get_heart_rates _ => [(["health"; "heart_rate"], JNull)]
  | Api_get_sleep_data _ => [(["health"; "sleep"], JNull)]
  | Api_get_body_battery _ => [(["health"; "body_battery"], JNull)]
  | Api_get_stress_data _ => [(["health"; "stress"], JNull)]
  | Api_get_training_status _ => [(["training"; "status"], JNull)]
  | Api_get_training_readiness _ => [(["training"; "readiness"], JNull)]
  | Api_get_max_metrics _ =>
      [(["training"; "vo2max_running"], JNull);
       (["training"; "vo2max_cycling"], JNull)]
  | Api_get_body_composition _ =>
      [(["weight"; "current_kg"], JNull);
       (["weight"; "body_fat_pct"], JNull);
       (["weight"; "muscle_mass_kg"], JNull)]
  | Api_get_activities _ _ => [(["recent_activities"], JList [])]
  | _ => []
  end.

(** The reading of "on failure, record null for that section" at the
    top-level keys of the result. *)
Definition failure_recorded_as_null : Prop :=
  forall (render_human : RecordSet -> list text) (client : GarminClient)
         (today : string) (activities_limit : Z)
         (include_health include_stats include_training include_weight : bool)
         (focus : option string) (state : State) (s : section) (a : api) (e : exn),
    enabled include_health include_stats include_training include_weight focus s = true ->
    section_of a = Some s ->
    In a (context_fetches today activities_limit) ->
    fetch_outcome client a = inl e ->
    dict_lookup (section_key s)
      (context_result render_human client today activities_limit include_health
         include_stats include_training include_weight focus state)
    = Some JNull.





(** The client methods a section calls, in order. *)
Definition section_fetches (client : GarminClient) (today : string)
  (activities_limit : Z) (s : section) : list api :=
  match s with
  | Profile =>
      Api_get_user_profile ::
        (if profile_fetched client then [Api_get_full_name] else [])
  | Stats => [Api_get_user_summary today]
  | Health =>
      [Api_get_heart_rates today; Api_get_sleep_data today;
       Api_get_body_battery today; Api_get_stress_data today]
  | Training =>
      [Api_get_training_status today; Api_get_training_readiness today;
       Api_get_max_metrics today]
  | Weight => [Api_get_body_composition today]
  | Activities => [Api_get_activities 0 activities_limit]
  end.

(** The options [state] with the format set to [f]. *)
Definition with_format (f : OutputFormat.t) (state : State) : State :=
  {| format := f; fields := fields state; no_header := no_header state;
     verbose := verbose state; quiet := quiet state;
     config_path := config_path state; profile := profile state |}.

(** A text before which a number can stand: it does not go on with a
    digit or a point. *)
Definition ends_number (rest : text) : bool :=
  match rest with
  | [] => true
  | c :: _ => negb (is_digit c || Ascii.eqb c "."%char)
  end.

(** A layout whose gaps are white space. *)
Definition layout_ok (L : layout) : Prop :=
  (forall lvl, forallb is_ws (nl L lvl) = true) /\ forallb is_ws (sp L) = true.

(** The characters a rendered value can begin with. *)
Definition value_start (c : ascii) : bool :=
  is_digit c || existsb (Ascii.eqb c) (DQUOTE :: chars "-[{ntf").

(** Induction on values, with the hypothesis for every element of a
    list and every member of a dict. *)
Section JsonInduction.

Variable P : json -> Prop.
Hypothesis Hnull : P JNull.
Hypothesis Hbool : forall b, P (JBool b).
Hypothesis Hnum : forall m e, P (JNum m e).
Hypothesis Hstr : forall s, P (JStr s).
Hypothesis Hlist : forall xs, Forall P xs -> P (JList xs).
Hypothesis Hdict : forall kvs, Forall (fun kv => P (snd kv)) kvs -> P (JDict kvs).

Fixpoint json_induction (v : json) : P v :=
  match v with
  | JNull => Hnull
  | JBool b => Hbool b
  | JNum m e => Hnum m e
  | JStr s => Hstr s
  | JList xs =>
      Hlist xs
        ((fix all (l : list json) : Forall P l :=
            match l with
            | [] => Forall_nil P
            | x :: l' => Forall_cons x (json_induction x) (all l')
            end) xs)
  | JDict kvs =>
      Hdict kvs
        ((fix all (l : list (string * json)) : Forall (fun kv => P (snd kv)) l :=
            match l with
            | [] => Forall_nil _
            | kv :: l' =>
                Forall_cons (P := fun kv => P (snd kv)) kv
                  (json_induction (snd kv)) (all l')
            end) kvs)
  end.

End JsonInduction.

Definition no_line_feed (t : text) : bool :=
  forallb (fun c => negb (Ascii.eqb c LF)) t.

(** A record whose keys and string values hold no line feed. *)
Definition line_feed_free (r : Record) : bool :=
  forallb
    (fun kv =>
       no_line_feed (chars (fst kv)) &&
       match snd kv with
       | JStr s => no_line_feed (chars s)
       | _ => true
       end)
    r.

(** The number of lines the delimited formats are to give for a
    RecordSet: one per record, and one more for the header. *)
Definition expected_rows (no_header : bool) (data : RecordSet) : nat :=
  if no_header then List.length (records data) else S (List.length (records data)).

(** The reading of "csv and tsv output has exactly N + 1 lines with
    the header and N without" on the lines of the text written. *)
Definition delimited_text_lines : Prop :=
  forall (render_human : RecordSet -> list text) (data : RecordSet)
         (fields : option (list string)) (no_header : bool),
    List.length (lines (written (output render_human data OutputFormat.csv
                                   fields no_header)))
    = expected_rows no_header data /\
    List.length (lines (written (output render_human data OutputFormat.tsv
                                   fields no_header)))
    = expected_rows no_header data.

(** Whether the selector keeps the key. *)
Definition selects (fields : option (list string)) (k : string) : bool :=
  match fields with
  | None => true
  | Some fs => mem k fs
  end.

(** The rendering of [x] in the layout [L] is read back as [x],
    whatever the nesting level, given fuel for its depth and a text
    after it that does not prolong a number. *)
Definition reads (L : layout) (x : json) : Prop :=
  forall lvl f rest,
    depth x <= f -> ends_number rest = true ->
    parse_value (S f) (render L lvl x ++ rest) = Some (x, rest).

(** ** The whole command

    What the statements about a run of [context], from the loading of
    the configuration on, are written with. *)


(** The entry a section's own code leaves under its key when it runs
    alone, from a fresh process: what it makes of its own fetches. *)
Definition section_alone (client : GarminClient) (today : string)
  (activities_limit : Z) (state : State) (s : section) : option json :=
  dict_lookup (section_key s)
    (result (locals (snd (section_block client today activities_limit s
                            (start state empty_frame))))).

(** A configuration that loads, and a configuration path that is a
    directory. *)
Definition config_loads : option string -> res Config :=
  fun _ => inr default_config.





(** The key sets the projection is to give: of each record, the
    selected keys it has. *)
Definition selected_keys (fields : list string) (data : RecordSet)
  : list (list string) :=
  map (fun r => filter (fun k => mem k fields) (dict_keys r)) (records data).

(** The reading of "re-parsing the output yields records whose key
    sets are exactly F and the keys of each record in common": the
    text written in [format] can be read back to the key set of each
    record, whatever the RecordSet and the selector. *)
Definition key_sets_recoverable (format : OutputFormat.t) : Prop :=
  exists reparse : text -> list (list string),
    forall (render_human : RecordSet -> list text) (data : RecordSet)
           (fields : list string) (no_header : bool),
      reparse (written (output render_human data format (Some fields) no_header))
      = selected_keys fields data.

Definition projection_key_sets : Prop :=
  key_sets_recoverable OutputFormat.json /\
  key_sets_recoverable OutputFormat.jsonl /\
  key_sets_recoverable OutputFormat.csv /\
  key_sets_recoverable OutputFormat.tsv.

(** The records of a value read back from [json] output, and the
    record of a line read back from [jsonl] output. *)
Definition records_of_json (v : json) : list Record :=
  match v with
  | JDict r => [r]
  | JList xs =>
      flat_map (fun x => match x with JDict r => [r] | _ => [] end) xs
  | _ => []
  end.

(** A record read back is the record [r] cut down to the keys the
    selector names: it has those of them [r] has, in the order of
    [r], and under each the value [r] has, whatever that value
    holds. *)
Definition cut_down (fields : list string) (r r' : Record) : Prop :=
  dict_keys r' = filter (fun k => mem k fields) (dict_keys r) /\
  forall k, dict_lookup k r' = if mem k fields then dict_lookup k r else None.

(** Two RecordSets of the same kind: both a single Record, or both a
    sequence. *)
Definition same_shape (data data' : RecordSet) : Prop :=
  match data, data' with
  | One _, One _ => True
  | Many _, Many _ => True
  | _, _ => False
  end.

(** ** Further observations of [context]

    What each block leaves when its fetch returns. *)

(** The record [{out: d.get(src), ...}] for the pairs [(out, src)]. *)
Definition pick (pairs : list (string * string)) (d : dict) : dict :=
  map (fun p => (fst p, value_or d (snd p) JNull)) pairs.

Definition same_keys (names : list string) : list (string * string) :=
  map (fun k => (k, k)) names.

Definition stats_keys : list string :=
  ["totalSteps"; "totalDistanceMeters"; "totalKilocalories"; "floorsClimbed";
   "activeTimeInSeconds"; "minHeartRate"; "maxHeartRate"; "restingHeartRate"].

Definition sleep_keys : list string :=
  ["sleepTimeSeconds"; "deepSleepSeconds"; "lightSleepSeconds";
   "remSleepSeconds"; "awakeSleepSeconds"].

(** The lines written to standard error, and the wrapped calls made,
    among the events of a log. *)
Definition stderr_lines (evs : list event) : list string :=
  flat_map (fun ev => match ev with Stderr l => [l] | _ => [] end) evs.

Definition upstream_calls (evs : list event) : list api :=
  flat_map (fun ev => match ev with Upstream c => [c] | _ => [] end) evs.

Definition prompts (evs : list event) : list string :=
  flat_map (fun ev => match ev with Prompt q => [q] | _ => [] end) evs.

(** Whether a fetch returns an empty or otherwise false value: the
    blocks that test [if metrics:] and [if body_comp:] then write
    nothing at all. *)
Definition returns_falsy (client : GarminClient) (a : api) : bool :=
  match fetch_outcome client a with
  | inr v => negb (truthy v)
  | inl _ => false
  end.

(** The value kept of [activityType]: its [typeKey] when it is a
    dict, the value itself otherwise. *)
Definition flat_type (d : dict) : json :=
  match value_or d "activityType" JNull with
  | JDict t => value_or t "typeKey" JNull
  | other => other
  end.

(** The record kept of an activity that is a dict. *)
Definition activity_record (d : dict) : json :=
  JDict [("activityId", value_or d "activityId" JNull);
         ("activityName", value_or d "activityName" JNull);
         ("activityType", flat_type d);
         ("distance", value_or d "distance" JNull);
         ("duration", value_or d "duration" JNull);
         ("startTimeLocal", value_or d "startTimeLocal" JNull);
         ("averageHR", value_or d "averageHR" JNull);
         ("calories", value_or d "calories" JNull);
         ("elevationGain", value_or d "elevationGain" JNull)].

(** The dicts of a list of values when every one of them is a dict. *)
Fixpoint all_dicts (xs : list json) : option (list dict) :=
  match xs with
  | [] => Some []
  | JDict d :: xs' =>
      match all_dicts xs' with
      | Some ds => Some (d :: ds)
      | None => None
      end
  | _ :: _ => None
  end.


(** Whether the wrapper lets a call through to the wrapped client. *)
Definition authenticated (client : GarminClient) (c : api) : bool :=
  token_file_exists client c &&
  match login_failure client c with Some _ => false | None => true end.





(** The lines the wrapper itself writes to standard error when the
    method [c] is called. *)
Definition authentication_errors (client : GarminClient) (c : api) : list string :=
  stderr_lines (fetch_events client c).

(** The message with which the handler of each fetch of [context]
    calls [_log_error]. *)
Definition failure_message (a : api) : string :=
  match a with
  | Api_get_user_profile | Api_get_full_name => "Failed to fetch profile"
  | Api_get_user_summary _ => "Failed to fetch stats"
  | Api_get_heart_rates _ => "Failed to fetch heart rate"
  | Api_get_sleep_data _ => "Failed to fetch sleep data"
  | Api_get_body_battery _ => "Failed to fetch body battery"
  | Api_get_stress_data _ => "Failed to fetch stress data"
  | Api_get_training_status _ => "Failed to fetch training status"
  | Api_get_training_readiness _ => "Failed to fetch training readiness"
  | Api_get_max_metrics _ => "Failed to fetch VO2max metrics"
  | Api_get_body_composition _ => "Failed to fetch body composition"
  | Api_get_activities _ _ => "Failed to fetch activities"
  | _ => EmptyString
  end.

(** The events of the aggregation of [context], run from a fresh
    process with the client [client]: those of a run of the command
    that has loaded its configuration and got this client. *)
Definition context_events (render_human : RecordSet -> list text)
  (client : GarminClient) (today : string) (activities_limit : Z)
  (include_health include_stats include_training include_weight : bool)
  (focus : option string) (state : State) : list event :=
  log (snd (context_body render_human client today activities_limit
              include_health include_stats include_training include_weight
              focus (start state empty_frame))).

(** ** The delete commands, taken together *)

Inductive deletion : Type :=
| DeleteActivity (activity_id : Z)
| DeleteWeight (pk : Z)
| DeleteWeightsForDate (date_str : string).

Definition delete_command (render_human : RecordSet -> list text)
  (client : GarminClient) (answer : string -> res bool) (d : deletion)
  (force : bool) : M unit unit :=
  match d with
  | DeleteActivity activity_id =>
      delete_activity render_human client answer activity_id force
  | DeleteWeight pk => delete_weight render_human client answer pk force
  | DeleteWeightsForDate date_str =>
      delete_weights_for_date render_human client answer date_str force
  end.

(** The client method a delete command calls and the question it
    asks. *)
Definition delete_call (d : deletion) : api :=
  match d with
  | DeleteActivity activity_id => Api_delete_activity activity_id
  | DeleteWeight pk => Api_delete_weigh_in pk
  | DeleteWeightsForDate date_str => Api_delete_weigh_ins date_str
  end.

Definition delete_question (d : deletion) : string :=
  match d with
  | DeleteActivity activity_id => "Delete activity " ++ str_of_Z activity_id ++ "?"
  | DeleteWeight pk => "Delete weight entry " ++ str_of_Z pk ++ "?"
  | DeleteWeightsForDate date_str =>
      "Delete all weight entries for " ++ date_str ++ "?"
  end.

(** ** Pieces of a split text *)

Fixpoint has_char (c : ascii) (s : string) : bool :=
  match s with
  | EmptyString => false
  | String c' r => Ascii.eqb c' c || has_char c r
  end.

(** ** commands/auth.py: status *)

(** [try: body except typer.Exit: handler]: only an exit is handled,
    every other exception goes on. *)
Definition try_except_exit {L A} (body : M L A) (handler : M L A) : M L A :=
  fun p =>
    match body p with
    | (inl (Exit _), p') => handler p'
    | r => r
    end.

Definition set_data (k : string) (v : json) : M dict unit :=
  modify (dict_set k v).

(** Lines 145-157 of [status]: the dict [data] handed to [output],
    once the client is there.  The token file is looked for by each
    [is_authenticated]; it is taken not to change while the command
    runs, and is what the client meets for [get_full_name]. *)
Definition status_data (client : GarminClient) (token_dir config_path : string)
  : M dict unit :=
  let is_authenticated := token_file_exists client Api_get_full_name in
  modify (fun _ => [("authenticated", JBool is_authenticated);
                    ("token_dir", JStr token_dir);
                    ("config_path", JStr config_path)]) ;;
  if is_authenticated then
    try_except_exit
      (ensure_authenticated client Api_get_full_name ;;
       full_name <- get_full_name client ;;
       set_data "full_name" full_name)
      (set_data "authenticated" (JBool false) ;;
       set_data "error" (JStr "Tokens expired or invalid"))
  else ret tt.

(** The three entries every status has, and the ones it may get. *)
Definition status_report (authenticated_ : bool) (token_dir config_path : string)
  (more : dict) : dict :=
  [("authenticated", JBool authenticated_);
   ("token_dir", JStr token_dir);
   ("config_path", JStr config_path)] ++ more.

Definition is_exit (e : exn) : bool :=
  match e with Exit _ => true | _ => false end.

(** ** The read commands

    [health.py], [training.py], [athlete.py] and [weight.py]: the
    commands that fetch one value for a date and emit it. *)

Section ReadCommands.

Variable client : GarminClient.
Variable today : string.

(** [core.emit] on the fetched value, whatever the output layer does
    with it. *)
Variable emit_data : json -> M unit unit.

(** [date_str or date.today().isoformat()] *)
Definition or_today (date_str : option string) : string :=
  match date_str with
  | Some d => if nonempty d then d else today
  | None => today
  end.

(** [health sleep] *)
Definition sleep (date_str : option string) : M unit unit :=
  let target_date := or_today date_str in
  sleep_data <- get_sleep_data client target_date ;;
  emit_data sleep_data.

(** [health heart-rate] *)
Definition heart_rate (date_str : option string) : M unit unit :=
  let target_date := or_today date_str in
  hr_data <- get_heart_rates client target_date ;;
  emit_data hr_data.

(** [health stress] *)
Definition stress (date_str : option string) : M unit unit :=
  let target_date := or_today date_str in
  stress_data <- get_stress_data client target_date ;;
  emit_data stress_data.

(** [health body-battery] *)
Definition body_battery (date_str : option string) : M unit unit :=
  let target_date := or_today date_str in
  bb_data <- get_body_battery client target_date ;;
  emit_data bb_data.

(** [training status] *)
Definition training_status (date_str : option string) : M unit unit :=
  let target_date := or_today date_str in
  data <- get_training_status client target_date ;;
  emit_data data.

(** [training readiness] *)
Definition training_readiness (date_str : option string) : M unit unit :=
  let target_date := or_today date_str in
  data <- get_training_readiness client target_date ;;
  emit_data data.

(** [training vo2max] *)
Definition vo2max (date_str : option string) : M unit unit :=
  let target_date := or_today date_str in
  data <- get_max_metrics client target_date ;;
  emit_data data.

(** [athlete stats] *)
Definition stats (date_str : option string) : M unit unit :=
  let target_date := or_today date_str in
  stats_data <- get_user_summary client target_date ;;
  emit_data stats_data.

(** [weight body-comp] *)
Definition body_composition (date_str : option string) : M unit unit :=
  let target_date := or_today date_str in
  data <- get_body_composition client target_date ;;
  emit_data data.

(** The commands with the client method each one calls. *)
Definition read_commands : list ((option string -> M unit unit) * (string -> api)) :=
  [(sleep, Api_get_sleep_data);
   (heart_rate, Api_get_heart_rates);
   (stress, Api_get_stress_data);
   (body_battery, Api_get_body_battery);
   (training_status, Api_get_training_status);
   (training_readiness, Api_get_training_readiness);
   (vo2max, Api_get_max_metrics);
   (stats, Api_get_user_summary);
   (body_composition, Api_get_body_composition)].

End ReadCommands.

(** ** More sample clients *)

(** The client [c] with the wrapped calls chosen by [f] answering
    what [f] says. *)
Definition replying (f : api -> option (res json)) (c : GarminClient)
  : GarminClient :=
  {| token_file_exists := token_file_exists c;
     login_failure := login_failure c;
     upstream := fun a => match f a with Some r => r | None => upstream c a end |}.

(** The mocked client before any login: no token file. *)
Definition signed_out : GarminClient :=
  {| token_file_exists := fun _ => false;
     login_failure := fun _ => None;
     upstream := mock_upstream |}.

Definition verbose_state : State :=
  {| format := OutputFormat.json; fields := None; no_header := false;
     verbose := true; quiet := false; config_path := None; profile := None |}.

Definition sparse_summary (a : api) : option (res json) :=
  match a with
  | Api_get_user_summary _ =>
      Some (inr (JDict [("totalSteps", JInt 4200); ("privacyProtected", JBool true)]))
  | _ => None
  end.

Definition nameless (a : api) : option (res json) :=
  match a with
  | Api_get_full_name => Some (inl connection_error)
  | _ => None
  end.

Definition short_night (a : api) : option (res json) :=
  match a with
  | Api_get_sleep_data _ =>
      Some (inr (JDict [("dailySleepDTO", JDict [("deepSleepSeconds", JInt 7200)])]))
  | _ => None
  end.

Definition no_stress (a : api) : option (res json) :=
  match a with
  | Api_get_stress_data _ => Some (inr (JDict []))
  | _ => None
  end.

Definition no_metrics (a : api) : option (res json) :=
  match a with
  | Api_get_max_metrics _ => Some (inr (JDict []))
  | _ => None
  end.

Definition runner_only (a : api) : option (res json) :=
  match a with
  | Api_get_max_metrics _ =>
      Some (inr (JDict [("generic", JDict [("vo2MaxValue", JNum 520 1)]);
                        ("cycling", JNull)]))
  | _ => None
  end.

Definition never_weighed (a : api) : option (res json) :=
  match a with
  | Api_get_body_composition _ => Some (inr JNull)
  | _ => None
  end.


Definition one_bad_activity (a : api) : option (res json) :=
  match a with
  | Api_get_activities _ _ => Some (inr (JList [mock_activity; JNull]))
  | _ => None
  end.

Definition delete_refused (a : api) : option (res json) :=
  match a with
  | Api_delete_activity _ => Some (inl connection_error)
  | _ => None
  end.

Definition sleepless (a : api) : option (res json) :=
  match a with
  | Api_get_sleep_data _ => Some (inl connection_error)
  | _ => None
  end.

(** * Properties *)

(** ** Dicts *)

Lemma dict_lookup_set_same (k : string) (v : json) (d : dict) :
  dict_lookup k (dict_set k v d) = Some v.
Proof.
  induction d as [|[k' v'] d IH]; simpl.
  - now rewrite String.eqb_refl.
  - destruct (String.eqb k k') eqn:E; simpl; rewrite E; auto.
Qed.

Lemma dict_lookup_set_other (k k' : string) (v : json) (d : dict) :
  k <> k' -> dict_lookup k (dict_set k' v d) = dict_lookup k d.
Proof.
  intros N. induction d as [|[k0 v0] d IH]; simpl.
  - apply String.eqb_neq in N. now rewrite N.
  - destruct (String.eqb k' k0) eqn:E; simpl.
    + apply String.eqb_eq in E. subst k0.
      apply String.eqb_neq in N. now rewrite N.
    + now rewrite IH.
Qed.

Lemma dict_keys_set_new (k : string) (v : json) (d : dict) :
  mem k (dict_keys d) = false -> dict_keys (dict_set k v d) = dict_keys d ++ [k].
Proof.
  induction d as [|[k' v'] d IH]; simpl; auto.
  destruct (String.eqb k k') eqn:E; simpl; try discriminate.
  intros H. now rewrite IH.
Qed.

(** ** The wrapper methods as functions of what the client meets *)

Lemma logged_nil {L} (p : proc L) : logged p [] = p.
Proof. destruct p; unfold logged; simpl. now rewrite app_nil_r. Qed.

Lemma logged_logged {L} (p : proc L) (e1 e2 : list event) :
  logged (logged p e1) e2 = logged p (e1 ++ e2).
Proof. unfold logged; simpl. now rewrite app_assoc. Qed.

Lemma method_run {L} (client : GarminClient) (c : api) (p : proc L) :
  method client c p = (fetch_outcome client c, logged p (fetch_events client c)).
Proof.
  unfold method, ensure_authenticated, fetch_outcome, fetch_events, logged,
    bind, try_except, tell, raise, ret, lift.
  destruct (token_file_exists client c); simpl.
  - destruct (login_failure client c); simpl; rewrite <- ?app_assoc; reflexivity.
  - rewrite <- ?app_assoc; reflexivity.
Qed.

(** ** The blocks of [context] *)

Lemma calls_app (l1 l2 : list event) : calls (l1 ++ l2) = calls l1 ++ calls l2.
Proof. unfold calls. apply flat_map_app. Qed.

Lemma calls_fetch_events (client : GarminClient) (c : api) :
  calls (fetch_events client c) = [c].
Proof.
  unfold fetch_events.
  destruct (token_file_exists client c); simpl; auto.
  destruct (login_failure client c); reflexivity.
Qed.

(** Unfolding a block down to the outcomes of its fetches. *)
Ltac unfold_block :=
  unfold get_full_name, get_user_profile, get_user_summary, get_heart_rates,
    get_sleep_data, get_body_battery, get_stress_data, get_training_status,
    get_training_readiness, get_max_metrics, get_body_composition,
    get_activities;
  unfold try_except, bind; rewrite ?method_run.

Ltac case_scrutinee :=
  match goal with
  | |- context [match ?x with _ => _ end] =>
      lazymatch x with
      | context [match _ with _ => _ end] => fail
      | _ => destruct x eqn:?
      end
  end.

Ltac run_block :=
  unfold _log_error, set_result, set_health, set_training, set_weight_data,
    new_health, new_training, new_weight_data, when;
  unfold try_except, bind, get_state, get_locals, modify, tell, ret, raise,
    lift, logged, to_kg, get, get_default; simpl.

Ltac known_outcome :=
  match goal with
  | H : fetch_outcome _ _ = _ |- _ => rewrite H
  end.

Ltac solve_block :=
  repeat first [rewrite method_run | known_outcome | progress run_block
               | case_scrutinee];
  rewrite <- ?app_assoc; try reflexivity.


Ltac probe_block :=
  unfold probe_value, probe_update, probe_events, probe; simpl;
  unfold_block; solve_block.

Section Blocks.

Variable client : GarminClient.
Variable today : string.

(** Each [try] block ends normally, writes its own key, and does so
    in the same way from every process. *)

Lemma context_profile_uniform (g : State) :
  writes InResult "profile" (context_profile client) g.
Proof. intros [? [? ? ? ?] ?] Hp; simpl in Hp; subst g. unfold context_profile. probe_block. Qed.

Lemma context_stats_uniform (g : State) :
  writes InResult "today_stats" (context_stats client today) g.
Proof. intros [? [? ? ? ?] ?] Hp; simpl in Hp; subst g. unfold context_stats. probe_block. Qed.

Lemma context_heart_rate_uniform (g : State) :
  writes InHealth "heart_rate" (context_heart_rate client today) g.
Proof. intros [? [? ? ? ?] ?] Hp; simpl in Hp; subst g. unfold context_heart_rate. probe_block. Qed.

Lemma context_sleep_uniform (g : State) :
  writes InHealth "sleep" (context_sleep client today) g.
Proof. intros [? [? ? ? ?] ?] Hp; simpl in Hp; subst g. unfold context_sleep. probe_block. Qed.

Lemma context_body_battery_uniform (g : State) :
  writes InHealth "body_battery" (context_body_battery client today) g.
Proof. intros [? [? ? ? ?] ?] Hp; simpl in Hp; subst g. unfold context_body_battery. probe_block. Qed.

Lemma context_stress_uniform (g : State) :
  writes InHealth "stress" (context_stress client today) g.
Proof. intros [? [? ? ? ?] ?] Hp; simpl in Hp; subst g. unfold context_stress. probe_block. Qed.

Lemma context_training_status_uniform (g : State) :
  writes InTraining "status" (context_training_status client today) g.
Proof. intros [? [? ? ? ?] ?] Hp; simpl in Hp; subst g. unfold context_training_status. probe_block. Qed.

Lemma context_training_readiness_uniform (g : State) :
  writes InTraining "readiness" (context_training_readiness client today) g.
Proof. intros [? [? ? ? ?] ?] Hp; simpl in Hp; subst g. unfold context_training_readiness. probe_block. Qed.

Lemma context_vo2max_uniform (g : State) :
  uniform InTraining (context_vo2max client today)
    (probe_update InTraining (context_vo2max client today) g)
    (probe_events InTraining (context_vo2max client today) g) g.
Proof. intros [? [? ? ? ?] ?] Hp; simpl in Hp; subst g. unfold context_vo2max. probe_block. Qed.

Lemma context_body_composition_uniform (g : State) :
  uniform InWeightData (context_body_composition client today)
    (probe_update InWeightData (context_body_composition client today) g)
    (probe_events InWeightData (context_body_composition client today) g) g.
Proof. intros [? [? ? ? ?] ?] Hp; simpl in Hp; subst g. unfold context_body_composition. probe_block. Qed.

Lemma context_activities_uniform (limit : Z) (g : State) :
  writes InResult "recent_activities" (context_activities client limit) g.
Proof. intros [? [? ? ? ?] ?] Hp; simpl in Hp; subst g. unfold context_activities. probe_block. Qed.

(** *** The client methods a block calls *)












(** *** What a block records when its fetch raises *)

Ltac solve_failure :=
  unfold probe_value, probe_update, probe; simpl; unfold_block;
  repeat first [rewrite method_run | known_outcome | progress run_block
               | case_scrutinee];
  try reflexivity.

Lemma context_profile_failure (g : State) (e : exn) :
  fetch_outcome client Api_get_user_profile = inl e \/
  fetch_outcome client Api_get_full_name = inl e ->
  probe_value InResult "profile" (context_profile client) g = JNull.
Proof. intros [F|F]; unfold context_profile; solve_failure. Qed.

Lemma context_stats_failure (g : State) (e : exn) :
  fetch_outcome client (Api_get_user_summary today) = inl e ->
  probe_value InResult "today_stats" (context_stats client today) g = JNull.
Proof. intros F; unfold context_stats; solve_failure. Qed.

Lemma context_heart_rate_failure (g : State) (e : exn) :
  fetch_outcome client (Api_get_heart_rates today) = inl e ->
  probe_value InHealth "heart_rate" (context_heart_rate client today) g = JNull.
Proof. intros F; unfold context_heart_rate; solve_failure. Qed.

Lemma context_sleep_failure (g : State) (e : exn) :
  fetch_outcome client (Api_get_sleep_data today) = inl e ->
  probe_value InHealth "sleep" (context_sleep client today) g = JNull.
Proof. intros F; unfold context_sleep; solve_failure. Qed.

Lemma context_body_battery_failure (g : State) (e : exn) :
  fetch_outcome client (Api_get_body_battery today) = inl e ->
  probe_value InHealth "body_battery" (context_body_battery client today) g = JNull.
Proof. intros F; unfold context_body_battery; solve_failure. Qed.

Lemma context_stress_failure (g : State) (e : exn) :
  fetch_outcome client (Api_get_stress_data today) = inl e ->
  probe_value InHealth "stress" (context_stress client today) g = JNull.
Proof. intros F; unfold context_stress; solve_failure. Qed.

Lemma context_training_status_failure (g : State) (e : exn) :
  fetch_outcome client (Api_get_training_status today) = inl e ->
  probe_value InTraining "status" (context_training_status client today) g = JNull.
Proof. intros F; unfold context_training_status; solve_failure. Qed.

Lemma context_training_readiness_failure (g : State) (e : exn) :
  fetch_outcome client (Api_get_training_readiness today) = inl e ->
  probe_value InTraining "readiness" (context_training_readiness client today) g
  = JNull.
Proof. intros F; unfold context_training_readiness; solve_failure. Qed.

Lemma context_vo2max_failure (g : State) (e : exn) (d : dict) :
  fetch_outcome client (Api_get_max_metrics today) = inl e ->
  probe_update InTraining (context_vo2max client today) g d = vo2max_nulls d.
Proof. intros F; unfold context_vo2max; solve_failure. Qed.

Lemma context_body_composition_failure (g : State) (e : exn) (d : dict) :
  fetch_outcome client (Api_get_body_composition today) = inl e ->
  probe_update InWeightData (context_body_composition client today) g d
  = weight_nulls d.
Proof. intros F; unfold context_body_composition; solve_failure. Qed.

Lemma context_activities_failure (limit : Z) (g : State) (e : exn) :
  fetch_outcome client (Api_get_activities 0 limit) = inl e ->
  probe_value InResult "recent_activities" (context_activities client limit) g
  = JList [].
Proof. intros F; unfold context_activities; solve_failure. Qed.

End Blocks.

(** ** Sections *)

Lemma uniform_bind (s : slot) (m k : M frame unit) (u : dict -> dict)
  (evs : list event) (g : State) (p : proc frame) :
  uniform s m u evs g -> globals p = g ->
  (m ;; k)%proc p =
  k {| globals := g; locals := update s u (locals p); log := log p ++ evs |}.
Proof. intros U Hp. unfold bind. now rewrite (U p Hp). Qed.

Lemma uniform_lands (key : string) (m : M frame unit) (v : json)
  (evs : list event) (g : State) :
  uniform InResult m (dict_set key v) evs g -> lands key m v evs g.
Proof.
  intros U p Hp. eexists. split; [apply (U p Hp) | reflexivity].
Qed.

Section SectionLemmas.

Variable client : GarminClient.
Variable today : string.
Variable activities_limit : Z.
Variable g : State.

Lemma context_health_lands :
  lands "health" (context_health client today)
    (section_value client today activities_limit g Health)
    (section_events client today activities_limit g Health) g.
Proof.
  intros [g' [r h t w] l] Hp; simpl in Hp; subst g'.
  unfold context_health.
  unfold bind at 1, new_health, modify; cbv beta iota.
  erewrite uniform_bind; [|apply context_heart_rate_uniform|reflexivity].
  erewrite uniform_bind; [|apply context_sleep_uniform|reflexivity].
  erewrite uniform_bind; [|apply context_body_battery_uniform|reflexivity].
  erewrite uniform_bind; [|apply context_stress_uniform|reflexivity].
  unfold bind, get_locals, set_result, modify; simpl.
  eexists. split.
  - simpl section_events. rewrite <- !app_assoc. reflexivity.
  - reflexivity.
Qed.

Lemma context_training_lands :
  lands "training" (context_training client today)
    (section_value client today activities_limit g Training)
    (section_events client today activities_limit g Training) g.
Proof.
  intros [g' [r h t w] l] Hp; simpl in Hp; subst g'.
  unfold context_training.
  unfold bind at 1, new_training, modify; cbv beta iota.
  erewrite uniform_bind; [|apply context_training_status_uniform|reflexivity].
  erewrite uniform_bind; [|apply context_training_readiness_uniform|reflexivity].
  erewrite uniform_bind; [|apply context_vo2max_uniform|reflexivity].
  unfold bind, get_locals, set_result, modify; simpl.
  eexists. split.
  - simpl section_events. rewrite <- !app_assoc. reflexivity.
  - reflexivity.
Qed.

Lemma context_weight_lands :
  lands "weight" (context_weight client today)
    (section_value client today activities_limit g Weight)
    (section_events client today activities_limit g Weight) g.
Proof.
  intros [g' [r h t w] l] Hp; simpl in Hp; subst g'.
  unfold context_weight.
  unfold bind at 1, new_weight_data, modify; cbv beta iota.
  erewrite uniform_bind; [|apply context_body_composition_uniform|reflexivity].
  unfold bind, get_locals, set_result, modify; simpl.
  eexists. split; reflexivity.
Qed.

Lemma section_lands (s : section) :
  lands (section_key s) (section_block client today activities_limit s)
    (section_value client today activities_limit g s)
    (section_events client today activities_limit g s) g.
Proof.
  destruct s; simpl section_key; simpl section_block.
  - apply uniform_lands, context_profile_uniform.
  - apply uniform_lands, context_stats_uniform.
  - apply context_health_lands.
  - apply context_training_lands.
  - apply context_weight_lands.
  - apply uniform_lands, context_activities_uniform.
Qed.

End SectionLemmas.

(** ** The whole command *)

Lemma print_chunks_run {L} (chunks : list text) (p : proc L) :
  print_chunks chunks p = (inr tt, logged p (map Stdout chunks)).
Proof.
  unfold print_chunks. revert p.
  induction chunks as [|c cs IH]; intros p; simpl.
  - now rewrite logged_nil.
  - unfold bind, tell. simpl. rewrite IH. unfold logged; simpl.
    now rewrite <- app_assoc.
Qed.

Lemma emit_run {L} (render_human : RecordSet -> list text) (data : RecordSet)
  (p : proc L) :
  emit render_human data p =
  (inr tt,
   logged p (map Stdout (output render_human data (format (globals p))
                           (fields (globals p)) (no_header (globals p))))).
Proof. unfold emit, bind, get_state. apply print_chunks_run. Qed.

Lemma emit_result_run {L} (render_human : RecordSet -> list text)
  (data : RecordSet) (human_msg : string) (p : proc L) :
  emit_result render_human data human_msg p =
  (inr tt,
   logged p (map Stdout (output_emit_result render_human data human_msg
                           (format (globals p)) (fields (globals p))
                           (no_header (globals p))))).
Proof. unfold emit_result, bind, get_state. apply print_chunks_run. Qed.

Lemma when_lands (key : string) (m k : M frame unit) (v : json)
  (evs : list event) (g : State) (b : bool) (p : proc frame) :
  lands key m v evs g -> globals p = g ->
  exists f' : frame,
    (when b m ;; k)%proc p =
    k {| globals := g; locals := f'; log := log p ++ (if b then evs else []) |} /\
    result f' = (if b then dict_set key v (result (locals p)) else result (locals p)).
Proof.
  intros Hl Hp. destruct b; simpl.
  - destruct (Hl p Hp) as (f' & E & R). exists f'. split; auto.
    unfold bind. now rewrite E.
  - exists (locals p). split; auto. unfold bind, ret.
    rewrite app_nil_r. subst g. now destruct p.
Qed.

Section Run.

Variable render_human : RecordSet -> list text.
Variable client : GarminClient.
Variable today : string.
Variable activities_limit : Z.
Variables include_health include_stats include_training include_weight : bool.
Variable focus : option string.

Lemma chain_run (g : State) (ss : list section) (k : M frame unit) (p : proc frame) :
  globals p = g ->
  exists f' : frame,
    chain client today activities_limit include_health include_stats
      include_training include_weight focus ss k p =
    k {| globals := g; locals := f';
         log := log p ++
                flat_map
                  (fun s =>
                     if enabled include_health include_stats include_training
                          include_weight focus s
                     then section_events client today activities_limit g s
                     else []) ss |} /\
    result f' =
    fold_left
      (fun d s =>
         if enabled include_health include_stats include_training include_weight
              focus s
         then dict_set (section_key s)
                (section_value client today activities_limit g s) d
         else d)
      ss (result (locals p)).
Proof.
  revert p. induction ss as [|s ss IH]; intros p Hp; simpl.
  - exists (locals p). split; auto. rewrite app_nil_r. subst g. now destruct p.
  - destruct (when_lands _ _ (chain client today activities_limit include_health include_stats
      include_training include_weight focus ss k) _ _ g
                (enabled include_health include_stats include_training
                   include_weight focus s) p
                (section_lands client today activities_limit g s) Hp)
      as (f1 & E1 & R1).
    fold (chain client today activities_limit include_health include_stats
      include_training include_weight focus ss k). rewrite E1.
    destruct (IH {| globals := g; locals := f1;
                    log := log p ++
                           (if enabled include_health include_stats
                                 include_training include_weight focus s
                            then section_events client today activities_limit g s
                            else []) |} eq_refl) as (f2 & E2 & R2).
    exists f2. rewrite E2. simpl. rewrite <- app_assoc. split; auto.
    rewrite R2. simpl. now rewrite R1.
Qed.

(** [context] always ends normally; its result dict is the composite
    of the enabled sections and its events are theirs, followed by
    the output. *)
Lemma context_run (p : proc frame) :
  exists f' : frame,
    context_body render_human client today activities_limit include_health
      include_stats include_training include_weight focus p =
    (inr tt,
     {| globals := globals p;
        locals := f';
        log := log p ++
               composite_events client today activities_limit (globals p)
                 include_health include_stats include_training include_weight focus ++
               map Stdout
                 (output render_human
                    (One (composite client today activities_limit (globals p)
                            include_health include_stats include_training
                            include_weight focus))
                    (format (globals p)) (fields (globals p))
                    (no_header (globals p))) |}) /\
    result f' =
    composite client today activities_limit (globals p) include_health
      include_stats include_training include_weight focus.
Proof.
  destruct p as [g f l]. simpl globals. simpl log.
  change (context_body render_human client today activities_limit include_health
            include_stats include_training include_weight focus)
    with (modify (fun _ => empty_frame) ;;
          chain client today activities_limit include_health include_stats
      include_training include_weight focus sections
            (f0 <- get_locals ;; emit render_human (One (result f0))))%proc.
  unfold bind at 1, modify; cbv beta iota. simpl globals; simpl log.
  destruct (chain_run g sections
              (f0 <- get_locals ;; emit render_human (One (result f0)))%proc
              {| globals := g; locals := empty_frame; log := l |} eq_refl)
    as (f' & E & R).
  rewrite E. clear E.
  unfold bind, get_locals. rewrite emit_run. unfold logged; simpl.
  exists f'. split.
  - unfold composite, composite_events. rewrite R. simpl result.
    now rewrite <- app_assoc.
  - rewrite R. reflexivity.
Qed.

End Run.

(** ** Clients that differ in one section only *)

Lemma method_agree {L} (c1 c2 : GarminClient) (a : api) :
  agree c1 c2 a -> @method L c1 a = @method L c2 a.
Proof.
  intros (H1 & H2 & H3). unfold method, ensure_authenticated.
  rewrite H1, H2, H3. reflexivity.
Qed.

Section Agree.

Variables c1 c2 : GarminClient.
Variable today : string.
Variable activities_limit : Z.
Variable g : State.

Ltac agree_on H :=
  unfold get_full_name, get_user_profile, get_user_summary, get_heart_rates,
    get_sleep_data, get_body_battery, get_stress_data, get_training_status,
    get_training_readiness, get_max_metrics, get_body_composition,
    get_activities;
  repeat match goal with
         | |- context [@method ?L c1 ?a] =>
             rewrite (@method_agree L c1 c2 a (H a eq_refl))
         end;
  reflexivity.

Lemma section_value_agree (s : section) :
  (forall a, section_of a = Some s -> agree c1 c2 a) ->
  section_value c1 today activities_limit g s =
  section_value c2 today activities_limit g s.
Proof.
  intros H.
  destruct s; simpl; unfold health_dict, training_dict, weight_dict;
    unfold context_profile, context_stats, context_heart_rate, context_sleep,
      context_body_battery, context_stress, context_training_status,
      context_training_readiness, context_vo2max, context_body_composition,
      context_activities;
    agree_on H.
Qed.

End Agree.

Lemma section_eq_dec (s s' : section) : {s = s'} + {s <> s'}.
Proof. decide equality. Qed.

Lemma dict_lookup_set_congr (k key : string) (v : json) (d1 d2 : dict) :
  dict_lookup k d1 = dict_lookup k d2 ->
  dict_lookup k (dict_set key v d1) = dict_lookup k (dict_set key v d2).
Proof.
  intros H. destruct (String.eqb_spec k key) as [->|N].
  - now rewrite !dict_lookup_set_same.
  - now rewrite !dict_lookup_set_other.
Qed.

Lemma composite_isolated (c1 c2 : GarminClient) (today : string) (limit : Z)
  (g : State) (ih is_ it iw : bool) (focus : option string) (s : section)
  (k : string) :
  (forall s', s' <> s ->
              section_value c1 today limit g s' = section_value c2 today limit g s') ->
  k <> section_key s ->
  dict_lookup k (composite c1 today limit g ih is_ it iw focus) =
  dict_lookup k (composite c2 today limit g ih is_ it iw focus).
Proof.
  intros Hv Hk. unfold composite.
  assert (E : dict_lookup k (@nil (string * json)) = dict_lookup k []) by reflexivity.
  revert E.
  generalize (@nil (string * json)) at 1 3. intros d1.
  generalize (@nil (string * json)). intros d2.
  revert d1 d2.
  induction sections as [|s' ss IH]; intros d1 d2 E; simpl; auto.
  apply IH.
  destruct (enabled ih is_ it iw focus s'); auto.
  destruct (section_eq_dec s' s) as [->|N].
  - now rewrite !dict_lookup_set_other.
  - rewrite (Hv s' N). now apply dict_lookup_set_congr.
Qed.

Lemma context_loaded (render_human : RecordSet -> list text)
  (Config_load : option string -> res Config)
  (client_for : option string -> GarminClient) (today : string) (limit : Z)
  (ih is_ it iw : bool) (focus : option string) (p : proc frame) (cfg : Config) :
  Config_load (config_path (globals p)) = inr cfg ->
  context render_human Config_load client_for today None limit ih is_ it iw focus p =
  context_body render_human (client_for (profile (globals p))) today limit
    ih is_ it iw focus p.
Proof.
  intros E. unfold context, bind, get_state, lift. now rewrite E.
Qed.

Lemma context_not_loaded (render_human : RecordSet -> list text)
  (Config_load : option string -> res Config)
  (client_for : option string -> GarminClient) (today : string) (limit : Z)
  (ih is_ it iw : bool) (focus : option string) (p : proc frame) (e : exn) :
  Config_load (config_path (globals p)) = inl e ->
  context render_human Config_load client_for today None limit ih is_ it iw focus p =
  (inl e, p).
Proof.
  intros E. unfold context, bind, get_state, lift. now rewrite E.
Qed.

(** A run that makes a call has loaded its configuration. *)
Lemma context_called_loaded (render_human : RecordSet -> list text)
  (Config_load : option string -> res Config)
  (client_for : option string -> GarminClient) (today : string) (limit : Z)
  (ih is_ it iw : bool) (focus : option string) (state : State) (a : api) :
  In a (calls (log (snd (context render_human Config_load client_for today None
                           limit ih is_ it iw focus (start state empty_frame))))) ->
  exists cfg, Config_load (config_path state) = inr cfg.
Proof.
  destruct (Config_load (config_path state)) as [e|cfg] eqn:C; [|eauto].
  rewrite (context_not_loaded _ _ _ _ _ _ _ _ _ _ (start state empty_frame) e C).
  intros [].
Qed.

(** What a section leaves when it runs alone is its value. *)
Lemma section_alone_value (client : GarminClient) (today : string) (limit : Z)
  (state : State) (s : section) :
  section_alone client today limit state s =
  Some (section_value client today limit state s).
Proof.
  unfold section_alone.
  destruct (section_lands client today limit state s (start state empty_frame)
              eq_refl) as (f' & E & R).
  rewrite E. cbn [snd locals]. rewrite R. apply dict_lookup_set_same.
Qed.

(** ** Where a section's value sits in the result *)

Lemma composite_lookup (client : GarminClient) (today : string) (limit : Z)
  (g : State) (ih is_ it iw : bool) (focus : option string) (s : section) :
  dict_lookup (section_key s) (composite client today limit g ih is_ it iw focus) =
  if enabled ih is_ it iw focus s
  then Some (section_value client today limit g s)
  else None.
Proof.
  unfold composite, sections. cbn [fold_left].
  remember (enabled ih is_ it iw focus Stats) as b1.
  remember (enabled ih is_ it iw focus Health) as b2.
  remember (enabled ih is_ it iw focus Training) as b3.
  remember (enabled ih is_ it iw focus Weight) as b4.
  remember (enabled ih is_ it iw focus Activities) as b5.
  change (enabled ih is_ it iw focus Profile) with true. cbv iota.
  destruct s; cbn [section_key];
    rewrite <- ?Heqb1, <- ?Heqb2, <- ?Heqb3, <- ?Heqb4, <- ?Heqb5;
    destruct b1, b2, b3, b4, b5; reflexivity.
Qed.


Lemma context_result_composite (render_human : RecordSet -> list text)
  (client : GarminClient) (today : string) (limit : Z) (ih is_ it iw : bool)
  (focus : option string) (state : State) :
  context_result render_human client today limit ih is_ it iw focus state =
  composite client today limit state ih is_ it iw focus.
Proof.
  unfold context_result.
  destruct (context_run render_human client today limit ih is_ it iw focus
              (start state empty_frame)) as (f' & E & R).
  rewrite E. simpl. exact R.
Qed.

Lemma at_composite (client : GarminClient) (today : string) (limit : Z)
  (g : State) (ih is_ it iw : bool) (focus : option string) (s : section)
  (path : list string) :
  enabled ih is_ it iw focus s = true ->
  at_path (section_key s :: path)
    (JDict (composite client today limit g ih is_ it iw focus)) =
  at_path path (section_value client today limit g s).
Proof.
  intros H. cbn [at_path]. now rewrite composite_lookup, H.
Qed.

(** The VO2max block leaves the other keys of [training] alone. *)
Lemma context_vo2max_preserves (client : GarminClient) (today : string)
  (g : State) (d : dict) (k : string) :
  k <> "vo2max_running" -> k <> "vo2max_cycling" ->
  dict_lookup k (probe_update InTraining (context_vo2max client today) g d) =
  dict_lookup k d.
Proof.
  intros N1 N2. unfold context_vo2max.
  unfold probe_update, probe; simpl; unfold_block.
  repeat first [rewrite method_run | progress run_block | case_scrutinee];
    rewrite ?dict_lookup_set_other by assumption; reflexivity.
Qed.

(** C1.  In a run of [context] that has loaded its configuration
    (every run that makes a fetch has), whatever the fetches of one
    section do, raise or return, the command ends without an
    exception, and every other enabled section has its entry in the
    result.  That entry is the one the section's own code leaves when
    it runs alone, which depends on what its own fetches meet and on
    nothing else; so it is the entry the result holds in the run
    where the fetches of the failing section return.  No other key of
    the result differs either. *)
Theorem context_failure_isolated
  (render_human : RecordSet -> list text)
  (Config_load : option string -> res Config)
  (clients1 clients2 : option string -> GarminClient) (today : string)
  (activities_limit : Z)
  (include_health include_stats include_training include_weight : bool)
  (focus : option string) (state : State) (cfg : Config) (s : section) :
  Config_load (config_path state) = inr cfg ->
  (forall a, section_of a <> Some s ->
             agree (clients1 (profile state)) (clients2 (profile state)) a) ->
  let run1 := context render_human Config_load clients1 today None activities_limit
                include_health include_stats include_training include_weight
                focus (start state empty_frame) in
  let run2 := context render_human Config_load clients2 today None activities_limit
                include_health include_stats include_training include_weight
                focus (start state empty_frame) in
  fst run1 = inr tt /\ fst run2 = inr tt /\
  (forall s',
      s' <> s ->
      enabled include_health include_stats include_training include_weight focus s'
      = true ->
      exists v,
        dict_lookup (section_key s') (result (locals (snd run1))) = Some v /\
        dict_lookup (section_key s') (result (locals (snd run2))) = Some v /\
        forall client,
          (forall a, section_of a = Some s' ->
                     agree (clients1 (profile state)) client a) ->
          section_alone client today activities_limit state s' = Some v) /\
  (forall k, k <> section_key s ->
             dict_lookup k (result (locals (snd run1))) =
             dict_lookup k (result (locals (snd run2)))).
Proof.
  intros C H run1 run2. subst run1 run2.
  rewrite !(context_loaded _ _ _ _ _ _ _ _ _ _ (start state empty_frame) cfg C).
  cbn [globals start].
  destruct (context_run render_human (clients1 (profile state)) today
              activities_limit include_health include_stats include_training
              include_weight focus (start state empty_frame))
    as (f1 & E1 & R1).
  destruct (context_run render_human (clients2 (profile state)) today
              activities_limit include_health include_stats include_training
              include_weight focus (start state empty_frame))
    as (f2 & E2 & R2).
  cbn [globals start] in R1, R2.
  rewrite E1, E2. cbn [fst snd locals globals start]. rewrite R1, R2.
  assert (V : forall s', s' <> s ->
                section_value (clients1 (profile state)) today activities_limit
                  state s' =
                section_value (clients2 (profile state)) today activities_limit
                  state s').
  { intros s' N. apply section_value_agree.
    intros a' Ha. apply H. congruence. }
  repeat split.
  - intros s' N En. eexists. rewrite !composite_lookup, En.
    split; [reflexivity|]. split.
    + now rewrite (V s' N).
    + intros client A. rewrite section_alone_value. f_equal. symmetry.
      now apply section_value_agree.
  - intros k Hk. apply composite_isolated with (s := s); auto.
Qed.

(** C2, as the code has it.  When a fetch of an enabled section
    raises, each place its handler writes is present in the result
    and holds what the handler puts there: null for every fetch but
    that of the activities, whose handler records an empty list. *)
Theorem context_failure_recorded
  (render_human : RecordSet -> list text) (client : GarminClient) (today : string)
  (activities_limit : Z)
  (include_health include_stats include_training include_weight : bool)
  (focus : option string) (state : State) (s : section) (a : api) (e : exn) :
  enabled include_health include_stats include_training include_weight focus s = true ->
  section_of a = Some s ->
  In a (context_fetches today activities_limit) ->
  fetch_outcome client a = inl e ->
  Forall
    (fun place =>
       at_path (fst place)
         (JDict (context_result render_human client today activities_limit
                   include_health include_stats include_training include_weight
                   focus state))
       = Some (snd place))
    (failure_record a).
Proof.
  intros En Sec Hin F.
  rewrite context_result_composite.
  unfold context_fetches in Hin. simpl in Hin.
  repeat (destruct Hin as [<-|Hin]); try contradiction;
    simpl in Sec; injection Sec as <-;
    cbn [failure_record]; repeat constructor; cbn [fst snd].
  - change "profile" with (section_key Profile). rewrite at_composite by assumption.
    simpl. f_equal. eapply context_profile_failure; eauto.
  - change "profile" with (section_key Profile). rewrite at_composite by assumption.
    simpl. f_equal. eapply context_profile_failure; eauto.
  - change "today_stats" with (section_key Stats). rewrite at_composite by assumption.
    simpl. f_equal. eapply context_stats_failure; eauto.
  - change "health" with (section_key Health). rewrite at_composite by assumption.
    simpl. f_equal. eapply context_heart_rate_failure; eauto.
  - change "health" with (section_key Health). rewrite at_composite by assumption.
    simpl. f_equal. eapply context_sleep_failure; eauto.
  - change "health" with (section_key Health). rewrite at_composite by assumption.
    simpl. f_equal. eapply context_body_battery_failure; eauto.
  - change "health" with (section_key Health). rewrite at_composite by assumption.
    simpl. f_equal. eapply context_stress_failure; eauto.
  - change "training" with (section_key Training). rewrite at_composite by assumption.
    cbn [section_value at_path]. unfold training_dict.
    rewrite context_vo2max_preserves by discriminate.
    simpl. f_equal. eapply context_training_status_failure; eauto.
  - change "training" with (section_key Training). rewrite at_composite by assumption.
    cbn [section_value at_path]. unfold training_dict.
    rewrite context_vo2max_preserves by discriminate.
    simpl. f_equal. eapply context_training_readiness_failure; eauto.
  - change "training" with (section_key Training). rewrite at_composite by assumption.
    cbn [section_value at_path]. unfold training_dict.
    erewrite context_vo2max_failure by eauto. unfold vo2max_nulls.
    rewrite dict_lookup_set_other by discriminate.
    now rewrite dict_lookup_set_same.
  - change "training" with (section_key Training). rewrite at_composite by assumption.
    cbn [section_value at_path]. unfold training_dict.
    erewrite context_vo2max_failure by eauto. unfold vo2max_nulls.
    now rewrite dict_lookup_set_same.
  - change "weight" with (section_key Weight). rewrite at_composite by assumption.
    cbn [section_value at_path]. unfold weight_dict.
    erewrite context_body_composition_failure by eauto. reflexivity.
  - change "weight" with (section_key Weight). rewrite at_composite by assumption.
    cbn [section_value at_path]. unfold weight_dict.
    erewrite context_body_composition_failure by eauto. reflexivity.
  - change "weight" with (section_key Weight). rewrite at_composite by assumption.
    cbn [section_value at_path]. unfold weight_dict.
    erewrite context_body_composition_failure by eauto. reflexivity.
  - change "recent_activities" with (section_key Activities).
    rewrite at_composite by assumption.
    simpl. f_equal. eapply context_activities_failure; eauto.
Qed.

(** C2: the claim as stated fails where the activities fetch raises;
    the result then holds an empty list under [recent_activities]. *)
Lemma failure_recorded_as_null_fails : ~ failure_recorded_as_null.
Proof.
  intros H.
  specialize (H no_human (failing [Activities] connection_error mock_garminconnect)
                "2025-01-15" 5%Z true true true true None default_state
                Activities (Api_get_activities 0 5) connection_error
                eq_refl eq_refl).
  assert (Hin : In (Api_get_activities 0 5) (context_fetches "2025-01-15" 5)).
  { simpl. tauto. }
  specialize (H Hin eq_refl).
  vm_compute in H. discriminate H.
Qed.

Lemma context_failure_isolated_witness :
  let run1 := context no_human config_loads
                (fun _ => failing [Stats] connection_error mock_garminconnect)
                "2025-01-15" None 5 true true true true None
                (start default_state empty_frame) in
  let run2 := context no_human config_loads (fun _ => mock_garminconnect)
                "2025-01-15" None 5 true true true true None
                (start default_state empty_frame) in
  fst run1 = inr tt /\ fst run2 = inr tt /\
  (forall s',
      s' <> Stats ->
      enabled true true true true None s' = true ->
      exists v,
        dict_lookup (section_key s') (result (locals (snd run1))) = Some v /\
        dict_lookup (section_key s') (result (locals (snd run2))) = Some v /\
        forall client,
          (forall a, section_of a = Some s' ->
                     agree (failing [Stats] connection_error mock_garminconnect)
                       client a) ->
          section_alone client "2025-01-15" 5 default_state s' = Some v) /\
  (forall k, k <> section_key Stats ->
             dict_lookup k (result (locals (snd run1))) =
             dict_lookup k (result (locals (snd run2)))).
Proof.
  apply (context_failure_isolated no_human config_loads
           (fun _ => failing [Stats] connection_error mock_garminconnect)
           (fun _ => mock_garminconnect) "2025-01-15" 5 true true true true None
           default_state default_config Stats).
  - reflexivity.
  - intros a Ha. destruct a; simpl in Ha; try congruence; repeat split.
Defined.

Lemma context_failure_recorded_witness :
  Forall
    (fun place =>
       at_path (fst place)
         (JDict (context_result no_human
                   (failing [Health] connection_error mock_garminconnect)
                   "2025-01-15" 5 true true true true None default_state))
       = Some (snd place))
    (failure_record (Api_get_sleep_data "2025-01-15")).
Proof.
  apply (context_failure_recorded no_human
           (failing [Health] connection_error mock_garminconnect)
           "2025-01-15" 5 true true true true None default_state
           Health (Api_get_sleep_data "2025-01-15") connection_error).
  - reflexivity.
  - reflexivity.
  - simpl. tauto.
  - reflexivity.
Defined.

(** ** Focus *)






(** ** The order of the fetches *)

Lemma calls_stdout (chunks : list text) : calls (map Stdout chunks) = [].
Proof. induction chunks; simpl; auto. Qed.





(** ** Delete commands *)

(** C10.  Without [--force], when the user declines the prompt, each
    delete command raises [Abort] right after the prompt: no client
    method was called, nothing was written to standard output and the
    options are as they were. *)
Theorem delete_declined_aborts
  (render_human : RecordSet -> list text) (client : GarminClient)
  (answer : string -> res bool) (p : proc unit)
  (activity_id pk : Z) (date_str : string) :
  (forall question, answer question = inr false) ->
  delete_activity render_human client answer activity_id false p =
    (inl Abort, logged p [Prompt ("Delete activity " ++ str_of_Z activity_id ++ "?")]) /\
  delete_weight render_human client answer pk false p =
    (inl Abort, logged p [Prompt ("Delete weight entry " ++ str_of_Z pk ++ "?")]) /\
  delete_weights_for_date render_human client answer date_str false p =
    (inl Abort, logged p [Prompt ("Delete all weight entries for " ++ date_str ++ "?")]).
Proof.
  intros No.
  unfold delete_activity, delete_weight, delete_weights_for_date, confirm.
  unfold bind, tell, lift, raise, logged. simpl.
  rewrite !No. simpl. repeat split.
Qed.

Lemma delete_declined_aborts_witness :
  (forall question : string, (fun _ => inr false) question = (inr false : res bool)) /\
  delete_activity no_human mock_garminconnect (fun _ => inr false) 42 false
    (start default_state tt) =
    (inl Abort, logged (start default_state tt) [Prompt "Delete activity 42?"]) /\
  delete_weight no_human mock_garminconnect (fun _ => inr false) 12345678 false
    (start default_state tt) =
    (inl Abort, logged (start default_state tt) [Prompt "Delete weight entry 12345678?"]) /\
  delete_weights_for_date no_human mock_garminconnect (fun _ => inr false)
    "2025-01-01" false (start default_state tt) =
    (inl Abort,
     logged (start default_state tt)
       [Prompt "Delete all weight entries for 2025-01-01?"]).
Proof.
  split; [reflexivity|].
  apply (delete_declined_aborts no_human mock_garminconnect (fun _ => inr false)
           (start default_state tt) 42 12345678 "2025-01-01").
  reflexivity.
Defined.

(** With [--force] the prompt is skipped and the delete is called once. *)
Lemma delete_activity_forced (render_human : RecordSet -> list text)
  (client : GarminClient) (answer : string -> res bool) (activity_id : Z) :
  calls (log (snd (delete_activity render_human client answer activity_id true
                     (start default_state tt)))) =
  [Api_delete_activity activity_id].
Proof.
  unfold delete_activity, client_delete_activity. cbn [negb].
  unfold bind, ret. rewrite method_run.
  destruct (fetch_outcome client (Api_delete_activity activity_id)).
  - cbn [snd logged log start app]. now rewrite calls_fetch_events.
  - rewrite emit_result_run. cbn [snd logged log start app globals].
    now rewrite calls_app, calls_fetch_events, calls_stdout.
Qed.

(** ** Reading back what was rendered *)

(** *** Strings *)

Lemma parse_escape_char (c : ascii) (t : text) :
  parse_string_body (escape_char c ++ t) = cons_char c (parse_string_body t).
Proof.
  destruct c as [[] [] [] [] [] [] [] []]; reflexivity.
Qed.

Lemma parse_string_body_escaped (l : text) (rest : text) :
  parse_string_body (flat_map escape_char l ++ DQUOTE :: rest) = Some (l, rest).
Proof.
  induction l as [|c l IH]; simpl.
  - reflexivity.
  - rewrite <- app_assoc, parse_escape_char, IH. reflexivity.
Qed.

Lemma render_string_eq (s : string) (rest : text) :
  render_string s ++ rest =
  DQUOTE :: flat_map escape_char (chars s) ++ DQUOTE :: rest.
Proof. unfold render_string. simpl. now rewrite <- app_assoc. Qed.

(** *** Numbers *)

Lemma text_of_uint_digits (d : Decimal.uint) :
  forallb is_digit (text_of_uint d) = true.
Proof. induction d; simpl; auto. Qed.

Lemma uint_of_text_of_uint (d : Decimal.uint) :
  uint_of_text (text_of_uint d) = d.
Proof. induction d; simpl; try rewrite IHd; reflexivity. Qed.

Lemma take_digits_app (ds rest : text) :
  forallb is_digit ds = true ->
  match rest with [] => true | c :: _ => negb (is_digit c) end = true ->
  take_digits (ds ++ rest) = (ds, rest).
Proof.
  intros D R. induction ds as [|c ds IH]; simpl in *.
  - destruct rest as [|c r]; simpl; auto.
    apply negb_true_iff in R. now rewrite R.
  - apply andb_true_iff in D. destruct D as [Dc D].
    now rewrite Dc, IH.
Qed.

Lemma digits_of_N_nonempty (n : N) : digits_of_N n <> [].
Proof.
  unfold digits_of_N. destruct n as [|p]; simpl; try discriminate.
  pose proof (DecimalPos.Unsigned.to_uint_nonnil p) as H.
  destruct (Pos.to_uint p); simpl; try discriminate. now elim H.
Qed.

Lemma digits_of_N_digits (n : N) : forallb is_digit (digits_of_N n) = true.
Proof. apply text_of_uint_digits. Qed.

Lemma repeat_zero_digits (j : nat) : forallb is_digit (repeat "0"%char j) = true.
Proof. induction j; simpl; auto. Qed.

Lemma N_of_digits_padded (j : nat) (n : N) :
  N_of_digits (repeat "0"%char j ++ digits_of_N n) = n.
Proof.
  unfold N_of_digits, digits_of_N. induction j as [|j IH]; simpl.
  - rewrite uint_of_text_of_uint. apply DecimalN.Unsigned.of_to.
  - exact IH.
Qed.

Lemma signed_abs (m : Z) : signed (m <? 0)%Z (Z.abs_N m) = m.
Proof.
  unfold signed. rewrite N2Z.inj_abs_N.
  destruct (Z.ltb_spec m 0); lia.
Qed.

Lemma ends_number_digit (rest : text) :
  ends_number rest = true ->
  match rest with [] => true | c :: _ => negb (is_digit c) end = true.
Proof.
  destruct rest as [|c r]; simpl; auto.
  rewrite negb_orb, andb_true_iff. tauto.
Qed.

Lemma forallb_firstn {A} (f : A -> bool) (k : nat) (l : list A) :
  forallb f l = true -> forallb f (firstn k l) = true.
Proof.
  revert k. induction l as [|x l IH]; intros [|k]; simpl; auto.
  rewrite !andb_true_iff. intros [H1 H2]. auto.
Qed.

Lemma forallb_skipn {A} (f : A -> bool) (k : nat) (l : list A) :
  forallb f l = true -> forallb f (skipn k l) = true.
Proof.
  revert k. induction l as [|x l IH]; intros [|k]; simpl; auto.
  rewrite !andb_true_iff. intros [H1 H2]. auto.
Qed.

Lemma digits_head_not_minus (ds : text) :
  forallb is_digit ds = true ->
  match ds with [] => true | c :: _ => negb (Ascii.eqb c "-"%char) end = true.
Proof.
  destruct ds as [|c ds]; simpl; auto.
  rewrite andb_true_iff. intros [H _].
  unfold is_digit in H. simpl in H.
  repeat (apply orb_true_iff in H; destruct H as [H|H];
          [apply Ascii.eqb_eq in H; subst c; reflexivity|]).
  discriminate H.
Qed.

Lemma parse_unsigned_int (negative : bool) (ip rest : text) :
  ip <> [] -> forallb is_digit ip = true -> ends_number rest = true ->
  parse_unsigned negative (ip ++ rest) =
  Some (JNum (signed negative (N_of_digits ip)) 0, rest).
Proof.
  intros Hne D R. unfold parse_unsigned.
  rewrite take_digits_app by auto using ends_number_digit.
  destruct ip as [|c ip]; [congruence|].
  destruct rest as [|c' r]; auto.
  simpl in R. rewrite negb_orb, andb_true_iff, !negb_true_iff in R.
  destruct R as [_ R]. now rewrite R.
Qed.

Lemma parse_unsigned_frac (negative : bool) (ip fp rest : text) :
  ip <> [] -> fp <> [] ->
  forallb is_digit ip = true -> forallb is_digit fp = true ->
  match rest with [] => true | c :: _ => negb (is_digit c) end = true ->
  parse_unsigned negative (ip ++ "."%char :: fp ++ rest) =
  Some (JNum (signed negative (N_of_digits (ip ++ fp))) (List.length fp), rest).
Proof.
  intros Hi Hf Di Df R. unfold parse_unsigned.
  rewrite take_digits_app by auto.
  destruct ip as [|c ip]; [congruence|].
  change (Ascii.eqb "."%char "."%char) with true. cbv iota.
  rewrite take_digits_app by auto.
  destruct fp as [|c' fp]; [congruence|]. reflexivity.
Qed.

Lemma parse_number_render (m : Z) (e : nat) (rest : text) :
  ends_number rest = true ->
  parse_number (render_num m e ++ rest) = Some (JNum m e, rest).
Proof.
  intros R. unfold render_num.
  set (ds := digits_of_N (Z.abs_N m)).
  assert (Dds : forallb is_digit ds = true) by apply digits_of_N_digits.
  assert (Nds : ds <> []) by apply digits_of_N_nonempty.
  destruct e as [|e].
  - assert (V : N_of_digits ds = Z.abs_N m) by apply (N_of_digits_padded 0).
    pose proof (signed_abs m) as S.
    destruct (m <? 0)%Z; cbn [app].
    + unfold parse_number. change (Ascii.eqb "-"%char "-"%char) with true. cbv iota.
      rewrite parse_unsigned_int by auto. now rewrite V, S.
    + pose proof (digits_head_not_minus ds Dds) as Hd.
      destruct ds as [|c ds]; [congruence|].
      unfold parse_number. cbn [app]. apply negb_true_iff in Hd. rewrite Hd.
      change (c :: ds ++ rest) with ((c :: ds) ++ rest).
      rewrite parse_unsigned_int by auto. now rewrite V, S.
  - set (padded := repeat "0"%char (S (S e) - List.length ds) ++ ds).
    set (k := List.length padded - S e).
    assert (Dp : forallb is_digit padded = true).
    { unfold padded. rewrite forallb_app, repeat_zero_digits. auto. }
    assert (Lp : S (S e) <= List.length padded).
    { unfold padded. rewrite length_app, repeat_length. lia. }
    assert (V : N_of_digits (firstn k padded ++ skipn k padded) = Z.abs_N m).
    { rewrite firstn_skipn. apply N_of_digits_padded. }
    assert (Hf : firstn k padded <> []).
    { intros E. apply (f_equal (@List.length ascii)) in E.
      rewrite length_firstn in E. simpl in E. unfold k in E. lia. }
    assert (Hs : List.length (skipn k padded) = S e).
    { rewrite length_skipn. unfold k. lia. }
    assert (Hs' : skipn k padded <> []).
    { intros E. rewrite E in Hs. discriminate. }
    pose proof (signed_abs m) as S.
    pose proof (forallb_firstn is_digit k padded Dp) as Df.
    pose proof (forallb_skipn is_digit k padded Dp) as Dsk.
    destruct (m <? 0)%Z; cbn [app]; rewrite <- app_assoc; cbn [app].
    + unfold parse_number. change (Ascii.eqb "-"%char "-"%char) with true. cbv iota.
      rewrite parse_unsigned_frac by auto using ends_number_digit.
      now rewrite V, S, Hs.
    + pose proof (digits_head_not_minus _ Df) as Hd.
      destruct (firstn k padded) as [|c f] eqn:Ef; [congruence|].
      unfold parse_number. cbn [app]. apply negb_true_iff in Hd. rewrite Hd.
      change (c :: f ++ "."%char :: skipn k padded ++ rest)
        with ((c :: f) ++ "."%char :: skipn k padded ++ rest).
      rewrite parse_unsigned_frac by auto using ends_number_digit.
      now rewrite V, S, Hs.
Qed.

(** *** White space and the first character of a value *)

Lemma skip_ws_app (ws t : text) :
  forallb is_ws ws = true -> skip_ws (ws ++ t) = skip_ws t.
Proof.
  induction ws as [|c ws IH]; simpl; auto.
  rewrite andb_true_iff. intros [Hc H]. now rewrite Hc, IH.
Qed.

Lemma value_start_facts (c : ascii) :
  value_start c = true ->
  is_ws c = false /\
  Ascii.eqb c "]"%char = false /\ Ascii.eqb c "}"%char = false /\
  Ascii.eqb c ","%char = false.
Proof.
  unfold value_start, is_digit. simpl. intros H.
  repeat (apply orb_true_iff in H; destruct H as [H|H];
          [try (apply Ascii.eqb_eq in H; subst c; repeat split; reflexivity)|]);
    try discriminate H.
Qed.

Lemma render_num_head (m : Z) (e : nat) :
  exists c tl, render_num m e = c :: tl /\
               (is_digit c || Ascii.eqb c "-"%char) = true.
Proof.
  unfold render_num.
  set (ds := digits_of_N (Z.abs_N m)).
  assert (Dds : forallb is_digit ds = true) by apply digits_of_N_digits.
  assert (Nds : ds <> []) by apply digits_of_N_nonempty.
  destruct (m <? 0)%Z.
  - destruct e; simpl; eexists; eexists; split; reflexivity.
  - destruct e as [|e]; cbn [app].
    + destruct ds as [|c ds]; [congruence|].
      exists c, ds. split; auto. simpl in Dds.
      apply andb_true_iff in Dds. destruct Dds as [-> _]. reflexivity.
    + set (padded := repeat "0"%char (S (S e) - List.length ds) ++ ds).
      assert (Dp : forallb is_digit padded = true).
      { unfold padded. rewrite forallb_app, repeat_zero_digits. auto. }
      assert (Lp : S (S e) <= List.length padded).
      { unfold padded. rewrite length_app, repeat_length. lia. }
      destruct padded as [|c pd] eqn:E; [simpl in Lp; lia|].
      replace (List.length (c :: pd) - S e) with (S (List.length pd - S e))
        by (simpl in *; lia).
      cbn [firstn app]. eexists; eexists; split; [reflexivity|].
      simpl in Dp. apply andb_true_iff in Dp. destruct Dp as [-> _]. reflexivity.
Qed.

Lemma render_head (L : layout) (lvl : nat) (v : json) :
  exists c tl, render L lvl v = c :: tl /\ value_start c = true.
Proof.
  destruct v as [|[]|m e|s|[|x xs]|[|[k x] kvs]];
    try (simpl; eexists; eexists; split; reflexivity).
  destruct (render_num_head m e) as (c & tl & E & H).
  exists c, tl. split; auto. unfold value_start.
  apply orb_true_iff in H. destruct H as [H|H].
  - now rewrite H.
  - apply Ascii.eqb_eq in H. subst c. reflexivity.
Qed.

(** *** Values *)

Lemma parse_value_ws (fuel : nat) (ws t : text) :
  forallb is_ws ws = true -> parse_value fuel (ws ++ t) = parse_value fuel t.
Proof. intros H. destruct fuel; simpl; auto. now rewrite skip_ws_app. Qed.

Lemma parse_value_number (f : nat) (c : ascii) (r : text) :
  (is_digit c || Ascii.eqb c "-"%char) = true ->
  parse_value (S f) (c :: r) = parse_number (c :: r).
Proof.
  intros H.
  assert (W : is_ws c = false).
  { apply (value_start_facts c). unfold value_start.
    apply orb_true_iff in H. destruct H as [H|H].
    - now rewrite H.
    - apply Ascii.eqb_eq in H. subst c. reflexivity. }
  cbn [parse_value skip_ws]. rewrite W, H. reflexivity.
Qed.

Lemma parse_value_string (f : nat) (r : text) :
  parse_value (S f) (DQUOTE :: r) =
  match parse_string_body r with
  | Some (s, r') => Some (JStr (string_of_list_ascii s), r')
  | None => None
  end.
Proof. reflexivity. Qed.

Lemma parse_value_array (f : nat) (r : text) :
  parse_value (S f) ("["%char :: r) =
  match skip_ws r with
  | [] => None
  | c' :: r' =>
      if Ascii.eqb c' "]"%char then Some (JList [], r')
      else
        match parse_value f r with
        | Some (x, r1) =>
            match parse_items (parse_value f) (S (List.length r1)) r1 with
            | Some (xs, r2) => Some (JList (x :: xs), r2)
            | None => None
            end
        | None => None
        end
  end.
Proof. reflexivity. Qed.

Lemma parse_value_object (f : nat) (r : text) :
  parse_value (S f) ("{"%char :: r) =
  match skip_ws r with
  | [] => None
  | c' :: r' =>
      if Ascii.eqb c' "}"%char then Some (JDict [], r')
      else
        match parse_member (parse_value f) r with
        | Some (k, x, r1) =>
            match parse_members (parse_value f) (S (List.length r1)) r1 with
            | Some (kvs, r2) => Some (JDict ((k, x) :: kvs), r2)
            | None => None
            end
        | None => None
        end
  end.
Proof. reflexivity. Qed.

Lemma render_items_app (item : json -> text) (sep close rest : text)
  (xs : list json) :
  render_items item sep close xs ++ rest = render_items item sep (close ++ rest) xs.
Proof.
  induction xs as [|x xs IH]; simpl; auto.
  now rewrite <- !app_assoc, IH.
Qed.

Lemma render_members_app (item : json -> text) (sep col close rest : text)
  (kvs : list (string * json)) :
  render_members item sep col close kvs ++ rest =
  render_members item sep col (close ++ rest) kvs.
Proof.
  induction kvs as [|[k x] kvs IH]; cbn [render_members app]; auto.
  rewrite <- !app_assoc. cbn [app]. now rewrite <- !app_assoc, IH.
Qed.

Lemma render_items_length (item : json -> text) (sep close : text)
  (xs : list json) :
  List.length xs <= List.length (render_items item sep close xs).
Proof.
  induction xs as [|x xs IH]; simpl; [lia|].
  rewrite !length_app. lia.
Qed.

Lemma render_members_length (item : json -> text) (sep col close : text)
  (kvs : list (string * json)) :
  List.length kvs <= List.length (render_members item sep col close kvs).
Proof.
  induction kvs as [|[k x] kvs IH]; cbn [render_members List.length]; [lia|].
  repeat (rewrite length_app || cbn [List.length]). lia.
Qed.

Lemma is_ws_ends (c : ascii) :
  is_ws c = true -> (is_digit c || Ascii.eqb c "."%char) = false.
Proof.
  unfold is_ws. intros H.
  repeat (apply orb_true_iff in H; destruct H as [H|H]);
    apply Ascii.eqb_eq in H; subst c; reflexivity.
Qed.

Lemma ends_number_closer (ws : text) (c : ascii) (r : text) :
  forallb is_ws ws = true ->
  (is_digit c || Ascii.eqb c "."%char) = false ->
  ends_number (ws ++ c :: r) = true.
Proof.
  intros W C. destruct ws as [|w ws]; simpl.
  - now rewrite C.
  - simpl in W. apply andb_true_iff in W. destruct W as [W _].
    now rewrite (is_ws_ends w W).
Qed.

Section RoundTrip.

Variable L : layout.
Hypothesis HL : layout_ok L.

Lemma ends_number_items (lvl lvl' : nat) (rest : text) (xs : list json) :
  ends_number
    (render_items (render L lvl') (nl L lvl') (nl L lvl ++ "]"%char :: rest) xs) = true.
Proof.
  destruct xs; simpl; auto.
  apply ends_number_closer; auto. apply HL.
Qed.

Lemma ends_number_members (lvl lvl' : nat) (rest : text)
  (kvs : list (string * json)) :
  ends_number
    (render_members (render L lvl') (nl L lvl') (sp L)
       (nl L lvl ++ "}"%char :: rest) kvs) = true.
Proof.
  destruct kvs as [|[k x] kvs]; simpl; auto.
  apply ends_number_closer; auto. apply HL.
Qed.

Lemma parse_items_render (f lvl lvl' : nat) (rest : text) (xs : list json) :
  Forall (reads L) xs -> Forall (fun x => depth x <= f) xs ->
  forall n, List.length xs < n ->
  parse_items (parse_value (S f)) n
    (render_items (render L lvl') (nl L lvl') (nl L lvl ++ "]"%char :: rest) xs)
  = Some (xs, rest).
Proof.
  intros R D. induction xs as [|x xs IH]; intros [|n] Hn; try (simpl in Hn; lia).
  - cbn [parse_items render_items]. rewrite skip_ws_app by apply HL. reflexivity.
  - inversion R as [|? ? Rx Rxs]; subst. inversion D as [|? ? Dx Dxs]; subst.
    cbn [parse_items render_items skip_ws].
    change (is_ws ","%char) with false. cbv iota.
    change (Ascii.eqb ","%char "]"%char) with false.
    change (Ascii.eqb ","%char ","%char) with true. cbv iota.
    rewrite parse_value_ws by apply HL.
    rewrite (Rx lvl' f _ Dx (ends_number_items lvl lvl' rest xs)).
    rewrite IH; auto. simpl in Hn. lia.
Qed.

Lemma parse_member_render (f lvl lvl' : nat) (k : string) (x : json) (rest : text) :
  reads L x -> depth x <= f -> ends_number rest = true ->
  parse_member (parse_value (S f))
    (nl L lvl ++ render_string k ++ ":"%char :: sp L ++ render L lvl' x ++ rest)
  = Some (k, x, rest).
Proof.
  intros R D E. unfold parse_member.
  rewrite skip_ws_app by apply HL.
  rewrite render_string_eq. cbn [skip_ws].
  change (is_ws DQUOTE) with false. cbv iota.
  change (Ascii.eqb DQUOTE DQUOTE) with true. cbv iota.
  unfold chars. rewrite parse_string_body_escaped.
  cbn [skip_ws]. change (is_ws ":"%char) with false. cbv iota.
  change (Ascii.eqb ":"%char ":"%char) with true. cbv iota.
  rewrite parse_value_ws by apply HL.
  rewrite (R lvl' f rest D E).
  now rewrite string_of_list_ascii_of_string.
Qed.

Lemma parse_members_render (f lvl lvl' : nat) (rest : text)
  (kvs : list (string * json)) :
  Forall (fun kv => reads L (snd kv)) kvs ->
  Forall (fun kv => depth (snd kv) <= f) kvs ->
  forall n, List.length kvs < n ->
  parse_members (parse_value (S f)) n
    (render_members (render L lvl') (nl L lvl') (sp L)
       (nl L lvl ++ "}"%char :: rest) kvs)
  = Some (kvs, rest).
Proof.
  intros R D. induction kvs as [|[k x] kvs IH]; intros [|n] Hn;
    try (simpl in Hn; lia).
  - cbn [parse_members render_members]. rewrite skip_ws_app by apply HL.
    reflexivity.
  - inversion R as [|? ? Rx Rxs]; subst. inversion D as [|? ? Dx Dxs]; subst.
    cbn [parse_members render_members skip_ws].
    change (is_ws ","%char) with false. cbv iota.
    change (Ascii.eqb ","%char "}"%char) with false.
    change (Ascii.eqb ","%char ","%char) with true. cbv iota.
    rewrite (parse_member_render f lvl' lvl' k x _ Rx Dx
               (ends_number_members lvl lvl' rest kvs)).
    rewrite IH; auto. simpl in Hn. lia.
Qed.

Lemma depth_items_bound (f : nat) (xs : list json) :
  fold_right (fun x n => Nat.max (depth x) n) 0 xs <= f ->
  Forall (fun x => depth x <= f) xs.
Proof.
  induction xs as [|x xs IH]; simpl; intros H; constructor.
  - lia.
  - apply IH. lia.
Qed.

Lemma depth_members_bound (f : nat) (kvs : list (string * json)) :
  fold_right (fun kv n => Nat.max (depth (snd kv)) n) 0 kvs <= f ->
  Forall (fun kv => depth (snd kv) <= f) kvs.
Proof.
  induction kvs as [|kv kvs IH]; simpl; intros H; constructor.
  - lia.
  - apply IH. lia.
Qed.

Lemma skip_ws_render (lvl : nat) (x : json) (ws rest : text) :
  forallb is_ws ws = true ->
  exists c tl, skip_ws (ws ++ render L lvl x ++ rest) = c :: tl /\
               Ascii.eqb c "]"%char = false /\ Ascii.eqb c "}"%char = false.
Proof.
  intros W. rewrite skip_ws_app by auto.
  destruct (render_head L lvl x) as (c & tl & E & Hc).
  destruct (value_start_facts c Hc) as (Hw & H1 & H2 & _).
  exists c, (tl ++ rest). rewrite E. cbn [app skip_ws]. rewrite Hw. auto.
Qed.

(** Every rendered value is read back, whatever follows it. *)
Lemma render_reads (v : json) : reads L v.
Proof.
  induction v as [| b | m e | s | xs IH | kvs IH] using json_induction;
    intros lvl f rest D E.
  - reflexivity.
  - destruct b; reflexivity.
  - cbn [render].
    destruct (render_num_head m e) as (c & tl & En & Hc).
    pose proof (parse_number_render m e rest E) as Hp.
    rewrite En in *. cbn [app] in *. now rewrite parse_value_number.
  - cbn [render]. rewrite render_string_eq, parse_value_string.
    unfold chars. rewrite parse_string_body_escaped.
    now rewrite string_of_list_ascii_of_string.
  - destruct xs as [|x xs]; [reflexivity|].
    inversion IH as [|? ? Rx Rxs]; subst.
    cbn [render]. cbn [app]. rewrite <- !app_assoc, render_items_app.
    rewrite <- app_assoc. cbn [app].
    rewrite parse_value_array.
    destruct (skip_ws_render (S lvl) x (nl L (S lvl))
                (render_items (render L (S lvl)) (nl L (S lvl))
                   (nl L lvl ++ "]"%char :: rest) xs)) as (c & tl & Hs & Hb & _);
      [apply HL|].
    rewrite Hs, Hb. clear Hs Hb c tl.
    destruct f as [|f]; [simpl in D; lia|].
    cbn [depth fold_right] in D.
    assert (Dx : depth x <= f) by lia.
    assert (Dxs : Forall (fun y => depth y <= f) xs)
      by (apply depth_items_bound; lia).
    rewrite parse_value_ws by apply HL.
    rewrite (Rx (S lvl) f _ Dx (ends_number_items lvl (S lvl) rest xs)).
    rewrite (parse_items_render f lvl (S lvl) rest xs Rxs Dxs).
    + reflexivity.
    + pose proof (render_items_length (render L (S lvl)) (nl L (S lvl))
                    (nl L lvl ++ "]"%char :: rest) xs). lia.
  - destruct kvs as [|[k x] kvs]; [reflexivity|].
    inversion IH as [|? ? Rx Rxs]; subst. cbn [snd] in Rx.
    cbn [render]. cbn [app]. rewrite <- !app_assoc. cbn [app].
    rewrite <- !app_assoc, render_members_app.
    rewrite <- app_assoc. cbn [app].
    rewrite parse_value_object.
    assert (Hs : exists c tl,
               skip_ws (nl L (S lvl) ++ render_string k ++
                        ":"%char :: sp L ++ render L (S lvl) x ++
                        render_members (render L (S lvl)) (nl L (S lvl)) (sp L)
                          (nl L lvl ++ "}"%char :: rest) kvs) = c :: tl /\
               Ascii.eqb c "}"%char = false).
    { rewrite skip_ws_app by apply HL. rewrite render_string_eq.
      eexists; eexists; split; reflexivity. }
    destruct Hs as (c & tl & Hs & Hb). rewrite Hs, Hb. clear Hs Hb c tl.
    destruct f as [|f]; [simpl in D; lia|].
    cbn [depth fold_right snd] in D.
    assert (Dx : depth x <= f) by lia.
    assert (Dxs : Forall (fun kv => depth (snd kv) <= f) kvs)
      by (apply depth_members_bound; lia).
    rewrite (parse_member_render f (S lvl) (S lvl) k x _ Rx Dx
               (ends_number_members lvl (S lvl) rest kvs)).
    rewrite (parse_members_render f lvl (S lvl) rest kvs Rxs Dxs).
    + reflexivity.
    + pose proof (render_members_length (render L (S lvl)) (nl L (S lvl)) (sp L)
                    (nl L lvl ++ "}"%char :: rest) kvs). lia.
Qed.

(** The rendering is long enough to serve as fuel. *)
Lemma depth_le_render (v : json) :
  forall lvl, depth v <= List.length (render L lvl v).
Proof.
  induction v as [| b | m e | s | xs IH | kvs IH] using json_induction;
    intros lvl; try (simpl; lia).
  - destruct xs as [|x xs]; [simpl; lia|].
    inversion IH as [|? ? Hx Hxs]; subst.
    cbn [render depth fold_right List.length]. rewrite !length_app.
    assert (B : fold_right (fun y n => Nat.max (depth y) n) 0 xs <=
                List.length (render_items (render L (S lvl)) (nl L (S lvl))
                               (nl L lvl ++ ["]"%char]) xs)).
    { clear Hx IH. induction xs as [|y ys IHy]; [simpl; lia|].
      inversion Hxs as [|? ? Hy Hys]; subst.
      cbn [fold_right render_items List.length]. rewrite !length_app.
      specialize (IHy Hys). specialize (Hy (S lvl)). lia. }
    specialize (Hx (S lvl)). lia.
  - destruct kvs as [|[k x] kvs]; [simpl; lia|].
    inversion IH as [|? ? Hx Hxs]; subst. cbn [snd] in Hx.
    cbn [render depth fold_right List.length snd].
    repeat (rewrite length_app || cbn [List.length]).
    assert (B : fold_right (fun kv n => Nat.max (depth (snd kv)) n) 0 kvs <=
                List.length (render_members (render L (S lvl)) (nl L (S lvl))
                               (sp L) (nl L lvl ++ ["}"%char]) kvs)).
    { clear Hx IH. induction kvs as [|[k' y] ys IHy]; [simpl; lia|].
      inversion Hxs as [|? ? Hy Hys]; subst. cbn [snd] in Hy.
      cbn [fold_right render_members List.length snd].
      repeat (rewrite length_app || cbn [List.length]).
      specialize (IHy Hys). specialize (Hy (S lvl)). lia. }
    specialize (Hx (S lvl)). lia.
Qed.

(** A rendered value, with white space after it, loads as itself. *)
Lemma json_loads_render (lvl : nat) (v : json) (ws : text) :
  forallb is_ws ws = true ->
  json_loads (render L lvl v ++ ws) = Some v.
Proof.
  intros W. unfold json_loads.
  assert (E : ends_number ws = true).
  { destruct ws as [|c ws]; auto. simpl in *.
    apply andb_true_iff in W. destruct W as [W _].
    now rewrite (is_ws_ends c W). }
  rewrite (render_reads v lvl (List.length (render L lvl v ++ ws)) ws); auto.
  - rewrite <- (app_nil_r ws), skip_ws_app by auto. reflexivity.
  - rewrite length_app. pose proof (depth_le_render v lvl). lia.
Qed.

End RoundTrip.

Lemma compact_ok : layout_ok compact.
Proof. split; reflexivity. Qed.

Lemma pretty_ok : layout_ok pretty.
Proof.
  split; [|reflexivity]. intros lvl. simpl.
  induction (lvl + (lvl + 0)); simpl; auto.
Qed.

(** ** Lines *)

Lemma forallb_impl {A} (f g : A -> bool) (l : list A) :
  (forall x, f x = true -> g x = true) ->
  forallb f l = true -> forallb g l = true.
Proof.
  intros H. induction l as [|x l IH]; simpl; auto.
  rewrite !andb_true_iff. intros [H1 H2]. auto.
Qed.

Lemma lines_from_chunk (c cur t : text) :
  no_line_feed c = true ->
  lines_from cur (c ++ LF :: t) = (rev cur ++ c) :: lines_from [] t.
Proof.
  revert cur. induction c as [|x c IH]; intros cur H.
  - cbn [app lines_from]. change (Ascii.eqb LF LF) with true. cbv iota.
    now rewrite app_nil_r.
  - simpl in H. apply andb_true_iff in H. destruct H as [Hx H].
    apply negb_true_iff in Hx. cbn [app lines_from]. rewrite Hx.
    rewrite IH by auto. simpl. now rewrite <- app_assoc.
Qed.

(** Chunks without a line feed are the lines of what is written. *)
Lemma lines_written (chunks : list text) :
  forallb no_line_feed chunks = true -> lines (written chunks) = chunks.
Proof.
  unfold lines, written. induction chunks as [|c cs IH]; simpl; auto.
  rewrite andb_true_iff. intros [Hc H].
  rewrite <- app_assoc. cbn [app]. rewrite lines_from_chunk by auto.
  simpl. now rewrite IH.
Qed.

Lemma no_line_feed_app (a b : text) :
  no_line_feed (a ++ b) = no_line_feed a && no_line_feed b.
Proof. apply forallb_app. Qed.

Lemma no_line_feed_flat_map {A} (f : A -> text) (l : list A) :
  (forall x, no_line_feed (f x) = true) -> no_line_feed (flat_map f l) = true.
Proof.
  intros H. induction l as [|x l IH]; simpl; auto.
  now rewrite no_line_feed_app, H, IH.
Qed.

Lemma escape_char_no_line_feed (c : ascii) : no_line_feed (escape_char c) = true.
Proof. destruct c as [[] [] [] [] [] [] [] []]; reflexivity. Qed.

Lemma render_string_no_line_feed (s : string) :
  no_line_feed (render_string s) = true.
Proof.
  unfold render_string. cbn [no_line_feed forallb].
  change (negb (Ascii.eqb DQUOTE LF)) with true. cbn [andb].
  fold (no_line_feed (flat_map escape_char (chars s) ++ [DQUOTE])).
  rewrite no_line_feed_app.
  rewrite no_line_feed_flat_map by apply escape_char_no_line_feed.
  reflexivity.
Qed.

Lemma digits_no_line_feed (t : text) :
  forallb is_digit t = true -> no_line_feed t = true.
Proof.
  apply forallb_impl. intros c H. unfold is_digit in H. simpl in H.
  repeat (apply orb_true_iff in H; destruct H as [H|H];
          [apply Ascii.eqb_eq in H; subst c; reflexivity|]).
  discriminate H.
Qed.

Lemma render_num_no_line_feed (m : Z) (e : nat) :
  no_line_feed (render_num m e) = true.
Proof.
  unfold render_num. cbv zeta.
  set (ds := digits_of_N (Z.abs_N m)).
  assert (Dds : forallb is_digit ds = true) by apply digits_of_N_digits.
  set (padded := repeat "0"%char (S e - List.length ds) ++ ds).
  assert (Dp : forallb is_digit padded = true).
  { unfold padded. rewrite forallb_app, repeat_zero_digits. auto. }
  pose proof (digits_no_line_feed _ Dds) as N1.
  pose proof (digits_no_line_feed _ (forallb_firstn is_digit
                (List.length padded - e) _ Dp)) as N2.
  pose proof (digits_no_line_feed _ (forallb_skipn is_digit
                (List.length padded - e) _ Dp)) as N3.
  assert (N4 : no_line_feed
                 (firstn (List.length padded - e) padded ++
                  "."%char :: skipn (List.length padded - e) padded) = true).
  { rewrite no_line_feed_app, N2. cbn [no_line_feed forallb andb].
    change (negb (Ascii.eqb "."%char LF)) with true. exact N3. }
  destruct (m <? 0)%Z; destruct e; cbv iota; cbn [app];
    cbn [no_line_feed forallb];
    change (negb (Ascii.eqb "-"%char LF)) with true; cbn [andb]; assumption.
Qed.

(** Compact JSON text stays on one line. *)
Lemma json_dumps_no_line_feed (v : json) :
  forall lvl, no_line_feed (render compact lvl v) = true.
Proof.
  induction v as [| b | m e | s | xs IH | kvs IH] using json_induction;
    intros lvl.
  - reflexivity.
  - destruct b; reflexivity.
  - apply render_num_no_line_feed.
  - apply render_string_no_line_feed.
  - destruct xs as [|x xs]; [reflexivity|].
    inversion IH as [|? ? Hx Hxs]; subst.
    cbn [render compact nl app]. cbn [no_line_feed forallb].
    change (negb (Ascii.eqb "["%char LF)) with true. cbn [andb].
    fold (no_line_feed
            (render compact (S lvl) x ++
             render_items (render compact (S lvl)) [] ["]"%char] xs)).
    rewrite no_line_feed_app, Hx. cbn [andb].
    clear Hx IH. induction xs as [|y ys IHy]; [reflexivity|].
    inversion Hxs as [|? ? Hy Hys]; subst.
    cbn [render_items app]. cbn [no_line_feed forallb].
    change (negb (Ascii.eqb ","%char LF)) with true. cbn [andb].
    fold (no_line_feed
            (render compact (S lvl) y ++
             render_items (render compact (S lvl)) [] ["]"%char] ys)).
    rewrite no_line_feed_app, Hy. cbn [andb]. auto.
  - destruct kvs as [|[k x] kvs]; [reflexivity|].
    inversion IH as [|? ? Hx Hxs]; subst. cbn [snd] in Hx.
    cbn [render compact nl sp app].
    change ("{"%char :: render_string k ++ ":"%char :: render compact (S lvl) x ++
            render_members (render compact (S lvl)) [] [] ["}"%char] kvs)
      with (["{"%char] ++ render_string k ++ [":"%char] ++
            render compact (S lvl) x ++
            render_members (render compact (S lvl)) [] [] ["}"%char] kvs).
    rewrite !no_line_feed_app, render_string_no_line_feed, Hx.
    cbn [andb]. change (no_line_feed ["{"%char]) with true.
    change (no_line_feed [":"%char]) with true. cbn [andb].
    clear Hx IH. induction kvs as [|[k' y] ys IHy]; [reflexivity|].
    inversion Hxs as [|? ? Hy Hys]; subst. cbn [snd] in Hy.
    cbn [render_members app].
    change (","%char :: render_string k' ++ ":"%char :: render compact (S lvl) y ++
            render_members (render compact (S lvl)) [] [] ["}"%char] ys)
      with ([","%char] ++ render_string k' ++ [":"%char] ++
            render compact (S lvl) y ++
            render_members (render compact (S lvl)) [] [] ["}"%char] ys).
    rewrite !no_line_feed_app, render_string_no_line_feed, Hy.
    change (no_line_feed [","%char]) with true.
    change (no_line_feed [":"%char]) with true. cbn [andb]. auto.
Qed.

(** ** Delimited output *)

Lemma delimited_length (sep : ascii) (cell : text -> text) (no_header : bool)
  (rs : list Record) :
  List.length (delimited sep cell no_header rs) =
  if no_header then List.length rs else S (List.length rs).
Proof.
  unfold delimited. destruct no_header; simpl; now rewrite length_map.
Qed.

Lemma join_no_line_feed (sep : ascii) (cells : list text) :
  negb (Ascii.eqb sep LF) = true ->
  forallb no_line_feed cells = true ->
  no_line_feed (join sep cells) = true.
Proof.
  intros S. induction cells as [|c cs IH]; simpl; auto.
  rewrite andb_true_iff. intros [Hc H].
  destruct cs as [|c' cs']; auto.
  rewrite no_line_feed_app, Hc. cbn [no_line_feed forallb andb].
  rewrite S. cbn [andb]. now apply IH.
Qed.

Lemma tsv_cell_no_line_feed (cell : text) : no_line_feed (tsv_cell cell) = true.
Proof.
  unfold tsv_cell. apply no_line_feed_flat_map. intros c.
  destruct (Ascii.eqb c TAB); [reflexivity|].
  destruct (Ascii.eqb c LF) eqn:E; [reflexivity|].
  destruct (Ascii.eqb c CR); [reflexivity|].
  simpl. now rewrite E.
Qed.

Lemma csv_cell_no_line_feed (cell : text) :
  no_line_feed cell = true -> no_line_feed (csv_cell cell) = true.
Proof.
  intros H. unfold csv_cell.
  destruct (existsb _ cell); auto.
  cbn [no_line_feed forallb].
  change (negb (Ascii.eqb DQUOTE LF)) with true. cbn [andb].
  fold (no_line_feed
          (flat_map (fun c => if Ascii.eqb c DQUOTE then [DQUOTE; DQUOTE] else [c])
             cell ++ [DQUOTE])).
  rewrite no_line_feed_app. apply andb_true_iff. split; [|reflexivity].
  clear -H. induction cell as [|c cell IH]; simpl in *; auto.
  apply andb_true_iff in H. destruct H as [Hc H].
  rewrite no_line_feed_app, IH by auto.
  destruct (Ascii.eqb c DQUOTE) eqn:E.
  - reflexivity.
  - simpl. now rewrite Hc.
Qed.

Lemma dict_lookup_in (k : string) (d : dict) (v : json) :
  dict_lookup k d = Some v -> In (k, v) d.
Proof.
  induction d as [|[k' v'] d IH]; simpl; [discriminate|].
  destruct (String.eqb_spec k k') as [->|N].
  - intros H. injection H as ->. now left.
  - auto.
Qed.

Lemma cell_text_no_line_feed (c : string) (r : Record) :
  line_feed_free r = true ->
  no_line_feed (cell_text (dict_lookup c r)) = true.
Proof.
  intros H. destruct (dict_lookup c r) as [v|] eqn:E; [|reflexivity].
  apply dict_lookup_in in E.
  unfold line_feed_free in H. rewrite forallb_forall in H.
  specialize (H _ E). simpl in H. apply andb_true_iff in H. destruct H as [_ H].
  destruct v; simpl; auto; apply json_dumps_no_line_feed.
Qed.

Lemma add_columns_in (seen : list string) (r : Record) (c : string) :
  In c (add_columns seen r) -> In c seen \/ In c (dict_keys r).
Proof.
  unfold add_columns. revert seen.
  induction (dict_keys r) as [|k ks IH]; intros seen; simpl; auto.
  intros H. apply IH in H. destruct H as [H|H]; auto.
  destruct (mem k seen); auto.
  apply in_app_or in H. destruct H as [H|[H|[]]]; auto.
Qed.

Lemma columns_in (rs : list Record) (c : string) :
  In c (columns rs) -> exists r, In r rs /\ In c (dict_keys r).
Proof.
  unfold columns.
  assert (G : forall seen, In c (fold_left add_columns rs seen) ->
                           In c seen \/ exists r, In r rs /\ In c (dict_keys r)).
  { induction rs as [|r rs IH]; intros seen; simpl; auto.
    intros H. apply IH in H. destruct H as [H|(r' & H1 & H2)].
    - apply add_columns_in in H. destruct H as [H|H]; auto.
      right. exists r. auto.
    - right. exists r'. auto. }
  intros H. apply G in H. destruct H as [[]|H]; auto.
Qed.

Lemma key_no_line_feed (rs : list Record) (c : string) :
  forallb line_feed_free rs = true -> In c (columns rs) ->
  no_line_feed (chars c) = true.
Proof.
  intros H Hc. apply columns_in in Hc. destruct Hc as (r & Hr & Hk).
  rewrite forallb_forall in H. specialize (H r Hr).
  unfold dict_keys in Hk. apply in_map_iff in Hk. destruct Hk as ([k v] & <- & Hin).
  unfold line_feed_free in H. rewrite forallb_forall in H.
  specialize (H _ Hin). simpl in H. now apply andb_true_iff in H.
Qed.

Lemma forallb_map {A B} (f : B -> bool) (g : A -> B) (l : list A) :
  forallb f (map g l) = forallb (fun x => f (g x)) l.
Proof. induction l; simpl; auto. now rewrite IHl. Qed.

Lemma tsv_no_line_feed (no_header : bool) (rs : list Record) :
  forallb no_line_feed (delimited TAB tsv_cell no_header rs) = true.
Proof.
  unfold delimited.
  assert (R : forallb no_line_feed
                (map (delimited_row TAB tsv_cell (columns rs)) rs) = true).
  { rewrite forallb_map. apply forallb_forall. intros r _.
    unfold delimited_row. apply join_no_line_feed; [reflexivity|].
    rewrite forallb_map. apply forallb_forall. intros c _.
    apply tsv_cell_no_line_feed. }
  assert (H : no_line_feed
                (join TAB (map (fun c => tsv_cell (chars c)) (columns rs))) = true).
  { apply join_no_line_feed; [reflexivity|].
    rewrite forallb_map. apply forallb_forall. intros c _.
    apply tsv_cell_no_line_feed. }
  destruct no_header; simpl; auto. now rewrite H, R.
Qed.

Lemma csv_no_line_feed (no_header : bool) (rs : list Record) :
  forallb line_feed_free rs = true ->
  forallb no_line_feed (delimited ","%char csv_cell no_header rs) = true.
Proof.
  intros F. unfold delimited.
  assert (R : forallb no_line_feed
                (map (delimited_row ","%char csv_cell (columns rs)) rs) = true).
  { rewrite forallb_map. apply forallb_forall. intros r Hr.
    unfold delimited_row. apply join_no_line_feed; [reflexivity|].
    rewrite forallb_map. apply forallb_forall. intros c _.
    apply csv_cell_no_line_feed, cell_text_no_line_feed.
    rewrite forallb_forall in F. auto. }
  assert (H : no_line_feed
                (join ","%char (map (fun c => csv_cell (chars c)) (columns rs)))
              = true).
  { apply join_no_line_feed; [reflexivity|].
    rewrite forallb_map. apply forallb_forall. intros c Hc.
    apply csv_cell_no_line_feed. eapply key_no_line_feed; eauto. }
  destruct no_header; simpl; auto. now rewrite H, R.
Qed.

(** ** Field selection *)

Lemma filter_record_spec (fields : option (list string)) (r : Record) :
  filter_record fields r = filter (fun kv => selects fields (fst kv)) r.
Proof.
  destruct fields; simpl; auto.
  induction r as [|kv r IH]; simpl; auto. now rewrite <- IH.
Qed.

Lemma filter_record_keys (fields : option (list string)) (r : Record) (k : string) :
  In k (dict_keys (filter_record fields r)) <->
  selects fields k = true /\ In k (dict_keys r).
Proof.
  rewrite filter_record_spec. unfold dict_keys. rewrite !in_map_iff. split.
  - intros ([k' v] & <- & H). apply filter_In in H. destruct H as [H1 H2].
    split; auto. exists (k', v). auto.
  - intros (S & [k' v] & <- & H). exists (k', v). split; auto.
    apply filter_In. auto.
Qed.

Lemma filter_record_lookup (fields : option (list string)) (r : Record) (k : string) :
  dict_lookup k (filter_record fields r) =
  if selects fields k then dict_lookup k r else None.
Proof.
  rewrite filter_record_spec.
  induction r as [|[k' v] r IH]; simpl.
  - now destruct (selects fields k).
  - destruct (selects fields k') eqn:S'; simpl.
    + destruct (String.eqb_spec k k') as [->|N].
      * now rewrite S'.
      * exact IH.
    + destruct (String.eqb_spec k k') as [->|N].
      * rewrite IH. now rewrite S'.
      * exact IH.
Qed.

Lemma records_filter_fields (fields : option (list string)) (data : RecordSet) :
  records (filter_fields fields data) = map (filter_record fields) (records data).
Proof. destruct data; reflexivity. Qed.

(** ** The properties of the projector *)

Lemma filter_record_none (r : Record) : filter_record None r = r.
Proof. reflexivity. Qed.



Lemma filter_keys (fs : list string) (r : Record) :
  dict_keys (filter (fun kv => mem (fst kv) fs) r) =
  filter (fun k => mem k fs) (dict_keys r).
Proof.
  induction r as [|[k v] r IH]; simpl; auto.
  destruct (mem k fs); simpl; now rewrite IH.
Qed.

Lemma filter_record_cut_down (fs : list string) (r : Record) :
  cut_down fs r (filter_record (Some fs) r).
Proof.
  split.
  - apply filter_keys.
  - intros k. apply (filter_record_lookup (Some fs)).
Qed.

(** The text of the [json] format loads as the selected RecordSet. *)
Lemma json_output_loads (render_human : RecordSet -> list text) (data : RecordSet)
  (fields : option (list string)) (no_header : bool) :
  json_loads (written (output render_human data OutputFormat.json fields no_header))
  = Some (to_json (filter_fields fields data)).
Proof.
  cbn [output written flat_map]. rewrite app_nil_r.
  unfold json_dumps_indent. apply json_loads_render.
  - apply pretty_ok.
  - reflexivity.
Qed.

(** The lines of the [jsonl] format are the compact texts of the
    selected records. *)
Lemma jsonl_output_lines (render_human : RecordSet -> list text) (data : RecordSet)
  (fields : option (list string)) (no_header : bool) :
  lines (written (output render_human data OutputFormat.jsonl fields no_header)) =
  map (fun r => json_dumps (JDict (filter_record fields r))) (records data).
Proof.
  cbn [output]. rewrite lines_written.
  - rewrite records_filter_fields, map_map. reflexivity.
  - rewrite forallb_map. apply forallb_forall. intros r _.
    apply json_dumps_no_line_feed.
Qed.

Lemma json_dumps_loads (v : json) : json_loads (json_dumps v) = Some v.
Proof.
  rewrite <- (app_nil_r (json_dumps v)).
  apply json_loads_render; [apply compact_ok|reflexivity].
Qed.

Lemma add_columns_keeps (seen : list string) (r : Record) (c : string) :
  In c seen -> In c (add_columns seen r).
Proof.
  unfold add_columns. revert seen.
  induction (dict_keys r) as [|k ks IH]; intros seen H; simpl; auto.
  apply IH. destruct (mem k seen); auto. apply in_or_app. now left.
Qed.

Lemma mem_In (k : string) (ks : list string) : mem k ks = true <-> In k ks.
Proof.
  unfold mem. rewrite existsb_exists. split.
  - intros (x & Hin & E). apply String.eqb_eq in E. now subst.
  - intros H. exists k. split; auto. apply String.eqb_refl.
Qed.

Lemma add_columns_adds (seen : list string) (r : Record) (c : string) :
  In c (dict_keys r) -> In c (add_columns seen r).
Proof.
  unfold add_columns. revert seen.
  induction (dict_keys r) as [|k ks IH]; intros seen H; simpl; [contradiction|].
  destruct H as [->|H]; [|now apply IH].
  assert (G : forall l acc, In c acc ->
                In c (fold_left (fun acc k => if mem k acc then acc else acc ++ [k])
                        l acc)).
  { induction l as [|k' l IHl]; intros acc Hc; simpl; auto.
    apply IHl. destruct (mem k' acc); auto. apply in_or_app. now left. }
  apply G. destruct (mem c seen) eqn:M.
  - now apply mem_In.
  - apply in_or_app. right. now left.
Qed.

(** Every key of every record is a column. *)
Lemma columns_complete (rs : list Record) (r : Record) (c : string) :
  In r rs -> In c (dict_keys r) -> In c (columns rs).
Proof.
  unfold columns.
  assert (K : forall l seen, In c seen -> In c (fold_left add_columns l seen)).
  { induction l as [|r' l IH]; intros seen H; simpl; auto.
    apply IH. now apply add_columns_keeps. }
  generalize (@nil string). induction rs as [|r' rs IH]; intros seen Hr Hc;
    [contradiction|].
  simpl. destruct Hr as [->|Hr].
  - apply K. now apply add_columns_adds.
  - now apply IH.
Qed.

(** The columns under a selector: the selected keys that some record
    has. *)
Lemma columns_selected (fs : list string) (rs : list Record) (c : string) :
  In c (columns (map (filter_record (Some fs)) rs)) <->
  mem c fs = true /\ exists r, In r rs /\ In c (dict_keys r).
Proof.
  split.
  - intros H. apply columns_in in H. destruct H as (r' & Hin & Hc).
    apply in_map_iff in Hin. destruct Hin as (r & <- & Hr).
    apply (filter_record_keys (Some fs)) in Hc. destruct Hc as [S Hc].
    split; [exact S|]. now exists r.
  - intros (S & r & Hr & Hc).
    apply columns_complete with (r := filter_record (Some fs) r).
    + now apply in_map.
    + apply (filter_record_keys (Some fs)). now split.
Qed.

(** A row of a cut-down record over the selected columns is the row
    of the record itself. *)
Lemma delimited_row_selected (sep : ascii) (cell : text -> text)
  (fs : list string) (cols : list string) (r : Record) :
  (forall c, In c cols -> mem c fs = true) ->
  delimited_row sep cell cols (filter_record (Some fs) r) =
  delimited_row sep cell cols r.
Proof.
  intros H. unfold delimited_row. f_equal. apply map_ext_in.
  intros c Hc. rewrite (filter_record_lookup (Some fs)). cbn [selects].
  now rewrite (H c Hc).
Qed.

Lemma delimited_selected (sep : ascii) (cell : text -> text) (no_header : bool)
  (fs : list string) (rs : list Record) :
  delimited sep cell no_header (map (filter_record (Some fs)) rs) =
  let cols := columns (map (filter_record (Some fs)) rs) in
  (if no_header then [] else [join sep (map (fun c => cell (chars c)) cols)]) ++
  map (delimited_row sep cell cols) rs.
Proof.
  unfold delimited. cbv zeta. rewrite map_map.
  assert (E : map (fun r => delimited_row sep cell
                              (columns (map (filter_record (Some fs)) rs))
                              (filter_record (Some fs) r)) rs =
              map (delimited_row sep cell
                     (columns (map (filter_record (Some fs)) rs))) rs).
  { apply map_ext. intros r. apply delimited_row_selected.
    intros c Hc. now apply columns_selected in Hc. }
  rewrite E. now destruct no_header.
Qed.

(** A selected key that no record has selects nothing. *)
Lemma filter_record_absent (k : string) (fs : list string) (r : Record) :
  ~ In k (dict_keys r) ->
  filter_record (Some (k :: fs)) r = filter_record (Some fs) r.
Proof.
  intros N. cbn [filter_record]. apply filter_ext_in.
  intros [k' v] Hin. cbn [fst mem existsb].
  destruct (String.eqb_spec k' k) as [->|]; [|reflexivity].
  exfalso. apply N. unfold dict_keys. apply in_map_iff. now exists (k, v).
Qed.

Lemma filter_fields_absent (k : string) (fs : list string) (data : RecordSet) :
  (forall r, In r (records data) -> ~ In k (dict_keys r)) ->
  filter_fields (Some (k :: fs)) data = filter_fields (Some fs) data.
Proof.
  intros N. destruct data as [r|rs]; cbn [filter_fields].
  - f_equal. apply filter_record_absent. apply N. now left.
  - f_equal. apply map_ext_in. intros r Hr. apply filter_record_absent.
    now apply N.
Qed.

(** C5: the claim as stated fails for the delimited formats; a record
    that lacks a selected column and a record that has it empty give
    the same row. *)
Lemma projection_key_sets_fails : ~ projection_key_sets.
Proof.
  intros (_ & _ & (reparse & H) & _).
  pose proof (H no_human (Many [[("a", JInt 1)]; []]) ["a"] false) as H1.
  pose proof (H no_human (Many [[("a", JInt 1)]; [("a", JNull)]]) ["a"] false)
    as H2.
  vm_compute in H1, H2. rewrite H1 in H2. discriminate H2.
Qed.

(** C5, as the projector has it.  Read back, the [json] output and
    each line of the [jsonl] output give the records of the
    RecordSet, each cut down to the top-level keys the selector
    names: a record keeps those of them it has, in its own order,
    with the values it has under them, whatever they hold.  In [csv]
    and [tsv] the columns are the selected keys that some record has,
    and the row of a record is made of its own values under these
    columns, empty where it has none.  A selected key that no record
    has changes nothing of the output in any format. *)
Theorem projection_selects_top_level_keys
  (render_human : RecordSet -> list text) (data : RecordSet)
  (fields : list string) (no_header : bool) :
  (exists data',
      json_loads (written (output render_human data OutputFormat.json
                             (Some fields) no_header))
      = Some (to_json data') /\
      same_shape data data' /\
      Forall2 (cut_down fields) (records data) (records data')) /\
  Forall2
    (fun r line => exists r', json_loads line = Some (JDict r') /\
                              cut_down fields r r')
    (records data)
    (lines (written (output render_human data OutputFormat.jsonl
                       (Some fields) no_header))) /\
  (let cols := columns (records (filter_fields (Some fields) data)) in
   (forall c, In c cols <->
              mem c fields = true /\
              exists r, In r (records data) /\ In c (dict_keys r)) /\
   output render_human data OutputFormat.csv (Some fields) no_header =
     (if no_header then []
      else [join ","%char (map (fun c => csv_cell (chars c)) cols)]) ++
     map (delimited_row ","%char csv_cell cols) (records data) /\
   output render_human data OutputFormat.tsv (Some fields) no_header =
     (if no_header then []
      else [join TAB (map (fun c => tsv_cell (chars c)) cols)]) ++
     map (delimited_row TAB tsv_cell cols) (records data)) /\
  (forall k fmt,
      (forall r, In r (records data) -> ~ In k (dict_keys r)) ->
      output render_human data fmt (Some (k :: fields)) no_header =
      output render_human data fmt (Some fields) no_header).
Proof.
  split; [|split; [|split]].
  - exists (filter_fields (Some fields) data). split; [|split].
    + apply json_output_loads.
    + now destruct data.
    + rewrite records_filter_fields.
      induction (records data) as [|r rs IH]; simpl; constructor; auto.
      apply filter_record_cut_down.
  - rewrite jsonl_output_lines.
    induction (records data) as [|r rs IH]; simpl; constructor; auto.
    exists (filter_record (Some fields) r). split.
    + apply json_dumps_loads.
    + apply filter_record_cut_down.
  - cbv zeta. rewrite records_filter_fields. split; [|split].
    + intros c. apply columns_selected.
    + cbn [output]. rewrite records_filter_fields. apply delimited_selected.
    + cbn [output]. rewrite records_filter_fields. apply delimited_selected.
  - intros k fmt N. unfold output.
    now rewrite (filter_fields_absent k fields data N).
Qed.

(** C6.  The [jsonl] output has one line per record, none for an
    empty sequence and one for a single record, and each line read
    on its own as JSON is the record cut down to the selected keys. *)
Theorem jsonl_one_line_per_record
  (render_human : RecordSet -> list text) (data : RecordSet) (r0 : Record)
  (fields : option (list string)) (no_header : bool) :
  let out := lines (written (output render_human data OutputFormat.jsonl
                               fields no_header)) in
  List.length out = List.length (records data) /\
  Forall2 (fun line r => json_loads line = Some (JDict (filter_record fields r)))
    out (records data) /\
  List.length (lines (written (output render_human (One r0) OutputFormat.jsonl
                                 fields no_header))) = 1.
Proof.
  assert (G : forall d,
             lines (written (output render_human d OutputFormat.jsonl
                               fields no_header)) =
             map (fun r => json_dumps (JDict (filter_record fields r))) (records d)).
  { intros d. cbn [output]. rewrite lines_written.
    - rewrite records_filter_fields, map_map. reflexivity.
    - rewrite forallb_map. apply forallb_forall. intros r _.
      apply json_dumps_no_line_feed. }
  intros out. subst out. rewrite !G. split; [|split].
  - now rewrite length_map.
  - induction (records data) as [|r rs IH]; simpl; constructor; auto.
    rewrite <- (app_nil_r (json_dumps _)).
    apply json_loads_render; [apply compact_ok|reflexivity].
  - reflexivity.
Qed.

(** C7: the claim as stated fails on the lines of the text; [csv]
    quoting keeps a line feed that a cell holds. *)
Lemma delimited_text_lines_fails : ~ delimited_text_lines.
Proof.
  intros H.
  destruct (H no_human
              (Many [[("note", JStr (String "a" (String LF (String "b" EmptyString))))]])
              None false) as [C _].
  vm_compute in C. discriminate C.
Qed.

(** C7, as the projector has it.  Both delimited formats write one
    row per record, after one header row unless it is suppressed, so
    an empty RecordSet gives the header row alone, or nothing.  The
    rows of [tsv] are the lines of its text; those of [csv] are when
    no selected key or string value holds a line feed. *)
Theorem delimited_rows_and_lines
  (render_human : RecordSet -> list text) (data : RecordSet)
  (fields : option (list string)) (no_header : bool) :
  List.length (output render_human data OutputFormat.csv fields no_header)
  = expected_rows no_header data /\
  List.length (output render_human data OutputFormat.tsv fields no_header)
  = expected_rows no_header data /\
  List.length (lines (written (output render_human data OutputFormat.tsv
                                 fields no_header)))
  = expected_rows no_header data /\
  (forallb line_feed_free (records (filter_fields fields data)) = true ->
   List.length (lines (written (output render_human data OutputFormat.csv
                                  fields no_header)))
   = expected_rows no_header data).
Proof.
  assert (E : forall sep cell,
             List.length (delimited sep cell no_header
                            (records (filter_fields fields data)))
             = expected_rows no_header data).
  { intros sep cell. rewrite delimited_length, records_filter_fields, length_map.
    reflexivity. }
  cbn [output]. repeat split.
  - apply E.
  - apply E.
  - rewrite lines_written by apply tsv_no_line_feed. apply E.
  - intros F. rewrite lines_written by now apply csv_no_line_feed. apply E.
Qed.

Lemma delimited_rows_and_lines_witness :
  forallb line_feed_free
    (records (filter_fields (Some ["activityId"])
                (Many [[("activityId", JInt 1); ("activityName", JStr "Run")];
                       [("activityId", JInt 2)]]))) = true /\
  List.length
    (lines (written (output no_human
                       (Many [[("activityId", JInt 1); ("activityName", JStr "Run")];
                              [("activityId", JInt 2)]])
                       OutputFormat.csv (Some ["activityId"]) false)))
  = expected_rows false
      (Many [[("activityId", JInt 1); ("activityName", JStr "Run")];
             [("activityId", JInt 2)]]).
Proof.
  split; [reflexivity|].
  apply (delimited_rows_and_lines no_human
           (Many [[("activityId", JInt 1); ("activityName", JStr "Run")];
                  [("activityId", JInt 2)]])
           (Some ["activityId"]) false).
  reflexivity.
Defined.

(** ** Mutation commands *)





(** The scenarios of the specification. *)

Example csv_scenario :
  written (output no_human
             (Many [[("activityId", JInt 1); ("activityName", JStr "Run")];
                    [("activityId", JInt 2)]])
             OutputFormat.csv (Some ["activityId"]) false)
  = chars "activityId" ++ LF :: chars "1" ++ LF :: chars "2" ++ [LF].
Proof. reflexivity. Qed.

Example mutation_scenario :
  log (snd (emit_result no_human (One [("activity_id", JInt 42)])
              "Activity 42 deleted"
              (start (with_format OutputFormat.human default_state) tt)))
  = [Stdout (chars "Activity 42 deleted")].
Proof. reflexivity. Qed.

Example aggregation_scenario :
  let run := context no_human config_loads
               (fun _ => failing [Stats] connection_error mock_garminconnect)
               "2025-01-15" None 5 true true false false None
               (start default_state empty_frame) in
  fst run = inr tt /\
  dict_lookup "today_stats" (result (locals (snd run))) = Some JNull /\
  dict_keys (result (locals (snd run))) =
    ["profile"; "today_stats"; "health"; "recent_activities"] /\
  dict_lookup "profile" (result (locals (snd run))) =
    Some (JDict [("displayName", JStr "testuser");
                 ("fullName", JStr "Test User");
                 ("profileImageUrl", JStr "https://example.com/image.jpg")]).
Proof. vm_compute. repeat split. Qed.

(** * Further properties *)

Ltac solve_probe :=
  unfold probe_value, probe_update, probe_events, probe; simpl; unfold_block;
  repeat first [rewrite method_run | known_outcome | progress run_block
               | case_scrutinee];
  try reflexivity.

(** ** What the blocks of [context] record when the fetch returns *)

Lemma context_stats_value (client : GarminClient) (today : string) (g : State)
  (v : json) :
  fetch_outcome client (Api_get_user_summary today) = inr v ->
  probe_value InResult "today_stats" (context_stats client today) g =
  match v with
  | JDict d => JDict (pick (same_keys stats_keys) d)
  | _ => JNull
  end.
Proof. intros F. unfold context_stats. destruct v; solve_probe. Qed.

Lemma context_profile_value (client : GarminClient) (g : State) (v : json) :
  fetch_outcome client Api_get_user_profile = inr v ->
  probe_value InResult "profile" (context_profile client) g =
  match v with
  | JDict d =>
      match fetch_outcome client Api_get_full_name with
      | inr n =>
          JDict [("displayName", value_or d "displayName" JNull);
                 ("fullName", n);
                 ("profileImageUrl", value_or d "profileImageUrlLarge" JNull)]
      | inl _ => JNull
      end
  | _ => JNull
  end.
Proof. intros F. unfold context_profile. destruct v; solve_probe. Qed.

Ltac finish_block :=
  repeat first [progress run_block | case_scrutinee]; reflexivity.

Ltac start_probe F :=
  unfold probe_value, probe_update, probe_events, probe;
  cbn [update empty_frame component]; unfold_block; rewrite F; cbv beta iota.

Lemma mem_keys_lookup (k : string) (d : dict) :
  mem k (dict_keys d) =
  match dict_lookup k d with Some _ => true | None => false end.
Proof.
  induction d as [|[k' x] d IH]; simpl; auto.
  destruct (String.eqb_spec k k'); simpl; auto.
Qed.

Lemma context_sleep_value (client : GarminClient) (today : string) (g : State)
  (v : json) :
  fetch_outcome client (Api_get_sleep_data today) = inr v ->
  probe_value InHealth "sleep" (context_sleep client today) g =
  match v with
  | JDict d =>
      match dict_lookup "dailySleepDTO" d with
      | Some (JDict dto) => JDict (pick (same_keys sleep_keys) dto)
      | _ => JNull
      end
  | _ => JNull
  end.
Proof.
  intros F. unfold context_sleep. start_probe F.
  destruct v as [| b | m e | s | xs | d].
  - finish_block.
  - destruct b; finish_block.
  - unfold contains. destruct (truthy (JNum m e)); finish_block.
  - unfold contains, getitem.
    destruct (truthy (JStr s)); [|finish_block].
    destruct (is_substring "dailySleepDTO" s); finish_block.
  - unfold contains, getitem.
    destruct (truthy (JList xs)); [|finish_block].
    destruct (existsb (is_str "dailySleepDTO") xs); finish_block.
  - unfold contains, getitem. rewrite mem_keys_lookup.
    destruct d as [|kv d]; [finish_block|].
    cbn [truthy].
    destruct (dict_lookup "dailySleepDTO" (kv :: d)) as [dto|];
      [|finish_block].
    destruct dto; finish_block.
Qed.

Lemma context_body_battery_value (client : GarminClient) (today : string)
  (g : State) (v : json) :
  fetch_outcome client (Api_get_body_battery today) = inr v ->
  probe_value InHealth "body_battery" (context_body_battery client today) g =
  match v with
  | JList (x :: xs) => last (x :: xs) JNull
  | _ => JNull
  end.
Proof.
  intros F. unfold context_body_battery. start_probe F.
  destruct v as [| b | m e | s | [|x xs] | d].
  - reflexivity.
  - destruct b; reflexivity.
  - destruct (truthy (JNum m e)); reflexivity.
  - destruct (truthy (JStr s)); reflexivity.
  - reflexivity.
  - reflexivity.
  - destruct (truthy (JDict d)); reflexivity.
Qed.

Lemma activity_summary_dict (d : dict) :
  activity_summary (JDict d) = inr (activity_record d).
Proof.
  unfold activity_summary, activity_record, flat_type, get, get_default, bind_res,
    value_or.
  destruct (dict_lookup "activityType" d) as [[]|]; reflexivity.
Qed.

Lemma activity_summary_other (x : json) :
  isinstance_dict x = false -> exists e, activity_summary x = inl e.
Proof. destruct x; simpl; try discriminate; intros _; eexists; reflexivity. Qed.

Lemma map_res_dicts (ds : list dict) :
  map_res activity_summary (map JDict ds) = inr (map activity_record ds).
Proof.
  induction ds as [|d ds IH]; simpl; auto.
  now rewrite activity_summary_dict, IH.
Qed.

Lemma map_res_other (xs : list json) (x : json) :
  In x xs -> isinstance_dict x = false ->
  exists e, map_res activity_summary xs = inl e.
Proof.
  intros Hin Hx. induction xs as [|y ys IH]; [contradiction|].
  simpl. destruct Hin as [->|Hin].
  - destruct (activity_summary_other x Hx) as (e & ->). eauto.
  - destruct (activity_summary y); eauto.
    destruct (IH Hin) as (e & ->). eauto.
Qed.

Lemma context_activities_value (client : GarminClient) (limit : Z) (g : State)
  (xs : list json) :
  fetch_outcome client (Api_get_activities 0 limit) = inr (JList xs) ->
  probe_value InResult "recent_activities" (context_activities client limit) g =
  match map_res activity_summary xs with
  | inr ys => JList ys
  | inl _ => JList []
  end.
Proof.
  intros F. unfold context_activities. start_probe F.
  unfold iter, lift. cbv beta iota.
  destruct (map_res activity_summary xs); finish_block.
Qed.

Section ContextEntries.

Variable render_human : RecordSet -> list text.
Variable client : GarminClient.
Variable today : string.
Variable activities_limit : Z.
Variables include_health include_stats include_training include_weight : bool.
Variable focus : option string.
Variable state : State.

(** X1.  When the summary fetch returns, the stats entry is null
    unless the value is a dict, and then it is a record of exactly
    the eight listed keys, each holding the value the dict has under
    it or null when the dict has none; nothing else of the payload
    is kept. *)
Theorem context_stats_normalized (v : json) :
  enabled include_health include_stats include_training include_weight focus Stats
  = true ->
  fetch_outcome client (Api_get_user_summary today) = inr v ->
  dict_lookup "today_stats"
    (context_result render_human client today activities_limit include_health
       include_stats include_training include_weight focus state)
  = Some (match v with
          | JDict d => JDict (pick (same_keys stats_keys) d)
          | _ => JNull
          end).
Proof.
  intros En F. rewrite context_result_composite.
  change "today_stats" with (section_key Stats).
  rewrite composite_lookup, En. cbn [section_value]. f_equal.
  now apply context_stats_value.
Qed.

(** X2.  The profile entry needs both calls: when the profile fetch
    returns a dict, the entry holds its display name, the full name
    the second call returns and its large image URL under
    [profileImageUrl]; when the second call raises, or the first
    returns anything but a dict, the entry is null. *)
Theorem context_profile_entry (v : json) :
  fetch_outcome client Api_get_user_profile = inr v ->
  dict_lookup "profile"
    (context_result render_human client today activities_limit include_health
       include_stats include_training include_weight focus state)
  = Some (match v with
          | JDict d =>
              match fetch_outcome client Api_get_full_name with
              | inr n =>
                  JDict [("displayName", value_or d "displayName" JNull);
                         ("fullName", n);
                         ("profileImageUrl",
                          value_or d "profileImageUrlLarge" JNull)]
              | inl _ => JNull
              end
          | _ => JNull
          end).
Proof.
  intros F. rewrite context_result_composite.
  change "profile" with (section_key Profile).
  rewrite composite_lookup. cbn [enabled section_value]. f_equal.
  now apply context_profile_value.
Qed.

(** X3.  Whatever its four fetches do, an enabled health section is
    a record with exactly the keys [heart_rate], [sleep],
    [body_battery] and [stress], in this order. *)
Theorem context_health_keys :
  enabled include_health include_stats include_training include_weight focus Health
  = true ->
  exists h,
    dict_lookup "health"
      (context_result render_human client today activities_limit include_health
         include_stats include_training include_weight focus state)
    = Some (JDict h) /\
    dict_keys h = ["heart_rate"; "sleep"; "body_battery"; "stress"].
Proof.
  intros En. rewrite context_result_composite.
  change "health" with (section_key Health).
  rewrite composite_lookup, En. cbn [section_value].
  eexists. split; reflexivity.
Qed.

(** X4.  The sleep entry is the five durations of [dailySleepDTO]
    when the fetch returns a dict that has a dict under that key
    (a duration the DTO lacks is null); for every other value the
    fetch returns, the entry is null. *)
Theorem context_sleep_entry (v : json) :
  enabled include_health include_stats include_training include_weight focus Health
  = true ->
  fetch_outcome client (Api_get_sleep_data today) = inr v ->
  at_path ["health"; "sleep"]
    (JDict (context_result render_human client today activities_limit
              include_health include_stats include_training include_weight
              focus state))
  = Some (match v with
          | JDict d =>
              match dict_lookup "dailySleepDTO" d with
              | Some (JDict dto) => JDict (pick (same_keys sleep_keys) dto)
              | _ => JNull
              end
          | _ => JNull
          end).
Proof.
  intros En F. rewrite context_result_composite.
  change "health" with (section_key Health).
  rewrite at_composite by assumption.
  cbn [section_value at_path]. unfold health_dict.
  rewrite dict_lookup_set_other by discriminate.
  rewrite dict_lookup_set_other by discriminate.
  rewrite dict_lookup_set_same. f_equal.
  now apply context_sleep_value.
Qed.

(** X5.  The body battery entry is the last reading when the fetch
    returns a non-empty list, and null for every other value it
    returns, the empty list among them. *)
Theorem context_body_battery_latest (v : json) :
  enabled include_health include_stats include_training include_weight focus Health
  = true ->
  fetch_outcome client (Api_get_body_battery today) = inr v ->
  at_path ["health"; "body_battery"]
    (JDict (context_result render_human client today activities_limit
              include_health include_stats include_training include_weight
              focus state))
  = Some (match v with
          | JList (x :: xs) => last (x :: xs) JNull
          | _ => JNull
          end).
Proof.
  intros En F. rewrite context_result_composite.
  change "health" with (section_key Health).
  rewrite at_composite by assumption.
  cbn [section_value at_path]. unfold health_dict.
  rewrite dict_lookup_set_other by discriminate.
  rewrite dict_lookup_set_same. f_equal.
  now apply context_body_battery_value.
Qed.

End ContextEntries.

(** ** The training and weight records *)

Lemma context_vo2max_keys (client : GarminClient) (today : string) (g : State)
  (x y : json) :
  dict_keys (probe_update InTraining (context_vo2max client today) g
               [("status", x); ("readiness", y)]) =
  ["status"; "readiness"] ++
  (if returns_falsy client (Api_get_max_metrics today) then []
   else ["vo2max_running"; "vo2max_cycling"]).
Proof.
  unfold returns_falsy, context_vo2max.
  unfold probe_update, probe; cbn [update empty_frame component]; unfold_block.
  destruct (fetch_outcome client (Api_get_max_metrics today)) as [e|v];
    [finish_block|].
  cbv beta iota. destruct (truthy v); cbn [negb]; finish_block.
Qed.

Lemma dict_set_twice (k : string) (v v' : json) (d : dict) :
  dict_set k v (dict_set k v' d) = dict_set k v d.
Proof.
  induction d as [|[k0 x] d IH]; simpl.
  - now rewrite String.eqb_refl.
  - destruct (String.eqb k k0) eqn:E; simpl; rewrite E; [reflexivity|].
    now rewrite IH.
Qed.

Lemma context_vo2max_value (client : GarminClient) (today : string) (g : State)
  (d base : dict) :
  fetch_outcome client (Api_get_max_metrics today) = inr (JDict d) ->
  truthy (JDict d) = true ->
  probe_update InTraining (context_vo2max client today) g base =
  match value_or d "generic" (JDict []), value_or d "cycling" (JDict []) with
  | JDict running, JDict cycling =>
      dict_set "vo2max_cycling" (value_or cycling "vo2MaxValue" JNull)
        (dict_set "vo2max_running" (value_or running "vo2MaxValue" JNull) base)
  | _, _ => vo2max_nulls base
  end.
Proof.
  intros F T. unfold context_vo2max, vo2max_nulls.
  unfold probe_update, probe; cbn [update empty_frame component]; unfold_block.
  rewrite F. cbv beta iota. rewrite T.
  run_block.
  destruct (value_or d "generic" (JDict [])), (value_or d "cycling" (JDict []));
    repeat first [progress run_block | case_scrutinee];
    rewrite ?dict_set_twice; reflexivity.
Qed.

Lemma context_body_composition_keys (client : GarminClient) (today : string)
  (g : State) :
  dict_keys (probe_update InWeightData (context_body_composition client today) g []) =
  if returns_falsy client (Api_get_body_composition today) then []
  else ["current_kg"; "body_fat_pct"; "muscle_mass_kg"].
Proof.
  unfold returns_falsy, context_body_composition.
  unfold probe_update, probe; cbn [update empty_frame component]; unfold_block.
  destruct (fetch_outcome client (Api_get_body_composition today)) as [e|v];
    [finish_block|].
  cbv beta iota. destruct (truthy v); cbn [negb]; finish_block.
Qed.



Lemma context_heart_rate_value (client : GarminClient) (today : string)
  (g : State) (v : json) :
  fetch_outcome client (Api_get_heart_rates today) = inr v ->
  probe_value InHealth "heart_rate" (context_heart_rate client today) g =
  match v with
  | JDict d =>
      JDict (pick [("resting", "restingHeartRate"); ("min", "minHeartRate");
                   ("max", "maxHeartRate")] d)
  | _ => JNull
  end.
Proof.
  intros F. unfold context_heart_rate. start_probe F. destruct v; finish_block.
Qed.

Lemma context_stress_value (client : GarminClient) (today : string)
  (g : State) (v : json) :
  fetch_outcome client (Api_get_stress_data today) = inr v ->
  probe_value InHealth "stress" (context_stress client today) g =
  match v with
  | JDict (kv :: d) =>
      JDict (pick (same_keys ["overallStressLevel"; "restStressLevel";
                              "activityStressLevel"]) (kv :: d))
  | _ => JNull
  end.
Proof.
  intros F. unfold context_stress. start_probe F.
  destruct v as [| b | m e | s | xs | [|kv d]]; finish_block.
Qed.

Lemma all_dicts_some (xs : list json) (ds : list dict) :
  all_dicts xs = Some ds -> xs = map JDict ds.
Proof.
  revert ds. induction xs as [|x xs IH]; intros ds; simpl.
  - now intros [= <-].
  - destruct x; try discriminate.
    destruct (all_dicts xs) as [ds'|]; try discriminate.
    intros [= <-]. simpl. now rewrite (IH ds' eq_refl).
Qed.

Lemma all_dicts_none (xs : list json) :
  all_dicts xs = None -> exists x, In x xs /\ isinstance_dict x = false.
Proof.
  induction xs as [|x xs IH]; simpl; [discriminate|].
  destruct x; try (intros _; eexists; split; [left; reflexivity|reflexivity]).
  destruct (all_dicts xs); [discriminate|].
  intros _. destruct (IH eq_refl) as (x & Hin & Hx). eauto.
Qed.

Section ContextRecords.

Variable render_human : RecordSet -> list text.
Variable client : GarminClient.
Variable today : string.
Variable activities_limit : Z.
Variables include_health include_stats include_training include_weight : bool.
Variable focus : option string.
Variable state : State.

(** X6.  The heart rate entry renames the keys of the fetched dict:
    [resting], [min] and [max] hold what it has under
    [restingHeartRate], [minHeartRate] and [maxHeartRate] (null where
    it has none); when the fetch returns anything but a dict the
    entry is null. *)
Theorem context_heart_rate_entry (v : json) :
  enabled include_health include_stats include_training include_weight focus Health
  = true ->
  fetch_outcome client (Api_get_heart_rates today) = inr v ->
  at_path ["health"; "heart_rate"]
    (JDict (context_result render_human client today activities_limit
              include_health include_stats include_training include_weight
              focus state))
  = Some (match v with
          | JDict d =>
              JDict [("resting", value_or d "restingHeartRate" JNull);
                     ("min", value_or d "minHeartRate" JNull);
                     ("max", value_or d "maxHeartRate" JNull)]
          | _ => JNull
          end).
Proof.
  intros En F. rewrite context_result_composite.
  change "health" with (section_key Health).
  rewrite at_composite by assumption.
  cbn [section_value at_path]. unfold health_dict.
  rewrite !dict_lookup_set_other by discriminate.
  rewrite dict_lookup_set_same. f_equal.
  rewrite (context_heart_rate_value _ _ _ _ F). now destruct v.
Qed.

(** X7.  The stress entry is the three stress levels of the fetched
    dict when that dict is not empty; an empty dict, and every value
    that is not a dict, gives null. *)
Theorem context_stress_entry (v : json) :
  enabled include_health include_stats include_training include_weight focus Health
  = true ->
  fetch_outcome client (Api_get_stress_data today) = inr v ->
  at_path ["health"; "stress"]
    (JDict (context_result render_human client today activities_limit
              include_health include_stats include_training include_weight
              focus state))
  = Some (match v with
          | JDict (kv :: d) =>
              JDict (pick (same_keys ["overallStressLevel"; "restStressLevel";
                                      "activityStressLevel"]) (kv :: d))
          | _ => JNull
          end).
Proof.
  intros En F. rewrite context_result_composite.
  change "health" with (section_key Health).
  rewrite at_composite by assumption.
  cbn [section_value at_path]. unfold health_dict.
  rewrite dict_lookup_set_same. f_equal.
  now apply context_stress_value.
Qed.

(** X8.  An enabled training section has the keys [status] and
    [readiness], followed by both [vo2max_running] and
    [vo2max_cycling] or by neither: the two are left out exactly when
    the metrics fetch returns an empty or otherwise false value. *)
Theorem context_training_keys :
  enabled include_health include_stats include_training include_weight focus Training
  = true ->
  exists t,
    dict_lookup "training"
      (context_result render_human client today activities_limit include_health
         include_stats include_training include_weight focus state)
    = Some (JDict t) /\
    dict_keys t =
    ["status"; "readiness"] ++
    (if returns_falsy client (Api_get_max_metrics today) then []
     else ["vo2max_running"; "vo2max_cycling"]).
Proof.
  intros En. rewrite context_result_composite.
  change "training" with (section_key Training).
  rewrite composite_lookup, En. cbn [section_value].
  eexists. split; [reflexivity|].
  unfold training_dict. cbn [dict_set]. apply context_vo2max_keys.
Qed.

(** X9.  The two VO2max values stand or fall together.  When the
    metrics fetch returns a non-empty dict whose [generic] and
    [cycling] entries (an empty dict when absent) are both dicts,
    each key holds the [vo2MaxValue] of its entry; when either entry
    is no dict, both keys are null, the running value included even
    though it had been written before the cycling entry was read. *)
Theorem context_vo2max_pair (d : dict) :
  enabled include_health include_stats include_training include_weight focus Training
  = true ->
  fetch_outcome client (Api_get_max_metrics today) = inr (JDict d) ->
  truthy (JDict d) = true ->
  let r := JDict (context_result render_human client today activities_limit
                    include_health include_stats include_training
                    include_weight focus state) in
  (at_path ["training"; "vo2max_running"] r,
   at_path ["training"; "vo2max_cycling"] r) =
  match value_or d "generic" (JDict []), value_or d "cycling" (JDict []) with
  | JDict running, JDict cycling =>
      (Some (value_or running "vo2MaxValue" JNull),
       Some (value_or cycling "vo2MaxValue" JNull))
  | _, _ => (Some JNull, Some JNull)
  end.
Proof.
  intros En F T r. subst r. rewrite context_result_composite.
  change "training" with (section_key Training).
  rewrite !at_composite by assumption.
  cbn [section_value at_path]. unfold training_dict.
  rewrite (context_vo2max_value _ _ _ _ _ F T). unfold vo2max_nulls.
  destruct (value_or d "generic" (JDict [])), (value_or d "cycling" (JDict []));
    rewrite dict_lookup_set_same;
    rewrite dict_lookup_set_other by discriminate;
    rewrite dict_lookup_set_same; reflexivity.
Qed.

(** X10.  An enabled weight section is a record with no key at all
    when the body composition fetch returns an empty or otherwise
    false value, and with exactly [current_kg], [body_fat_pct] and
    [muscle_mass_kg] in every other case, a raised fetch included. *)
Theorem context_weight_keys :
  enabled include_health include_stats include_training include_weight focus Weight
  = true ->
  exists w,
    dict_lookup "weight"
      (context_result render_human client today activities_limit include_health
         include_stats include_training include_weight focus state)
    = Some (JDict w) /\
    dict_keys w =
    if returns_falsy client (Api_get_body_composition today) then []
    else ["current_kg"; "body_fat_pct"; "muscle_mass_kg"].
Proof.
  intros En. rewrite context_result_composite.
  change "weight" with (section_key Weight).
  rewrite composite_lookup, En. cbn [section_value].
  eexists. split; [reflexivity|].
  apply context_body_composition_keys.
Qed.


(** X12.  The list of recent activities is all or nothing.  When the
    fetch returns a list of dicts, each one is cut down to the nine
    recorded keys, in order, with [activityType] replaced by its
    [typeKey] when it is a dict; when a single item of the list is no
    dict, the whole list is recorded as empty. *)
Theorem context_activities_all_or_nothing (xs : list json) :
  enabled include_health include_stats include_training include_weight focus
    Activities = true ->
  fetch_outcome client (Api_get_activities 0 activities_limit) = inr (JList xs) ->
  dict_lookup "recent_activities"
    (context_result render_human client today activities_limit include_health
       include_stats include_training include_weight focus state)
  = Some (JList match all_dicts xs with
                | Some ds => map activity_record ds
                | None => []
                end).
Proof.
  intros En F. rewrite context_result_composite.
  change "recent_activities" with (section_key Activities).
  rewrite composite_lookup, En. cbn [section_value]. f_equal.
  rewrite (context_activities_value _ _ _ _ F).
  destruct (all_dicts xs) as [ds|] eqn:A.
  - rewrite (all_dicts_some _ _ A). now rewrite map_res_dicts.
  - destruct (all_dicts_none _ A) as (x & Hin & Hx).
    now destruct (map_res_other _ _ Hin Hx) as (e & ->).
Qed.

End ContextRecords.

(** ** What a run of [context] shows to the outside *)

Lemma stderr_lines_app (l1 l2 : list event) :
  stderr_lines (l1 ++ l2) = stderr_lines l1 ++ stderr_lines l2.
Proof. apply flat_map_app. Qed.

Lemma upstream_calls_app (l1 l2 : list event) :
  upstream_calls (l1 ++ l2) = upstream_calls l1 ++ upstream_calls l2.
Proof. apply flat_map_app. Qed.

Lemma stderr_lines_stdout (chunks : list text) :
  stderr_lines (map Stdout chunks) = [].
Proof. induction chunks; simpl; auto. Qed.

Lemma upstream_calls_stdout (chunks : list text) :
  upstream_calls (map Stdout chunks) = [].
Proof. induction chunks; simpl; auto. Qed.

Lemma upstream_calls_fetch_events (client : GarminClient) (c : api) :
  upstream_calls (fetch_events client c) =
  if authenticated client c then [c] else [].
Proof.
  unfold fetch_events, authenticated.
  destruct (token_file_exists client c); simpl; auto.
  destruct (login_failure client c); reflexivity.
Qed.

Ltac solve_upstream :=
  unfold probe_events, probe; simpl; unfold_block;
  repeat first [rewrite method_run | progress run_block | case_scrutinee];
  rewrite ?upstream_calls_app, ?calls_app, ?calls_fetch_events; simpl;
  rewrite ?app_nil_r; reflexivity.

Ltac solve_stderr V :=
  unfold probe_events, probe; simpl; unfold_block;
  repeat first [rewrite method_run | rewrite V | progress run_block
               | case_scrutinee];
  rewrite ?stderr_lines_app, ?calls_app, ?calls_fetch_events; simpl;
  rewrite ?app_nil_r; reflexivity.

Section BlockEvents.

Variable client : GarminClient.
Variable today : string.
Variable limit : Z.
Variable g : State.

Lemma section_events_upstream (s : section) :
  upstream_calls (section_events client today limit g s) =
  flat_map (fun c => upstream_calls (fetch_events client c))
    (calls (section_events client today limit g s)).
Proof.
  destruct s; cbn [section_events];
    rewrite ?upstream_calls_app, ?calls_app, ?flat_map_app.
  - unfold context_profile. solve_upstream.
  - unfold context_stats. solve_upstream.
  - f_equal; [|f_equal; [|f_equal]].
    + unfold context_heart_rate. solve_upstream.
    + unfold context_sleep. solve_upstream.
    + unfold context_body_battery. solve_upstream.
    + unfold context_stress. solve_upstream.
  - f_equal; [|f_equal].
    + unfold context_training_status. solve_upstream.
    + unfold context_training_readiness. solve_upstream.
    + unfold context_vo2max. solve_upstream.
  - unfold context_body_composition. solve_upstream.
  - unfold context_activities. solve_upstream.
Qed.

Hypothesis not_verbose : verbose g = false.

Lemma section_events_stderr (s : section) :
  stderr_lines (section_events client today limit g s) =
  flat_map (authentication_errors client)
    (calls (section_events client today limit g s)).
Proof.
  unfold authentication_errors.
  destruct s; cbn [section_events];
    rewrite ?stderr_lines_app, ?calls_app, ?flat_map_app.
  - unfold context_profile. solve_stderr not_verbose.
  - unfold context_stats. solve_stderr not_verbose.
  - f_equal; [|f_equal; [|f_equal]].
    + unfold context_heart_rate. solve_stderr not_verbose.
    + unfold context_sleep. solve_stderr not_verbose.
    + unfold context_body_battery. solve_stderr not_verbose.
    + unfold context_stress. solve_stderr not_verbose.
  - f_equal; [|f_equal].
    + unfold context_training_status. solve_stderr not_verbose.
    + unfold context_training_readiness. solve_stderr not_verbose.
    + unfold context_vo2max. solve_stderr not_verbose.
  - unfold context_body_composition. solve_stderr not_verbose.
  - unfold context_activities. solve_stderr not_verbose.
Qed.

End BlockEvents.

Lemma flat_map_single_if {A} (f : A -> bool) (l : list A) :
  flat_map (fun x => if f x then [x] else []) l = filter f l.
Proof.
  induction l as [|x l IH]; simpl; auto. destruct (f x); simpl; now rewrite IH.
Qed.

Lemma in_stderr_lines (line : string) (evs : list event) :
  In line (stderr_lines evs) <-> In (Stderr line) evs.
Proof.
  unfold stderr_lines. rewrite in_flat_map. split.
  - intros (ev & Hin & Hl). destruct ev; simpl in Hl; try contradiction.
    destruct Hl as [<-|[]]. exact Hin.
  - intros Hin. exists (Stderr line). split; [exact Hin|now left].
Qed.

Ltac solve_warning F :=
  unfold probe_events, probe; simpl; unfold_block; rewrite ?method_run;
  rewrite F;
  repeat first [progress run_block | case_scrutinee];
  try discriminate;
  apply in_or_app; right; left; reflexivity.

Section Events.

Variable render_human : RecordSet -> list text.
Variable client : GarminClient.
Variable today : string.
Variable activities_limit : Z.
Variables include_health include_stats include_training include_weight : bool.
Variable focus : option string.
Variable state : State.

Lemma context_events_composite :
  context_events render_human client today activities_limit include_health
    include_stats include_training include_weight focus state =
  composite_events client today activities_limit state include_health
    include_stats include_training include_weight focus ++
  map Stdout
    (output render_human
       (One (composite client today activities_limit state include_health
               include_stats include_training include_weight focus))
       (format state) (fields state) (no_header state)).
Proof.
  unfold context_events.
  destruct (context_run render_human client today activities_limit
              include_health include_stats include_training include_weight
              focus (start state empty_frame)) as (f' & E & _).
  rewrite E. reflexivity.
Qed.

Lemma composite_events_upstream :
  upstream_calls
    (composite_events client today activities_limit state include_health
       include_stats include_training include_weight focus) =
  filter (authenticated client)
    (calls
       (composite_events client today activities_limit state include_health
          include_stats include_training include_weight focus)).
Proof.
  rewrite <- flat_map_single_if.
  unfold composite_events.
  induction sections as [|s ss IH]; [reflexivity|].
  cbn [flat_map]. rewrite upstream_calls_app, calls_app, flat_map_app, IH.
  f_equal.
  destruct (enabled include_health include_stats include_training
              include_weight focus s); [|reflexivity].
  rewrite section_events_upstream. apply flat_map_ext.
  intros c. apply upstream_calls_fetch_events.
Qed.

(** X13.  [context] reaches the wrapped client only through calls
    that passed the wrapper's authentication: the upstream calls of a
    run are the client methods it called, in the same order, less
    those for which the token file was missing or the tokens did not
    load. *)
Theorem context_upstream_only_authenticated :
  upstream_calls
    (context_events render_human client today activities_limit include_health
       include_stats include_training include_weight focus state) =
  filter (authenticated client)
    (calls
       (context_events render_human client today activities_limit include_health
          include_stats include_training include_weight focus state)).
Proof.
  rewrite context_events_composite.
  rewrite upstream_calls_app, calls_app, upstream_calls_stdout, calls_stdout,
    !app_nil_r.
  apply composite_events_upstream.
Qed.

(** X14.  Without [--verbose] the handlers of [context] are silent:
    the only lines a run writes to standard error are those of the
    wrapper's authentication check, for each method called; when
    every call is authenticated, nothing at all is written there,
    whatever the fetches raise. *)
Theorem context_failures_silent :
  verbose state = false ->
  stderr_lines
    (context_events render_human client today activities_limit include_health
       include_stats include_training include_weight focus state) =
  flat_map (authentication_errors client)
    (calls
       (context_events render_human client today activities_limit include_health
          include_stats include_training include_weight focus state)) /\
  ((forall c, authenticated client c = true) ->
   stderr_lines
     (context_events render_human client today activities_limit include_health
        include_stats include_training include_weight focus state) = []).
Proof.
  intros V.
  assert (E : stderr_lines
    (context_events render_human client today activities_limit include_health
       include_stats include_training include_weight focus state) =
  flat_map (authentication_errors client)
    (calls
       (context_events render_human client today activities_limit include_health
          include_stats include_training include_weight focus state))).
  { rewrite context_events_composite.
    rewrite stderr_lines_app, calls_app, stderr_lines_stdout, calls_stdout,
      !app_nil_r.
    unfold composite_events.
    induction sections as [|s ss IH]; [reflexivity|].
    cbn [flat_map]. rewrite stderr_lines_app, calls_app, flat_map_app, IH.
    f_equal.
    destruct (enabled include_health include_stats include_training
                include_weight focus s); [|reflexivity].
    now apply section_events_stderr. }
  split; [exact E|].
  intros A. rewrite E. clear E.
  induction (calls _) as [|c cs IH]; [reflexivity|].
  cbn [flat_map]. rewrite IH, app_nil_r.
  unfold authentication_errors, fetch_events.
  specialize (A c). unfold authenticated in A.
  destruct (token_file_exists client c); [|discriminate].
  destruct (login_failure client c); [discriminate|reflexivity].
Qed.

(** X15.  With [--verbose], a fetch of an enabled section that
    raises leaves one line on standard error: [warning: ], the
    message of its handler, and the text of the exception. *)
Theorem context_verbose_warns (s : section) (a : api) (e : exn) :
  enabled include_health include_stats include_training include_weight focus s
  = true ->
  In a (section_fetches client today activities_limit s) ->
  fetch_outcome client a = inl e ->
  verbose state = true ->
  In ("warning: " ++ failure_message a ++ ": " ++ str_exn e)%string
     (stderr_lines
        (context_events render_human client today activities_limit
           include_health include_stats include_training include_weight
           focus state)).
Proof.
  intros En Hin F V.
  rewrite in_stderr_lines, context_events_composite.
  apply in_or_app. left. unfold composite_events.
  apply in_flat_map. exists s. split.
  { destruct s; unfold sections; simpl; auto 10. }
  rewrite En.
  destruct s; cbn [section_fetches] in Hin; cbn [section_events];
    repeat (destruct Hin as [<-|Hin]); try contradiction;
    cbn [failure_message].
  - unfold context_profile. solve_warning F.
  - unfold profile_fetched in Hin.
    destruct (fetch_outcome client Api_get_user_profile) as [e0|v] eqn:P;
      [contradiction|].
    destruct v; try contradiction.
    destruct Hin as [<-|[]].
    unfold context_profile, probe_events, probe; simpl; unfold_block.
    rewrite ?method_run. rewrite P. run_block. rewrite ?method_run.
    rewrite F. run_block. rewrite V. simpl.
    apply in_or_app; right. left. reflexivity.
  - unfold context_stats. solve_warning F.
  - apply in_or_app; left.
    unfold context_heart_rate. solve_warning F.
  - apply in_or_app; right; apply in_or_app; left.
    unfold context_sleep. solve_warning F.
  - do 2 (apply in_or_app; right). apply in_or_app; left.
    unfold context_body_battery. solve_warning F.
  - do 3 (apply in_or_app; right).
    unfold context_stress. solve_warning F.
  - apply in_or_app; left.
    unfold context_training_status. solve_warning F.
  - apply in_or_app; right; apply in_or_app; left.
    unfold context_training_readiness. solve_warning F.
  - do 2 (apply in_or_app; right).
    unfold context_vo2max. solve_warning F.
  - unfold context_body_composition. solve_warning F.
  - unfold context_activities. solve_warning F.
Qed.



End Events.



(** ** client.py: the wrapper *)


(** ** The delete commands *)

Lemma prompts_app (l1 l2 : list event) :
  prompts (l1 ++ l2) = prompts l1 ++ prompts l2.
Proof. apply flat_map_app. Qed.

Lemma prompts_stdout (chunks : list text) : prompts (map Stdout chunks) = [].
Proof. induction chunks; simpl; auto. Qed.

Lemma prompts_fetch_events (client : GarminClient) (c : api) :
  prompts (fetch_events client c) = [].
Proof.
  unfold fetch_events.
  destruct (token_file_exists client c); simpl; auto.
  destruct (login_failure client c); reflexivity.
Qed.

Section DeleteCommands.

Variable render_human : RecordSet -> list text.
Variable client : GarminClient.
Variable answer : string -> res bool.

(** X18.  With [--force] a delete command asks nothing and calls its
    delete method exactly once, whatever that call does. *)
Theorem delete_forced_never_prompts (d : deletion) (p : proc unit) :
  let r := delete_command render_human client answer d true p in
  prompts (log (snd r)) = prompts (log p) /\
  calls (log (snd r)) = calls (log p) ++ [delete_call d].
Proof.
  destruct d; cbn [delete_command delete_call];
    unfold delete_activity, delete_weight, delete_weights_for_date,
      client_delete_activity, client_delete_weigh_in, client_delete_weigh_ins;
    cbn [negb]; unfold bind, ret; rewrite method_run;
    match goal with
    | |- context [fetch_outcome ?c ?a] => destruct (fetch_outcome c a)
    end;
    rewrite ?emit_result_run; cbn [snd logged log globals];
    rewrite ?prompts_app, ?calls_app, ?prompts_fetch_events,
      ?calls_fetch_events, ?prompts_stdout, ?calls_stdout, ?app_nil_r;
    split; reflexivity.
Qed.

(** X19.  Answering yes to the prompt is the same as [--force] from
    there on: the run of a delete command that was confirmed is the
    run of the forced command, started after the one prompt. *)
Theorem delete_confirmed_as_forced (d : deletion) (p : proc unit) :
  answer (delete_question d) = inr true ->
  delete_command render_human client answer d false p =
  delete_command render_human client answer d true
    (logged p [Prompt (delete_question d)]).
Proof.
  intros Yes.
  destruct d; cbn [delete_command delete_question] in *;
    unfold delete_activity, delete_weight, delete_weights_for_date, confirm;
    cbn [negb]; unfold bind at 1 2 3, tell, lift; rewrite Yes;
    cbn [negb]; reflexivity.
Qed.

(** X20.  A delete call that raises ends the command with that very
    exception, right after the call: nothing is written to standard
    output, the line announcing the deletion included. *)
Theorem delete_failure_propagates (d : deletion) (p : proc unit) (e : exn) :
  fetch_outcome client (delete_call d) = inl e ->
  delete_command render_human client answer d true p =
  (inl e, logged p (fetch_events client (delete_call d))).
Proof.
  intros F.
  destruct d; cbn [delete_command delete_call] in *;
    unfold delete_activity, delete_weight, delete_weights_for_date,
      client_delete_activity, client_delete_weigh_in, client_delete_weigh_ins;
    cbn [negb]; unfold bind, ret; rewrite method_run, F; reflexivity.
Qed.

End DeleteCommands.

(** ** cli.py: the global options *)

Lemma split_not_nil (sep : ascii) (s : string) : split sep s <> [].
Proof.
  destruct s as [|c r]; simpl; [discriminate|].
  destruct (Ascii.eqb c sep); [discriminate|].
  destruct (split sep r); discriminate.
Qed.

Lemma concat_cons (sep x y : string) (l : list string) :
  String.concat sep (x :: y :: l) = (x ++ sep ++ String.concat sep (y :: l))%string.
Proof. reflexivity. Qed.

Lemma concat_split (sep : ascii) (s : string) :
  String.concat (String sep EmptyString) (split sep s) = s.
Proof.
  induction s as [|c r IH]; [reflexivity|].
  cbn [split]. pose proof (split_not_nil sep r) as NN.
  destruct (Ascii.eqb_spec c sep) as [->|N];
    destruct (split sep r) as [|h t]; try contradiction.
  - rewrite concat_cons, IH. reflexivity.
  - destruct t as [|y t].
    + cbn [String.concat] in *. now rewrite IH.
    + rewrite concat_cons in *. rewrite <- IH. reflexivity.
Qed.

Lemma split_pieces_free (sep : ascii) (s : string) :
  Forall (fun piece => has_char sep piece = false) (split sep s).
Proof.
  induction s as [|c r IH]; [repeat constructor|].
  cbn [split]. destruct (Ascii.eqb c sep) eqn:E.
  - constructor; [reflexivity|exact IH].
  - destruct (split sep r) as [|h t].
    + repeat constructor. cbn [has_char]. now rewrite E.
    + inversion IH; subst. constructor; [|assumption].
      cbn [has_char]. now rewrite E.
Qed.

(** X21.  What the options callback leaves.  When it ends normally,
    [--verbose] and [--quiet] are not both set in the state, and the
    fields are either none (no [--fields], or an empty one) or the
    pieces of the option cut at its commas: joined by commas they
    give the option back, and none of them holds a comma.  When it
    raises, it raises the exit code 1 and the state is as it was. *)
Theorem main_state_invariant {L} (format_ : OutputFormat.t)
  (fields_ : option string) (no_header_ verbose_ quiet_ : bool)
  (config profile_ : option string) (p : proc L) :
  let r := main format_ fields_ no_header_ verbose_ quiet_ config profile_ p in
  match fst r with
  | inr _ =>
      verbose (globals (snd r)) && quiet (globals (snd r)) = false /\
      match fields (globals (snd r)) with
      | Some pieces =>
          fields_ = Some (String.concat "," pieces) /\
          Forall (fun piece => has_char ","%char piece = false) pieces
      | None => fields_ = None \/ fields_ = Some EmptyString
      end
  | inl e => e = Exit 1 /\ globals (snd r) = globals p
  end.
Proof.
  cbv zeta. unfold main.
  destruct (verbose_ && quiet_) eqn:VQ.
  - unfold bind, tell, raise. cbn [fst snd globals]. split; reflexivity.
  - cbn [fst snd globals verbose quiet fields]. split; [exact VQ|].
    destruct fields_ as [f|]; [|now left].
    unfold nonempty. destruct (String.eqb_spec f EmptyString) as [->|N];
      cbn [negb]; [now right|].
    split; [now rewrite concat_split|apply split_pieces_free].
Qed.

(** ** commands/auth.py: status *)

Section Status.

Variable client : GarminClient.
Variables token_dir config_path : string.

(** X22.  What [status] reports when it ends normally.  Without a
    token file: not authenticated, and nothing more.  With one, the
    report says authenticated and carries the full name exactly when
    the tokens load and the name is fetched; when the wrapper exits
    instead, it says not authenticated and carries the error text. *)
Theorem status_report_cases (p : proc dict) :
  let r := status_data client token_dir config_path p in
  fst r = inr tt ->
  locals (snd r) =
  if token_file_exists client Api_get_full_name then
    match fetch_outcome client Api_get_full_name with
    | inr full_name =>
        status_report true token_dir config_path [("full_name", full_name)]
    | inl _ =>
        status_report false token_dir config_path
          [("error", JStr "Tokens expired or invalid")]
    end
  else status_report false token_dir config_path [].
Proof.
  cbv zeta. unfold status_data, fetch_outcome, try_except_exit, get_full_name,
    method, ensure_authenticated, set_data, try_except.
  destruct (token_file_exists client Api_get_full_name); cbn [negb];
    [|intros _; reflexivity].
  unfold bind, tell, raise, ret, lift, modify; cbn [fst snd globals locals log].
  destruct (login_failure client Api_get_full_name) as [e|];
    cbn [fst snd globals locals log]; [intros _; reflexivity|].
  destruct (upstream client Api_get_full_name) as [e|n];
    cbn [fst snd globals locals log]; [|intros _; reflexivity].
  destruct e; cbn [fst snd locals]; intros H; try discriminate H; reflexivity.
Qed.

(** X23.  [status] handles the exit of the wrapper and nothing else:
    when the tokens load and the fetch of the name raises anything
    but an exit, the command ends with that exception instead of a
    report. *)
Theorem status_upstream_error_escapes (p : proc dict) (e : exn) :
  authenticated client Api_get_full_name = true ->
  upstream client Api_get_full_name = inl e ->
  is_exit e = false ->
  fst (status_data client token_dir config_path p) = inl e.
Proof.
  unfold authenticated. intros A U NE.
  unfold status_data, try_except_exit, get_full_name,
    method, ensure_authenticated, set_data, try_except.
  destruct (token_file_exists client Api_get_full_name); [|discriminate].
  destruct (login_failure client Api_get_full_name); [discriminate|].
  cbn [negb]. unfold bind, tell, raise, ret, lift, modify.
  cbn [fst snd globals locals log]. rewrite U. cbn [fst snd].
  destruct e; try discriminate NE; reflexivity.
Qed.

End Status.

(** ** The read commands *)

(** X24.  A read command makes one client call, for the date given
    or, when none or an empty one is given, for today, and emits
    what the call returns; when the call raises, the wrapper's exit
    included, the command ends with that exception right after the
    call and emits nothing. *)
Theorem read_command_fetch_then_emit (client : GarminClient) (today : string)
  (emit_data : json -> M unit unit)
  (command : option string -> M unit unit) (fetch : string -> api)
  (date_str : option string) (p : proc unit) :
  In (command, fetch) (read_commands client today emit_data) ->
  let called := fetch (or_today today date_str) in
  command date_str p =
  match fetch_outcome client called with
  | inr data => emit_data data (logged p (fetch_events client called))
  | inl e => (inl e, logged p (fetch_events client called))
  end.
Proof.
  unfold read_commands. intros Hin. cbv zeta.
  repeat (destruct Hin as [Eq|Hin]; [injection Eq as <- <-|]);
    try contradiction;
    unfold sleep, heart_rate, stress, body_battery, training_status,
      training_readiness, vo2max, stats, body_composition;
    unfold_block;
    match goal with
    | |- context [fetch_outcome ?c ?a] => destruct (fetch_outcome c a)
    end; reflexivity.
Qed.

(** ** Entries that depend on their own fetch only *)

Section BlockAgree.

Variables c1 c2 : GarminClient.
Variable today : string.

Lemma context_profile_agree :
  agree c1 c2 Api_get_user_profile -> agree c1 c2 Api_get_full_name ->
  context_profile c1 = context_profile c2.
Proof.
  intros A B. unfold context_profile, get_user_profile, get_full_name.
  now rewrite (method_agree _ _ _ A), (method_agree _ _ _ B).
Qed.

Lemma context_stats_agree :
  agree c1 c2 (Api_get_user_summary today) ->
  context_stats c1 today = context_stats c2 today.
Proof.
  intros A. unfold context_stats, get_user_summary.
  now rewrite (method_agree _ _ _ A).
Qed.

Lemma context_heart_rate_agree :
  agree c1 c2 (Api_get_heart_rates today) ->
  context_heart_rate c1 today = context_heart_rate c2 today.
Proof.
  intros A. unfold context_heart_rate, get_heart_rates.
  now rewrite (method_agree _ _ _ A).
Qed.

Lemma context_sleep_agree :
  agree c1 c2 (Api_get_sleep_data today) ->
  context_sleep c1 today = context_sleep c2 today.
Proof.
  intros A. unfold context_sleep, get_sleep_data.
  now rewrite (method_agree _ _ _ A).
Qed.

Lemma context_body_battery_agree :
  agree c1 c2 (Api_get_body_battery today) ->
  context_body_battery c1 today = context_body_battery c2 today.
Proof.
  intros A. unfold context_body_battery, get_body_battery.
  now rewrite (method_agree _ _ _ A).
Qed.

Lemma context_stress_agree :
  agree c1 c2 (Api_get_stress_data today) ->
  context_stress c1 today = context_stress c2 today.
Proof.
  intros A. unfold context_stress, get_stress_data.
  now rewrite (method_agree _ _ _ A).
Qed.

Lemma context_training_status_agree :
  agree c1 c2 (Api_get_training_status today) ->
  context_training_status c1 today = context_training_status c2 today.
Proof.
  intros A. unfold context_training_status, get_training_status.
  now rewrite (method_agree _ _ _ A).
Qed.

Lemma context_training_readiness_agree :
  agree c1 c2 (Api_get_training_readiness today) ->
  context_training_readiness c1 today = context_training_readiness c2 today.
Proof.
  intros A. unfold context_training_readiness, get_training_readiness.
  now rewrite (method_agree _ _ _ A).
Qed.

Lemma context_vo2max_agree :
  agree c1 c2 (Api_get_max_metrics today) ->
  context_vo2max c1 today = context_vo2max c2 today.
Proof.
  intros A. unfold context_vo2max, get_max_metrics.
  now rewrite (method_agree _ _ _ A).
Qed.

Lemma context_body_composition_agree :
  agree c1 c2 (Api_get_body_composition today) ->
  context_body_composition c1 today = context_body_composition c2 today.
Proof.
  intros A. unfold context_body_composition, get_body_composition.
  now rewrite (method_agree _ _ _ A).
Qed.

Lemma context_activities_agree (limit : Z) :
  agree c1 c2 (Api_get_activities 0 limit) ->
  context_activities c1 limit = context_activities c2 limit.
Proof.
  intros A. unfold context_activities, get_activities.
  now rewrite (method_agree _ _ _ A).
Qed.

End BlockAgree.

(** The VO2max block writes its two keys without reading the rest of
    [training]. *)
Lemma context_vo2max_congr (client : GarminClient) (today : string) (g : State)
  (d1 d2 : dict) (k : string) :
  dict_lookup k d1 = dict_lookup k d2 ->
  dict_lookup k (probe_update InTraining (context_vo2max client today) g d1) =
  dict_lookup k (probe_update InTraining (context_vo2max client today) g d2).
Proof.
  intros E. unfold context_vo2max.
  unfold probe_update, probe; simpl; unfold_block.
  repeat first [rewrite method_run | progress run_block | case_scrutinee];
    repeat apply dict_lookup_set_congr; exact E.
Qed.

Section EntryIsolated.

Variable render_human : RecordSet -> list text.
Variables c1 c2 : GarminClient.
Variable today : string.
Variable activities_limit : Z.
Variables include_health include_stats include_training include_weight : bool.
Variable focus : option string.
Variable state : State.

(** X25.  Inside a section too, an entry depends on its own fetch
    only.  When two clients meet the same thing at every fetch of
    [context] but one, every place written for another fetch holds
    the same value in both results, the places this one fetch also
    writes apart: a failed sleep fetch changes nothing of the heart
    rate, body battery or stress entries next to it. *)
Theorem context_entry_isolated (a a' : api) (place : list string) :
  (forall x, In x (context_fetches today activities_limit) -> x <> a ->
             agree c1 c2 x) ->
  In a' (context_fetches today activities_limit) ->
  In place (map fst (failure_record a')) ->
  ~ In place (map fst (failure_record a)) ->
  at_path place
    (JDict (context_result render_human c1 today activities_limit include_health
              include_stats include_training include_weight focus state)) =
  at_path place
    (JDict (context_result render_human c2 today activities_limit include_health
              include_stats include_training include_weight focus state)).
Proof.
  intros Hag Hin Hpl Hnot. rewrite !context_result_composite.
  assert (A : forall x, In x (context_fetches today activities_limit) ->
                        In place (map fst (failure_record x)) -> agree c1 c2 x).
  { intros x Hx Hp. apply Hag; [exact Hx|]. intros ->. now apply Hnot. }
  clear Hag Hnot.
  unfold context_fetches in *. cbn [In] in Hin.
  assert (S : forall s rest,
             place = section_key s :: rest ->
             at_path rest (section_value c1 today activities_limit state s) =
             at_path rest (section_value c2 today activities_limit state s) ->
             at_path place
               (JDict (composite c1 today activities_limit state include_health
                         include_stats include_training include_weight focus)) =
             at_path place
               (JDict (composite c2 today activities_limit state include_health
                         include_stats include_training include_weight focus))).
  { intros s rest -> E. cbn [at_path]. rewrite !composite_lookup.
    destruct (enabled include_health include_stats include_training
                include_weight focus s); [exact E|reflexivity]. }
  repeat (destruct Hin as [<-|Hin]); try contradiction;
    cbn [failure_record map fst In] in Hpl;
    repeat (destruct Hpl as [<-|Hpl]); try contradiction.
  - apply (S Profile []); [reflexivity|]. cbn [at_path section_value]. f_equal.
    rewrite (context_profile_agree c1 c2); [reflexivity| |];
      apply A; cbn; tauto.
  - apply (S Profile []); [reflexivity|]. cbn [at_path section_value]. f_equal.
    rewrite (context_profile_agree c1 c2); [reflexivity| |];
      apply A; cbn; tauto.
  - apply (S Stats []); [reflexivity|]. cbn [at_path section_value]. f_equal.
    rewrite (context_stats_agree c1 c2 today); [reflexivity|]. apply A; cbn; tauto.
  - apply (S Health ["heart_rate"]); [reflexivity|].
    cbn [at_path section_value]. unfold health_dict.
    rewrite !dict_lookup_set_other by discriminate.
    rewrite !dict_lookup_set_same.
    rewrite (context_heart_rate_agree c1 c2 today); [reflexivity|]. apply A; cbn; tauto.
  - apply (S Health ["sleep"]); [reflexivity|].
    cbn [at_path section_value]. unfold health_dict.
    rewrite !dict_lookup_set_other by discriminate.
    rewrite !dict_lookup_set_same.
    rewrite (context_sleep_agree c1 c2 today); [reflexivity|]. apply A; cbn; tauto.
  - apply (S Health ["body_battery"]); [reflexivity|].
    cbn [at_path section_value]. unfold health_dict.
    rewrite !dict_lookup_set_other by discriminate.
    rewrite !dict_lookup_set_same.
    rewrite (context_body_battery_agree c1 c2 today); [reflexivity|]. apply A; cbn; tauto.
  - apply (S Health ["stress"]); [reflexivity|].
    cbn [at_path section_value]. unfold health_dict.
    rewrite !dict_lookup_set_same.
    rewrite (context_stress_agree c1 c2 today); [reflexivity|]. apply A; cbn; tauto.
  - apply (S Training ["status"]); [reflexivity|].
    cbn [at_path section_value]. unfold training_dict.
    rewrite !context_vo2max_preserves by discriminate.
    rewrite !dict_lookup_set_other by discriminate.
    rewrite !dict_lookup_set_same.
    rewrite (context_training_status_agree c1 c2 today); [reflexivity|]. apply A; cbn; tauto.
  - apply (S Training ["readiness"]); [reflexivity|].
    cbn [at_path section_value]. unfold training_dict.
    rewrite !context_vo2max_preserves by discriminate.
    rewrite !dict_lookup_set_same.
    rewrite (context_training_readiness_agree c1 c2 today); [reflexivity|].
    apply A; cbn; tauto.
  - apply (S Training ["vo2max_running"]); [reflexivity|].
    cbn [at_path section_value]. unfold training_dict.
    rewrite (context_vo2max_agree c1 c2 today) by (apply A; cbn; tauto).
    erewrite context_vo2max_congr; [reflexivity|].
    now rewrite !dict_lookup_set_other by discriminate.
  - apply (S Training ["vo2max_cycling"]); [reflexivity|].
    cbn [at_path section_value]. unfold training_dict.
    rewrite (context_vo2max_agree c1 c2 today) by (apply A; cbn; tauto).
    erewrite context_vo2max_congr; [reflexivity|].
    now rewrite !dict_lookup_set_other by discriminate.
  - apply (S Weight ["current_kg"]); [reflexivity|].
    cbn [at_path section_value]. unfold weight_dict.
    rewrite (context_body_composition_agree c1 c2 today) by (apply A; cbn; tauto).
    reflexivity.
  - apply (S Weight ["body_fat_pct"]); [reflexivity|].
    cbn [at_path section_value]. unfold weight_dict.
    rewrite (context_body_composition_agree c1 c2 today) by (apply A; cbn; tauto).
    reflexivity.
  - apply (S Weight ["muscle_mass_kg"]); [reflexivity|].
    cbn [at_path section_value]. unfold weight_dict.
    rewrite (context_body_composition_agree c1 c2 today) by (apply A; cbn; tauto).
    reflexivity.
  - apply (S Activities []); [reflexivity|]. cbn [at_path section_value]. f_equal.
    rewrite (context_activities_agree c1 c2 activities_limit); [reflexivity|]. apply A; cbn; tauto.
Qed.

End EntryIsolated.

(** ** Sample runs *)

(** Divisions by 1000, as Python prints their results:
    [70.12339999999999], [1.2345678901234568e+16], [70.5], [0.001]
    and [5e-324 / 1000 = 0.0]. *)
Example div1000_rounds :
  div1000 (JNum 701234 1) = inr (JNum 7012339999999999 14) /\
  div1000 (JInt 12345678901234567891) = inr (JNum 123456789012345680 1) /\
  div1000 (JInt 70500) = inr (JNum 705 1) /\
  div1000 (JBool true) = inr (JNum 1 3) /\
  div1000 (JNum 5 324) = inr (JNum 0 1).
Proof. repeat split; reflexivity. Qed.

Lemma context_stats_normalized_witness :
  dict_lookup "today_stats"
    (context_result no_human (replying sparse_summary mock_garminconnect)
       "2025-01-15" 5 true true true true None default_state)
  = Some (JDict [("totalSteps", JInt 4200);
                 ("totalDistanceMeters", JNull);
                 ("totalKilocalories", JNull);
                 ("floorsClimbed", JNull);
                 ("activeTimeInSeconds", JNull);
                 ("minHeartRate", JNull);
                 ("maxHeartRate", JNull);
                 ("restingHeartRate", JNull)]).
Proof.
  apply (context_stats_normalized no_human
           (replying sparse_summary mock_garminconnect) "2025-01-15" 5
           true true true true None default_state
           (JDict [("totalSteps", JInt 4200); ("privacyProtected", JBool true)]));
    reflexivity.
Defined.

Lemma context_profile_entry_witness :
  dict_lookup "profile"
    (context_result no_human (replying nameless mock_garminconnect)
       "2025-01-15" 5 true true true true None default_state)
  = Some JNull.
Proof.
  apply (context_profile_entry no_human
           (replying nameless mock_garminconnect) "2025-01-15" 5
           true true true true None default_state
           (JDict [("displayName", JStr "testuser");
                   ("fullName", JStr "Test User");
                   ("userName", JStr "testuser");
                   ("profileImageUrlLarge", JStr "https://example.com/image.jpg")]));
    reflexivity.
Defined.

Lemma context_health_keys_witness :
  exists h,
    dict_lookup "health"
      (context_result no_human
         (failing [Health] connection_error mock_garminconnect)
         "2025-01-15" 5 true true true true (Some "health") default_state)
    = Some (JDict h) /\
    dict_keys h = ["heart_rate"; "sleep"; "body_battery"; "stress"].
Proof.
  apply (context_health_keys no_human
           (failing [Health] connection_error mock_garminconnect)
           "2025-01-15" 5 true true true true (Some "health") default_state).
  reflexivity.
Defined.

Lemma context_sleep_entry_witness :
  at_path ["health"; "sleep"]
    (JDict (context_result no_human (replying short_night mock_garminconnect)
              "2025-01-15" 5 true true true true None default_state))
  = Some (JDict [("sleepTimeSeconds", JNull);
                 ("deepSleepSeconds", JInt 7200);
                 ("lightSleepSeconds", JNull);
                 ("remSleepSeconds", JNull);
                 ("awakeSleepSeconds", JNull)]).
Proof.
  apply (context_sleep_entry no_human
           (replying short_night mock_garminconnect) "2025-01-15" 5
           true true true true None default_state
           (JDict [("dailySleepDTO", JDict [("deepSleepSeconds", JInt 7200)])]));
    reflexivity.
Defined.

Lemma context_body_battery_latest_witness :
  at_path ["health"; "body_battery"]
    (JDict (context_result no_human mock_garminconnect
              "2025-01-15" 5 true true true true None default_state))
  = Some (JDict [("bodyBatteryLevel", JInt 80);
                 ("timestamp", JStr "2025-01-15T12:00:00")]).
Proof.
  apply (context_body_battery_latest no_human mock_garminconnect "2025-01-15" 5
           true true true true None default_state
           (JList [JDict [("bodyBatteryLevel", JInt 75);
                          ("timestamp", JStr "2025-01-15T08:00:00")];
                   JDict [("bodyBatteryLevel", JInt 80);
                          ("timestamp", JStr "2025-01-15T12:00:00")]]));
    reflexivity.
Defined.

Lemma context_heart_rate_entry_witness :
  at_path ["health"; "heart_rate"]
    (JDict (context_result no_human mock_garminconnect
              "2025-01-15" 5 true true true true None default_state))
  = Some (JDict [("resting", JInt 55); ("min", JInt 45); ("max", JInt 165)]).
Proof.
  apply (context_heart_rate_entry no_human mock_garminconnect "2025-01-15" 5
           true true true true None default_state
           (JDict [("restingHeartRate", JInt 55);
                   ("minHeartRate", JInt 45);
                   ("maxHeartRate", JInt 165);
                   ("heartRateValues", JList [])]));
    reflexivity.
Defined.

Lemma context_stress_entry_witness :
  at_path ["health"; "stress"]
    (JDict (context_result no_human (replying no_stress mock_garminconnect)
              "2025-01-15" 5 true true true true None default_state))
  = Some JNull.
Proof.
  apply (context_stress_entry no_human (replying no_stress mock_garminconnect)
           "2025-01-15" 5 true true true true None default_state (JDict []));
    reflexivity.
Defined.

Lemma context_training_keys_witness :
  exists t,
    dict_lookup "training"
      (context_result no_human (replying no_metrics mock_garminconnect)
         "2025-01-15" 5 true true true true None default_state)
    = Some (JDict t) /\
    dict_keys t = ["status"; "readiness"].
Proof.
  apply (context_training_keys no_human (replying no_metrics mock_garminconnect)
           "2025-01-15" 5 true true true true None default_state).
  reflexivity.
Defined.

Lemma context_vo2max_pair_witness :
  (at_path ["training"; "vo2max_running"]
     (JDict (context_result no_human (replying runner_only mock_garminconnect)
               "2025-01-15" 5 true true true true None default_state)),
   at_path ["training"; "vo2max_cycling"]
     (JDict (context_result no_human (replying runner_only mock_garminconnect)
               "2025-01-15" 5 true true true true None default_state)))
  = (Some JNull, Some JNull).
Proof.
  apply (context_vo2max_pair no_human (replying runner_only mock_garminconnect)
           "2025-01-15" 5 true true true true None default_state
           [("generic", JDict [("vo2MaxValue", JNum 520 1)]); ("cycling", JNull)]);
    reflexivity.
Defined.

Lemma context_weight_keys_witness :
  exists w,
    dict_lookup "weight"
      (context_result no_human (replying never_weighed mock_garminconnect)
         "2025-01-15" 5 true true true true None default_state)
    = Some (JDict w) /\
    dict_keys w = [].
Proof.
  apply (context_weight_keys no_human (replying never_weighed mock_garminconnect)
           "2025-01-15" 5 true true true true None default_state).
  reflexivity.
Defined.


Lemma context_activities_all_or_nothing_witness :
  dict_lookup "recent_activities"
    (context_result no_human (replying one_bad_activity mock_garminconnect)
       "2025-01-15" 5 true true true true None default_state)
  = Some (JList []).
Proof.
  apply (context_activities_all_or_nothing no_human
           (replying one_bad_activity mock_garminconnect)
           "2025-01-15" 5 true true true true None default_state
           [mock_activity; JNull]);
    reflexivity.
Defined.

Lemma context_failures_silent_witness :
  stderr_lines
    (context_events no_human
       (failing sections connection_error mock_garminconnect)
       "2025-01-15" 5 true true true true None default_state) = [].
Proof.
  apply (context_failures_silent no_human
           (failing sections connection_error mock_garminconnect)
           "2025-01-15" 5 true true true true None default_state).
  - reflexivity.
  - intros c. reflexivity.
Defined.

Lemma context_verbose_warns_witness :
  In "warning: Failed to fetch stats: HTTP 503"
     (stderr_lines
        (context_events no_human
           (failing [Stats] connection_error mock_garminconnect)
           "2025-01-15" 5 true true true true None verbose_state)).
Proof.
  apply (context_verbose_warns no_human
           (failing [Stats] connection_error mock_garminconnect)
           "2025-01-15" 5 true true true true None verbose_state
           Stats (Api_get_user_summary "2025-01-15") connection_error).
  - reflexivity.
  - simpl. tauto.
  - reflexivity.
  - reflexivity.
Defined.


Lemma delete_confirmed_as_forced_witness :
  delete_command no_human mock_garminconnect (fun _ => inr true)
    (DeleteWeight 12345678) false (start default_state tt) =
  delete_command no_human mock_garminconnect (fun _ => inr true)
    (DeleteWeight 12345678) true
    (logged (start default_state tt) [Prompt "Delete weight entry 12345678?"]).
Proof.
  apply (delete_confirmed_as_forced no_human mock_garminconnect
           (fun _ => inr true) (DeleteWeight 12345678) (start default_state tt)).
  reflexivity.
Defined.

Lemma delete_failure_propagates_witness :
  delete_command no_human (replying delete_refused mock_garminconnect)
    (fun _ => inr true) (DeleteActivity 42) true (start default_state tt) =
  (inl connection_error,
   logged (start default_state tt)
     [Called (Api_delete_activity 42); Login; Upstream (Api_delete_activity 42)]).
Proof.
  apply (delete_failure_propagates no_human
           (replying delete_refused mock_garminconnect) (fun _ => inr true)
           (DeleteActivity 42) (start default_state tt) connection_error).
  reflexivity.
Defined.

Lemma status_report_cases_witness :
  locals (snd (status_data mock_garminconnect "/home/u/.config/tokens"
                 "/home/u/.config/config.toml" (start default_state []))) =
  [("authenticated", JBool true);
   ("token_dir", JStr "/home/u/.config/tokens");
   ("config_path", JStr "/home/u/.config/config.toml");
   ("full_name", JStr "Test User")].
Proof.
  apply (status_report_cases mock_garminconnect "/home/u/.config/tokens"
           "/home/u/.config/config.toml" (start default_state [])).
  reflexivity.
Defined.

Lemma status_upstream_error_escapes_witness :
  fst (status_data (replying nameless mock_garminconnect) "/home/u/.config/tokens"
         "/home/u/.config/config.toml" (start default_state [])) =
  inl connection_error.
Proof.
  apply (status_upstream_error_escapes (replying nameless mock_garminconnect)
           "/home/u/.config/tokens" "/home/u/.config/config.toml"
           (start default_state []) connection_error);
    reflexivity.
Defined.

Lemma read_command_fetch_then_emit_witness :
  sleep signed_out "2025-01-15" (fun _ => ret tt) (Some EmptyString)
    (start default_state tt) =
  (inl (Exit 2),
   logged (start default_state tt)
     [Called (Api_get_sleep_data "2025-01-15");
      Stderr "error: Not authenticated. Run 'garmin-connect auth login' first."]).
Proof.
  apply (read_command_fetch_then_emit signed_out "2025-01-15" (fun _ => ret tt)
           (sleep signed_out "2025-01-15" (fun _ => ret tt)) Api_get_sleep_data
           (Some EmptyString) (start default_state tt)).
  simpl. tauto.
Defined.

Lemma context_entry_isolated_witness :
  at_path ["health"; "stress"]
    (JDict (context_result no_human mock_garminconnect
              "2025-01-15" 5 true true true true None default_state)) =
  at_path ["health"; "stress"]
    (JDict (context_result no_human (replying sleepless mock_garminconnect)
              "2025-01-15" 5 true true true true None default_state)).
Proof.
  apply (context_entry_isolated no_human mock_garminconnect
           (replying sleepless mock_garminconnect) "2025-01-15" 5
           true true true true None default_state
           (Api_get_sleep_data "2025-01-15") (Api_get_stress_data "2025-01-15")
           ["health"; "stress"]).
  - intros x Hx N. simpl in Hx.
    repeat (destruct Hx as [<-|Hx]); try contradiction;
      repeat split; reflexivity.
  - simpl. tauto.
  - simpl. tauto.
  - simpl. intros [H|[]]. discriminate H.
Defined.
